(** * co-learning-lounge: the machine-translation notebook and the
      callables-and-methods notebook

    A shallow embedding of the Python code cells of
    [Phase_1 Machine_Translation.ipynb] (tokenizers, [Encoder], [Decoder],
    [Seq2Seq], [train], [epoch_time], the training loop) and of the
    classes of the callables tutorial ([Adder], [Person]).

    Functions of the translation notebook become programs of a small free
    monad [py]: a name that a function body never assigns is looked up in
    the notebook's global namespace ([LoadGlobal], raising [NameError]
    when unbound), and every operation implemented by a third-party
    library (attribute access and calls on torch objects, item assignment
    on a tensor, iteration over a data iterator) is an external call
    [Ext] answered by a handler.  The interpreter [run] records the
    external calls with their outcomes, in order.

    The classes of the tutorial notebook live on a heap of instance
    dictionaries, with Python's attribute lookup and call dispatch. *)

From Stdlib Require Import ZArith QArith Qround Lqa String List SpecFloat.
From stdpp Require Import gmap strings list.

Local Open Scope Z_scope.
Local Open Scope string_scope.

Set Warnings "-register-all".

(** ** Python values and exceptions *)

Inductive value : Type :=
| VNone
| VInt (z : Z)
| VFloat (q : Q)                        (* a float, as the rational it denotes *)
| VStr (s : string)
| VObj (name : string)                  (* an object the notebook names *)
| VRef (l : N)                          (* an instance on the heap *)
| VFunc (cls name : string)             (* a function defined in a class body *)
| VMethod (recv : value) (name : string)    (* a bound method *)
| VData (cls : string) (fields : list value)  (* a library object and its payload *)
| VTuple (vs : list value)
| VList (vs : list value).

Inductive exn : Type :=
| NameError (x : string)
| AttributeError (o : value) (a : string)
| TypeError (msg : string)
| ValueError (msg : string)
| ZeroDivisionError
| LibraryError (msg : string).

(** Structural equality test on values. *)
Fixpoint value_eqb (a b : value) : bool :=
  let fix go (xs ys : list value) : bool :=
    match xs, ys with
    | [], [] => true
    | x :: xs', y :: ys' => value_eqb x y && go xs' ys'
    | _, _ => false
    end in
  match a, b with
  | VNone, VNone => true
  | VInt x, VInt y => Z.eqb x y
  | VFloat x, VFloat y => Z.eqb (Qnum x) (Qnum y) && Pos.eqb (Qden x) (Qden y)
  | VStr x, VStr y => String.eqb x y
  | VObj x, VObj y => String.eqb x y
  | VRef x, VRef y => N.eqb x y
  | VFunc c x, VFunc c' y => String.eqb c c' && String.eqb x y
  | VMethod r x, VMethod r' y => value_eqb r r' && String.eqb x y
  | VData c xs, VData c' ys => String.eqb c c' && go xs ys
  | VTuple xs, VTuple ys => go xs ys
  | VList xs, VList ys => go xs ys
  | _, _ => false
  end.

(** ** Arithmetic of the numeric tower (int and float) *)

Definition to_Q (v : value) : option Q :=
  match v with
  | VInt z => Some (inject_Z z)
  | VFloat q => Some q
  | _ => None
  end.

Definition unsupported (op : string) : exn :=
  TypeError ("unsupported operand type(s) for " ++ op).

Definition py_add (a b : value) : exn + value :=
  match a, b with
  | VInt x, VInt y => inr (VInt (x + y))
  | VStr x, VStr y => inr (VStr (x ++ y))
  | VList x, VList y => inr (VList (x ++ y))
  | VTuple x, VTuple y => inr (VTuple (x ++ y))
  | _, _ =>
      match to_Q a, to_Q b with
      | Some x, Some y => inr (VFloat (x + y))
      | _, _ => inl (unsupported "+")
      end
  end.

Definition py_sub (a b : value) : exn + value :=
  match a, b with
  | VInt x, VInt y => inr (VInt (x - y))
  | _, _ =>
      match to_Q a, to_Q b with
      | Some x, Some y => inr (VFloat (x - y))
      | _, _ => inl (unsupported "-")
      end
  end.

Definition py_mul (a b : value) : exn + value :=
  match a, b with
  | VInt x, VInt y => inr (VInt (x * y))
  | _, _ =>
      match to_Q a, to_Q b with
      | Some x, Some y => inr (VFloat (x * y))
      | _, _ => inl (unsupported "*")
      end
  end.

(** True division [a / b] always yields a float. *)
Definition py_truediv (a b : value) : exn + value :=
  match to_Q a, to_Q b with
  | Some x, Some y =>
      if Qeq_bool y 0 then inl ZeroDivisionError else inr (VFloat (x / y))
  | _, _ => inl (unsupported "/")
  end.

(** [int(x)] truncates a float toward zero. *)
Definition py_int (v : value) : exn + value :=
  match v with
  | VInt z => inr (VInt z)
  | VFloat q => inr (VInt (Z.quot (Qnum q) (Zpos (Qden q))))
  | _ => inl (TypeError "int() argument must be a number")
  end.

(** ** External calls and the program monad *)

Inductive extcall : Type :=
| GetAttr (o : value) (a : string)          (* o.a *)
| Call (f : value) (args : list value)      (* f(args) *)
| SetItem (o i v : value)                   (* o[i] = v *)
| Iter (o : value)                          (* the items o yields, as a VList *)
| Len (o : value).                          (* len(o) *)

Inductive py (A : Type) : Type :=
| Ret (a : A)
| Raise (e : exn)
| LoadGlobal (x : string) (k : value -> py A)
| Ext (c : extcall) (k : value -> py A).

Arguments Ret {A} a.
Arguments Raise {A} e.
Arguments LoadGlobal {A} x k.
Arguments Ext {A} c k.

Fixpoint bind {A B : Type} (p : py A) (f : A -> py B) : py B :=
  match p with
  | Ret a => f a
  | Raise e => Raise e
  | LoadGlobal x k => LoadGlobal x (fun v => bind (k v) f)
  | Ext c k => Ext c (fun v => bind (k v) f)
  end.

Definition load (x : string) : py value := LoadGlobal x Ret.
Definition ext (c : extcall) : py value := Ext c Ret.
Definition lift {A} (r : exn + A) : py A :=
  match r with inl e => Raise e | inr a => Ret a end.

Declare Scope py_scope.
Delimit Scope py_scope with py.
Notation "x <- c1 ;; c2" := (bind c1 (fun x => c2))
  (at level 100, c1 at next level, right associativity) : py_scope.
Notation "c1 ;;; c2" := (bind c1 (fun _ => c2))
  (at level 100, right associativity) : py_scope.
Local Open Scope py_scope.

(** Names of the builtin namespace that the notebook's code refers to. *)
Definition builtins : list string :=
  ["range"; "enumerate"; "len"; "int"; "float"; "print"; "next"; "iter";
   "vars"; "sum"; "super"; "setattr"; "getattr"; "type"].

(** Global name resolution: module globals first, then builtins. *)
Definition lookup_name (g : gmap string value) (x : string) : option value :=
  match g !! x with
  | Some v => Some v
  | None => if bool_decide (x ∈ builtins) then Some (VObj x) else None
  end.

(** An external call together with its outcome. *)
Definition event : Type := extcall * (exn + value).

Section Run.
Context {S : Type}.
(** The notebook's global namespace and the library handler. *)
Variable g : gmap string value.
Variable lib : extcall -> S -> S * (exn + value).

(** [run p s] is the list of external calls made, the final library
    state, and the exception raised or the value returned. *)
Fixpoint run {A : Type} (p : py A) (s : S) : list event * S * (exn + A) :=
  match p with
  | Ret a => ([], s, inr a)
  | Raise e => ([], s, inl e)
  | LoadGlobal x k =>
      match lookup_name g x with
      | Some v => run (k v) s
      | None => ([], s, inl (NameError x))
      end
  | Ext c k =>
      match lib c s with
      | (s', inr v) =>
          match run (k v) s' with
          | (t, s'', r) => ((c, inr v) :: t, s'', r)
          end
      | (s', inl e) => ([(c, inl e)], s', inl e)
      end
  end.

Definition trace {A} (p : py A) (s : S) : list event := (run p s).1.1.
Definition final {A} (p : py A) (s : S) : S := (run p s).1.2.
Definition result {A} (p : py A) (s : S) : exn + A := (run p s).2.
End Run.

(** Tuple unpacking [a, b = r]: tuples and lists are unpacked directly,
    any other object through the iteration protocol. *)
Definition unpack2 (r : value) : py (value * value) :=
  let two (vs : list value) : py (value * value) :=
    match vs with
    | [a; b] => Ret (a, b)
    | _ => Raise (ValueError "expected 2 values to unpack")
    end in
  match r with
  | VTuple vs | VList vs => two vs
  | _ =>
      items <- ext (Iter r) ;;
      match items with
      | VList vs => two vs
      | _ => Raise (TypeError "cannot unpack non-iterable object")
      end
  end.

(** [range(lo, hi)] for an integer [hi]. *)
Definition py_range (lo : Z) (hi : value) : py (list value) :=
  match hi with
  | VInt n => Ret (map (fun i => VInt (lo + Z.of_nat i)) (seq 0 (Z.to_nat (n - lo))))
  | _ => Raise (TypeError "range() argument must be an integer")
  end.

(** ** The translation notebook's cells and global namespace *)

(** A top-level statement of a code cell, as far as name binding goes. *)
Inductive stmt : Type :=
| Binds (names : list string)        (* import, def, class, assignment, for *)
| Assign (name : string) (v : value) (* assignment of a literal *)
| EmptyAssign (name : string)        (* [name = ] with nothing on the right *)
| Other.                             (* expression statement, comment, shell *)

Definition stmt_parses (st : stmt) : bool :=
  match st with EmptyAssign _ => false | _ => true end.

Definition cell_parses (c : list stmt) : bool := forallb stmt_parses c.

Definition stmt_bindings (st : stmt) : list (string * value) :=
  match st with
  | Binds ns => map (fun x => (x, VObj x)) ns
  | Assign x v => [(x, v)]
  | _ => []
  end.

(** A cell that does not parse binds nothing; otherwise (at best) it
    binds every name its statements assign. *)
Definition cell_bindings (c : list stmt) : list (string * value) :=
  if cell_parses c then concat (map stmt_bindings c) else [].

Definition hyperparameter_cell : list stmt :=
  [EmptyAssign "INPUT_DIM"; EmptyAssign "OUTPUT_DIM"; EmptyAssign "ENC_EMB_DIM";
   EmptyAssign "DEC_EMB_DIM"; EmptyAssign "HID_DIM";
   Assign "N_LAYERS" (VInt 2); Assign "DROPOUT" (VFloat (1 # 2))].

Definition testing_cell : list stmt :=
  [EmptyAssign "test_loss"; Other].

Definition notebook_cells : list (list stmt) :=
  [ [Binds ["time"]; Binds ["math"]; Binds ["random"]; Binds ["spacy"];
     Binds ["np"]; Binds ["torch"]; Binds ["nn"]; Binds ["optim"];
     Binds ["Multi30k"]; Binds ["Field"; "BucketIterator"]];
    [Other];
    [Binds ["spacy_de"]; Binds ["spacy_en"]];
    [Binds ["tokenize_de"]];
    [Binds ["tokenize_en"]];
    [Binds ["SRC"]; Binds ["TRG"]];
    [Binds ["train_data"; "valid_data"; "test_data"]];
    [Other; Other; Other];
    [Other];
    [Other];
    [Other; Other];
    [Binds ["device"]; Other];
    [Assign "BATCH_SIZE" (VInt 64)];
    [Binds ["train_iterator"; "valid_iterator"; "test_iterator"]];
    [Binds ["temp"]; Other];
    [Binds ["Encoder"]];
    [Binds ["Decoder"]];
    [Binds ["Seq2Seq"]];
    hyperparameter_cell;
    [Binds ["encoder"]; Binds ["decoder"]; Binds ["model"]];
    [Binds ["init_weights"]; Other];
    [Binds ["count_parameters"]; Other];
    [Binds ["optimizer"]];
    [Binds ["criterion"]];
    [Binds ["train"]];
    [Binds ["evaluate"]];
    [Binds ["epoch_time"]];
    [Assign "N_EPOCHS" (VInt 10); Assign "CLIP" (VInt 2); Binds ["best_valid_loss"];
     Binds ["epoch"; "start_time"; "train_loss"; "valid_loss"; "end_time";
            "epoch_mins"; "epoch_secs"]];
    testing_cell ].

(** The global namespace after running the cells as shipped, taking every
    cell that parses to run to completion (the most names the notebook
    can bind): each bound name denotes the object the notebook gives it. *)
Definition notebook_globals : gmap string value :=
  list_to_map (concat (map cell_bindings notebook_cells)).

(** ** Tokenizers *)

Definition tokenize_de (text : value) : py value :=
  tokens <- load "tokens" ;;
  Ret tokens.

Definition tokenize_en (text : value) : py value :=
  tokens <- load "tokens" ;;
  Ret tokens.

(** ** Model classes

    An instance of a model class is the dictionary of attributes its
    [__init__] assigns ([super().__init__()] assigns none that the code
    reads); reading an attribute that was never assigned raises
    [AttributeError]. *)

Definition getattr_self (cls : string) (self : gmap string value) (a : string)
  : py value :=
  match self !! a with
  | Some v => Ret v
  | None => Raise (AttributeError (VObj cls) a)
  end.

Module Encoder.

(** The embedding layer and the rnn are left undeclared. *)
Definition __init__ (input_dim embedding_dim hidden_dim num_layers dropout : value)
  : py (gmap string value) :=
  nn <- load "nn" ;;
  Dropout <- ext (GetAttr nn "Dropout") ;;
  d <- ext (Call Dropout [dropout]) ;;
  Ret (<["dropout" := d]>
        (<["num_layers" := num_layers]>
          (<["hidden_dim" := hidden_dim]> ∅))).

Definition forward (self : gmap string value) (src : value) : py value :=
  embedding <- getattr_self "Encoder" self "embedding" ;;
  embedded_input <- ext (Call embedding [src]) ;;
  dropout <- getattr_self "Encoder" self "dropout" ;;
  embedded_input <- ext (Call dropout [embedded_input]) ;;
  rnn <- getattr_self "Encoder" self "rnn" ;;
  r <- ext (Call rnn [embedded_input]) ;;
  oh <- unpack2 r ;;
  let '(outputs, hidden) := oh in
  Ret hidden.

End Encoder.

Module Decoder.

Definition __init__ (output_dim embedding_dim hidden_dim num_layers dropout : value)
  : py (gmap string value) :=
  nn <- load "nn" ;;
  Dropout <- ext (GetAttr nn "Dropout") ;;
  d <- ext (Call Dropout [dropout]) ;;
  Ret (<["dropout" := d]>
        (<["num_layers" := num_layers]>
          (<["hidden_dim" := hidden_dim]>
            (<["output_dim" := output_dim]> ∅)))).

Definition forward (self : gmap string value) (dec_input hidden : value)
  : py value :=
  unsqueeze <- ext (GetAttr dec_input "unsqueeze") ;;
  dec_input <- ext (Call unsqueeze [VInt 0]) ;;
  embedding <- getattr_self "Decoder" self "embedding" ;;
  dec_input_embedded <- ext (Call embedding [dec_input]) ;;
  dropout <- getattr_self "Decoder" self "dropout" ;;
  dec_input_embedded <- ext (Call dropout [dec_input_embedded]) ;;
  rnn <- getattr_self "Decoder" self "rnn" ;;
  r <- ext (Call rnn [dec_input_embedded; hidden]) ;;
  oh <- unpack2 r ;;
  let '(output, hidden) := oh in
  prediction <- load "prediction" ;;
  Ret (VTuple [prediction; hidden]).

End Decoder.

Module Seq2Seq.

Record t : Type := __init__ { encoder : value; decoder : value }.

(** The decoding loop [for step in range(1, trg_len)]; [hidden] is the
    loop-carried local, and [decoder_input] is never assigned in
    [forward], so each iteration reads it as a global. *)
Fixpoint decode_loop (self : t) (outputs : value) (steps : list value)
    (hidden : value) : py value :=
  match steps with
  | [] => Ret hidden
  | step :: steps' =>
      decoder_input <- load "decoder_input" ;;
      r <- ext (Call (decoder self) [decoder_input; hidden]) ;;
      oh <- unpack2 r ;;
      let '(output, hidden) := oh in
      ext (SetItem outputs step output) ;;;
      decode_loop self outputs steps' hidden
  end.

Definition forward (self : t) (src trg : value) : py value :=
  torch <- load "torch" ;;
  zeros <- ext (GetAttr torch "zeros") ;;
  trg_len <- load "trg_len" ;;
  batch_size <- load "batch_size" ;;
  trg_vocab_size <- load "trg_vocab_size" ;;
  z <- ext (Call zeros [trg_len; batch_size; trg_vocab_size]) ;;
  to <- ext (GetAttr z "to") ;;
  device <- load "device" ;;
  outputs <- ext (Call to [device]) ;;
  hidden <- ext (Call (encoder self) [src]) ;;
  trg_len <- load "trg_len" ;;
  steps <- py_range 1 trg_len ;;
  decode_loop self outputs steps hidden ;;;
  Ret outputs.

End Seq2Seq.

(** ** Training *)

(** One iteration of the loop of [train] on [batch]; the result is the
    updated [epoch_loss]. *)
Definition train_batch (model optimizer criterion clip batch epoch_loss : value)
  : py value :=
  src <- ext (GetAttr batch "src") ;;
  trg <- ext (GetAttr batch "trg") ;;
  (* zero the gradients *)
  step <- ext (GetAttr optimizer "step") ;;
  ext (Call step []) ;;;
  (* forward pass *)
  output <- ext (Call model [src; trg]) ;;
  loss <- ext (Call criterion [output; trg]) ;;
  (* backward pass *)
  backward <- ext (GetAttr loss "backward") ;;
  ext (Call backward []) ;;;
  (* gradient clipping *)
  nn <- load "nn" ;;
  utils <- ext (GetAttr nn "utils") ;;
  clip_grad_norm_ <- ext (GetAttr utils "clip_grad_norm_") ;;
  parameters <- ext (GetAttr model "parameters") ;;
  params <- ext (Call parameters []) ;;
  ext (Call clip_grad_norm_ [params; clip]) ;;;
  (* update the parameters of the model *)
  step <- ext (GetAttr optimizer "step") ;;
  ext (Call step []) ;;;
  (* update the loss *)
  item <- ext (GetAttr loss "item") ;;
  l <- ext (Call item []) ;;
  lift (py_add epoch_loss l).

Fixpoint train_loop (model optimizer criterion clip : value)
    (batches : list value) (epoch_loss : value) : py value :=
  match batches with
  | [] => Ret epoch_loss
  | batch :: batches' =>
      epoch_loss <- train_batch model optimizer criterion clip batch epoch_loss ;;
      train_loop model optimizer criterion clip batches' epoch_loss
  end.

(** [train(model, iterator, optimizer, criterion, clip)].  The batches the
    iterator yields in one pass are obtained from the library at once. *)
Definition train (model iterator optimizer criterion clip : value) : py value :=
  train_mode <- ext (GetAttr model "train") ;;
  ext (Call train_mode []) ;;;
  items <- ext (Iter iterator) ;;
  match items with
  | VList batches =>
      epoch_loss <- train_loop model optimizer criterion clip batches (VInt 0) ;;
      n <- ext (Len iterator) ;;
      lift (py_truediv epoch_loss n)
  | _ => Raise (TypeError "object is not iterable")
  end.

(** The statement of the training loop that every epoch executes:
    [train_loss = train(model, train_iterator, criterion, optimizer, CLIP)].
    The arguments are passed by position. *)
Definition train_call : py value :=
  train_ <- load "train" ;;
  model <- load "model" ;;
  train_iterator <- load "train_iterator" ;;
  criterion <- load "criterion" ;;
  optimizer <- load "optimizer" ;;
  CLIP <- load "CLIP" ;;
  train model train_iterator criterion optimizer CLIP.

Definition epoch_time (start_time end_time : value) : py value :=
  elapsed_time <- lift (py_sub end_time start_time) ;;
  minutes <- lift (py_truediv elapsed_time (VInt 60)) ;;
  elapsed_mins <- lift (py_int minutes) ;;
  whole <- lift (py_mul elapsed_mins (VInt 60)) ;;
  elapsed_secs <- lift (py_sub elapsed_time whole) ;;
  Ret (VTuple [elapsed_mins; elapsed_secs]).

(** ** Properties of programs and traces *)

(** Every external call a program can make, in a namespace [g],
    satisfies [P]. *)
Fixpoint all_calls {A} (g : gmap string value) (P : extcall -> Prop) (p : py A)
  : Prop :=
  match p with
  | Ret _ | Raise _ => True
  | LoadGlobal x k => forall v, lookup_name g x = Some v -> all_calls g P (k v)
  | Ext c k => P c /\ forall v, all_calls g P (k v)
  end.

(** The first arguments of the two-argument calls of [dec] in a trace:
    in [Seq2Seq.forward] these are the inputs fed to the decoder. *)
Fixpoint decoder_inputs (dec : value) (t : list event) : list value :=
  match t with
  | [] => []
  | (Call f [x; _], _) :: t' =>
      if value_eqb f dec then x :: decoder_inputs dec t' else decoder_inputs dec t'
  | _ :: t' => decoder_inputs dec t'
  end.

(** Number of times attribute [a] of [o] is fetched in a trace. *)
Definition is_getattr (o : value) (a : string) (ev : event) : bool :=
  match ev.1 with
  | GetAttr o' a' => value_eqb o' o && String.eqb a' a
  | _ => false
  end.

Definition count_getattr (o : value) (a : string) (t : list event) : nat :=
  length (filter (fun ev => is_getattr o a ev = true) t).

(** ** A reference model of the libraries

    The third-party objects the notebook manipulates, reduced to what the
    training code observes: autograd adds each [backward] into the stored
    gradient, only [zero_grad] resets it, an optimizer [step] consumes
    the stored gradient, and a loss module has no [step].  The numerical
    content is a parameter. *)

Record torch_state : Type := {
  grad : Z;               (* the gradient stored on the parameters *)
  weight : Z;             (* the parameters *)
  adam_steps : nat;       (* parameter updates performed by the optimizer *)
  dataset : list value;   (* the batches of one pass of the iterator *)
  tensor : list value     (* the rows of the tensor made by torch.zeros *)
}.

Definition class_name : value -> string :=
  fix go (o : value) : string :=
    match o with
    | VObj n => n
    | VData c _ => c
    | VMethod o' a => go o' ++ "." ++ a
    | _ => ""
    end.

Definition attribute_table : list (string * list string) :=
  [("model", ["train"; "eval"; "parameters"]);
   ("optimizer", ["step"; "zero_grad"]);
   ("criterion", ["forward"]);
   ("nn", ["utils"; "Dropout"]);
   ("nn.utils", ["clip_grad_norm_"]);
   ("torch", ["zeros"]);
   ("Tensor", ["to"]);
   ("Loss", ["backward"; "item"])].

Definition has_attr (o : value) (a : string) : bool :=
  existsb (fun e => String.eqb e.1 (class_name o) && existsb (String.eqb a) e.2)
          attribute_table.

Section Reference.
(** Output of the model for the current weight, a source and a target. *)
Variable fwd : Z -> value -> value -> value.
(** Loss value and gradient of an output against a target. *)
Variable loss_of : value -> value -> Z * Z.
(** The gradient after [clip_grad_norm_] with a given bound. *)
Variable clipf : value -> Z -> Z.
(** Encoder and decoder modules. *)
Variable enc : value -> value.
Variable dec : value -> value -> value * value.

Definition ref_getattr (o : value) (a : string) (s : torch_state)
  : torch_state * (exn + value) :=
  match o with
  | VData _ [src; trg] =>
      if String.eqb (class_name o) "Batch" then
        if String.eqb a "src" then (s, inr src)
        else if String.eqb a "trg" then (s, inr trg)
        else (s, inl (AttributeError o a))
      else if has_attr o a then (s, inr (VMethod o a))
      else (s, inl (AttributeError o a))
  | _ =>
      if has_attr o a then (s, inr (VMethod o a))
      else (s, inl (AttributeError o a))
  end.

Definition ref_method (o : value) (a : string) (args : list value)
    (s : torch_state) : torch_state * (exn + value) :=
  let key := class_name (VMethod o a) in
  if String.eqb key "model.train" then (s, inr VNone)
  else if String.eqb key "model.eval" then (s, inr VNone)
  else if String.eqb key "model.parameters" then (s, inr (VData "Parameters" []))
  else if String.eqb key "optimizer.step" then
    ({| grad := grad s; weight := weight s - grad s;
        adam_steps := Datatypes.S (adam_steps s);
        dataset := dataset s; tensor := tensor s |}, inr VNone)
  else if String.eqb key "optimizer.zero_grad" then
    ({| grad := 0; weight := weight s; adam_steps := adam_steps s;
        dataset := dataset s; tensor := tensor s |}, inr VNone)
  else if String.eqb key "Loss.backward" then
    match o with
    | VData _ [VInt l; VInt d] =>
        ({| grad := grad s + d; weight := weight s; adam_steps := adam_steps s;
            dataset := dataset s; tensor := tensor s |}, inr VNone)
    | _ => (s, inl (LibraryError "not a loss"))
    end
  else if String.eqb key "Loss.item" then
    match o with
    | VData _ [VInt l; VInt d] => (s, inr (VInt l))
    | _ => (s, inl (LibraryError "not a loss"))
    end
  else if String.eqb key "nn.utils.clip_grad_norm_" then
    match args with
    | [params; clip] =>
        ({| grad := clipf clip (grad s); weight := weight s;
            adam_steps := adam_steps s;
            dataset := dataset s; tensor := tensor s |}, inr VNone)
    | _ => (s, inl (TypeError "clip_grad_norm_ takes 2 arguments"))
    end
  else if String.eqb key "torch.zeros" then
    match args with
    | VInt n :: _ =>
        ({| grad := grad s; weight := weight s; adam_steps := adam_steps s;
            dataset := dataset s; tensor := repeat (VInt 0) (Z.to_nat n) |},
         inr (VData "Tensor" []))
    | _ => (s, inl (TypeError "zeros(): size must be integers"))
    end
  else if String.eqb key "Tensor.to" then (s, inr o)
  else (s, inl (TypeError "object is not callable")).

Definition ref_call (f : value) (args : list value) (s : torch_state)
  : torch_state * (exn + value) :=
  match f with
  | VMethod o a => ref_method o a args s
  | VObj name =>
      if String.eqb name "model" then
        match args with
        | [src; trg] => (s, inr (fwd (weight s) src trg))
        | _ => (s, inl (TypeError "forward() takes 2 arguments"))
        end
      else if String.eqb name "criterion" then
        match args with
        | [output; trg] =>
            (s, inr (VData "Loss" [VInt (loss_of output trg).1;
                                   VInt (loss_of output trg).2]))
        | _ => (s, inl (TypeError "forward() takes 2 arguments"))
        end
      else if String.eqb name "encoder" then
        match args with
        | [src] => (s, inr (enc src))
        | _ => (s, inl (TypeError "forward() takes 1 argument"))
        end
      else if String.eqb name "decoder" then
        match args with
        | [x; h] => (s, inr (VTuple [(dec x h).1; (dec x h).2]))
        | _ => (s, inl (TypeError "forward() takes 2 arguments"))
        end
      else (s, inl (TypeError "object is not callable"))
  | _ => (s, inl (TypeError "object is not callable"))
  end.

Definition torch_ref (c : extcall) (s : torch_state)
  : torch_state * (exn + value) :=
  match c with
  | GetAttr o a => ref_getattr o a s
  | Call f args => ref_call f args s
  | SetItem o (VInt i) v =>
      if String.eqb (class_name o) "Tensor" then
        if bool_decide (0 <= i < Z.of_nat (length (tensor s))) then
          ({| grad := grad s; weight := weight s; adam_steps := adam_steps s;
              dataset := dataset s;
              tensor := <[Z.to_nat i := v]> (tensor s) |}, inr VNone)
        else (s, inl (LibraryError "index out of range"))
      else (s, inl (TypeError "object does not support item assignment"))
  | SetItem _ _ _ => (s, inl (TypeError "indices must be integers"))
  | Iter o =>
      if value_eqb o (VObj "train_iterator") then (s, inr (VList (dataset s)))
      else (s, inl (TypeError "object is not iterable"))
  | Len o =>
      if value_eqb o (VObj "train_iterator")
      then (s, inr (VInt (Z.of_nat (length (dataset s)))))
      else (s, inl (TypeError "object has no len()"))
  end.

(** What one iteration of a training loop does to the library state
    when nothing resets the gradient: two optimizer steps, and the new
    stored gradient is the clipped sum of the old one and the batch's. *)
Definition batch_effect (clip : value) (s : torch_state) (batch : value)
  : torch_state :=
  match batch with
  | VData _ [src; trg] =>
      let w1 := weight s - grad s in
      let g1 := clipf clip (grad s + (loss_of (fwd w1 src trg) trg).2) in
      {| grad := g1; weight := w1 - g1;
         adam_steps := Datatypes.S (Datatypes.S (adam_steps s));
         dataset := dataset s; tensor := tensor s |}
  | _ => s
  end.

End Reference.

(** A batch object holding a source and a target. *)
Definition Batch (src trg : value) : value := VData "Batch" [src; trg].

(** A namespace in which a learner has bound, at top level, the names
    [Seq2Seq.forward] expects. *)
Definition patched_globals : gmap string value :=
  <["decoder_input" := VStr "<sos>"]>
    (<["trg_vocab_size" := VInt 5]>
      (<["batch_size" := VInt 1]>
        (<["trg_len" := VInt 3]> notebook_globals))).

(** Sample numerical content for the reference model. *)
Definition sample_fwd (w : Z) (src trg : value) : value :=
  match src with VInt x => VInt (w * x) | _ => VInt w end.
Definition sample_loss (output trg : value) : Z * Z :=
  match output, trg with
  | VInt o, VInt t => (o - t, 1)
  | _, _ => (0, 1)
  end.
Definition sample_clip (clip : value) (g : Z) : Z :=
  match clip with VInt c => Z.max (- c) (Z.min c g) | _ => g end.
Definition sample_enc (src : value) : value :=
  match src with VList toks => VInt (Z.of_nat (length toks)) | _ => VInt 0 end.
Definition sample_dec (x h : value) : value * value :=
  (VTuple [x; h], match h with VInt n => VInt (n + 1) | _ => h end).

Definition sample_lib : extcall -> torch_state -> torch_state * (exn + value) :=
  torch_ref sample_fwd sample_loss sample_clip sample_enc sample_dec.

Definition sample_state : torch_state :=
  {| grad := 0; weight := 10; adam_steps := 0;
     dataset := [Batch (VInt 1) (VInt 4); Batch (VInt 2) (VInt 5);
                 Batch (VInt 3) (VInt 6)];
     tensor := [] |}.

Definition sample_model : Seq2Seq.t :=
  Seq2Seq.__init__ (VObj "encoder") (VObj "decoder").

(** ** The callables tutorial: instances, attribute lookup, calls *)

(** An instance: its class and its instance dictionary. *)
Record object : Type := { class_of : string; __dict__ : gmap string value }.

(** A small state-and-exception monad over the heap of instances. *)
Definition hm (A : Type) : Type := gmap N object -> gmap N object * (exn + A).

Definition hret {A} (a : A) : hm A := fun h => (h, inr a).
Definition hraise {A} (e : exn) : hm A := fun h => (h, inl e).
Definition hbind {A B} (m : hm A) (f : A -> hm B) : hm B :=
  fun h => match m h with
           | (h', inr a) => f a h'
           | (h', inl e) => (h', inl e)
           end.
Definition hlift {A} (r : exn + A) : hm A := fun h => (h, r).

Declare Scope hm_scope.
Delimit Scope hm_scope with hm.
Notation "x <- c1 ;; c2" := (hbind c1 (fun x => c2))
  (at level 100, c1 at next level, right associativity) : hm_scope.
Notation "c1 ;;; c2" := (hbind c1 (fun _ => c2))
  (at level 100, right associativity) : hm_scope.

(** The functions each class body defines (the last definition of
    [Person] in the notebook is the one in force). *)
Definition class_functions : list (string * list string) :=
  [("Adder", ["__init__"; "__call__"]);
   ("Person", ["set_name"])].

Definition is_class (c : string) : bool :=
  existsb (fun e => String.eqb e.1 c) class_functions.

Definition class_defines (c a : string) : bool :=
  existsb (fun e => String.eqb e.1 c && existsb (String.eqb a) e.2) class_functions.

(** [getattr(o, a)] / [o.a]: the instance dictionary first, then the
    functions of the class, which bind to the instance; on a class, the
    plain function. *)
Definition getattr (o : value) (a : string) : hm value :=
  fun h =>
    match o with
    | VRef l =>
        match h !! l with
        | Some ob =>
            match __dict__ ob !! a with
            | Some v => (h, inr v)
            | None =>
                if class_defines (class_of ob) a then (h, inr (VMethod o a))
                else (h, inl (AttributeError o a))
            end
        | None => (h, inl (LibraryError "dangling reference"))
        end
    | VObj c =>
        if class_defines c a then (h, inr (VFunc c a))
        else (h, inl (AttributeError o a))
    | _ => (h, inl (AttributeError o a))
    end.

(** [setattr(o, a, v)] / [o.a = v] on an instance of a plain class
    stores into the instance dictionary. *)
Definition setattr (o : value) (a : string) (v : value) : hm value :=
  fun h =>
    match o with
    | VRef l =>
        match h !! l with
        | Some ob =>
            (<[l := {| class_of := class_of ob;
                       __dict__ := <[a := v]> (__dict__ ob) |}]> h, inr VNone)
        | None => (h, inl (LibraryError "dangling reference"))
        end
    | _ => (h, inl (AttributeError o a))
    end.

Module Adder.
Local Open Scope hm_scope.

Definition __init__ (self n : value) : hm value :=
  setattr self "n" n ;;;
  hret VNone.

Definition __call__ (self x : value) : hm value :=
  n <- getattr self "n" ;;
  hlift (py_add n x).

End Adder.

Module Person.
Local Open Scope hm_scope.

Definition set_name (instance_obj new_name : value) : hm value :=
  setattr instance_obj "name" new_name ;;;
  hret VNone.

End Person.

(** Calling the function [name] of class [cls] with positional arguments. *)
Definition call_function (cls name : string) (args : list value) : hm value :=
  if String.eqb cls "Adder" && String.eqb name "__init__" then
    match args with
    | [self; n] => Adder.__init__ self n
    | _ => hraise (TypeError "__init__() takes 2 positional arguments")
    end
  else if String.eqb cls "Adder" && String.eqb name "__call__" then
    match args with
    | [self; x] => Adder.__call__ self x
    | _ => hraise (TypeError "__call__() takes 2 positional arguments")
    end
  else if String.eqb cls "Person" && String.eqb name "set_name" then
    match args with
    | [instance_obj; new_name] => Person.set_name instance_obj new_name
    | _ => hraise (TypeError "set_name() takes 2 positional arguments")
    end
  else hraise (AttributeError (VObj cls) name).

(** [f(args)]: a bound method passes its receiver first, a plain function
    is applied as it is, an instance dispatches to [__call__] of its
    class, and a class allocates an instance and runs [__init__]. *)
Definition call (f : value) (args : list value) : hm value :=
  fun h =>
    match f with
    | VMethod (VRef l) a =>
        match h !! l with
        | Some ob => call_function (class_of ob) a (VRef l :: args) h
        | None => (h, inl (LibraryError "dangling reference"))
        end
    | VFunc c a => call_function c a args h
    | VRef l =>
        match h !! l with
        | Some ob =>
            if class_defines (class_of ob) "__call__"
            then call_function (class_of ob) "__call__" (f :: args) h
            else (h, inl (TypeError "object is not callable"))
        | None => (h, inl (LibraryError "dangling reference"))
        end
    | VObj c =>
        if is_class c then
          let l := fresh (dom h) in
          let h1 := <[l := {| class_of := c; __dict__ := ∅ |}]> h in
          if class_defines c "__init__" then
            match call_function c "__init__" (VRef l :: args) h1 with
            | (h2, inr _) => (h2, inr (VRef l))
            | (h2, inl e) => (h2, inl e)
            end
          else
            match args with
            | [] => (h1, inr (VRef l))
            | _ => (h, inl (TypeError "class takes no arguments"))
            end
        else (h, inl (TypeError "object is not callable"))
    | _ => (h, inl (TypeError "object is not callable"))
    end.

(** [p.__dict__] *)
Definition instance_dict (o : value) (h : gmap N object)
  : option (gmap string value) :=
  match o with
  | VRef l => __dict__ <$> h !! l
  | _ => None
  end.

(** The two ways the notebook calls [set_name]. *)
Inductive style : Type := Bound | Unbound.

Definition set_name_via (st : style) (p : value) (n : string) : hm value :=
  match st with
  | Bound =>                                     (* p.set_name(n) *)
      (m <- getattr p "set_name" ;; call m [VStr n])%hm
  | Unbound =>                                   (* Person.set_name(p, n) *)
      (f <- getattr (VObj "Person") "set_name" ;; call f [p; VStr n])%hm
  end.

(** A history of [set_name] calls on [p]. *)
Fixpoint replay (calls : list (style * string)) (p : value) : hm unit :=
  match calls with
  | [] => hret tt
  | (st, n) :: calls' => (set_name_via st p n ;;; replay calls' p)%hm
  end.

(** ** The functions under study, and what it means for one of them to
       have a defined result *)

Inductive source_function : Type :=
| f_tokenize_de | f_tokenize_en
| f_Encoder_forward | f_Decoder_forward | f_Seq2Seq_forward
| f_epoch_time
| f_Adder_call | f_Person_set_name.

(** The attributes an [Encoder] / [Decoder] has after the shipped
    [__init__]. *)
Definition shipped_encoder (hidden_dim num_layers dropout : value)
  : gmap string value :=
  <["dropout" := dropout]>
    (<["num_layers" := num_layers]> (<["hidden_dim" := hidden_dim]> ∅)).

Definition shipped_decoder (output_dim hidden_dim num_layers dropout : value)
  : gmap string value :=
  <["dropout" := dropout]>
    (<["num_layers" := num_layers]>
      (<["hidden_dim" := hidden_dim]> (<["output_dim" := output_dim]> ∅))).

(** On every valid input the function returns a value. *)
Definition returns_on_every_input (f : source_function) : Prop :=
  match f with
  | f_tokenize_de =>
      forall (S : Type) (lib : extcall -> S -> S * (exn + value)) s (text : string),
        exists v, result notebook_globals lib (tokenize_de (VStr text)) s = inr v
  | f_tokenize_en =>
      forall (S : Type) (lib : extcall -> S -> S * (exn + value)) s (text : string),
        exists v, result notebook_globals lib (tokenize_en (VStr text)) s = inr v
  | f_Encoder_forward =>
      forall (S : Type) (lib : extcall -> S -> S * (exn + value)) s hd nl d src,
        exists v, result notebook_globals lib
                    (Encoder.forward (shipped_encoder hd nl d) src) s = inr v
  | f_Decoder_forward =>
      forall (S : Type) (lib : extcall -> S -> S * (exn + value)) s od hd nl d x h,
        exists v, result notebook_globals lib
                    (Decoder.forward (shipped_decoder od hd nl d) x h) s = inr v
  | f_Seq2Seq_forward =>
      forall (S : Type) (lib : extcall -> S -> S * (exn + value)) s self src trg,
        exists v, result notebook_globals lib (Seq2Seq.forward self src trg) s = inr v
  | f_epoch_time =>
      forall (S : Type) g (lib : extcall -> S -> S * (exn + value)) s (a b : Q),
        exists v, run g lib (epoch_time (VFloat a) (VFloat b)) s = ([], s, inr v)
  | f_Adder_call =>
      forall (h : gmap N object) l (n x : Z),
        h !! l = Some {| class_of := "Adder"; __dict__ := {["n" := VInt n]} |} ->
        exists v, Adder.__call__ (VRef l) (VInt x) h = (h, inr v)
  | f_Person_set_name =>
      forall (h : gmap N object) l d (n : string),
        h !! l = Some {| class_of := "Person"; __dict__ := d |} ->
        exists h', Person.set_name (VRef l) (VStr n) h = (h', inr VNone)
  end.

(** On every input the function raises. *)
Definition fails_on_every_input (f : source_function) : Prop :=
  match f with
  | f_tokenize_de =>
      forall (S : Type) (lib : extcall -> S -> S * (exn + value)) s (text : string),
        exists e, result notebook_globals lib (tokenize_de (VStr text)) s = inl e
  | f_tokenize_en =>
      forall (S : Type) (lib : extcall -> S -> S * (exn + value)) s (text : string),
        exists e, result notebook_globals lib (tokenize_en (VStr text)) s = inl e
  | f_Encoder_forward =>
      forall (S : Type) (lib : extcall -> S -> S * (exn + value)) s hd nl d src,
        exists e, result notebook_globals lib
                    (Encoder.forward (shipped_encoder hd nl d) src) s = inl e
  | f_Decoder_forward =>
      forall (S : Type) (lib : extcall -> S -> S * (exn + value)) s od hd nl d x h,
        exists e, result notebook_globals lib
                    (Decoder.forward (shipped_decoder od hd nl d) x h) s = inl e
  | f_Seq2Seq_forward =>
      forall (S : Type) (lib : extcall -> S -> S * (exn + value)) s self src trg,
        exists e, result notebook_globals lib (Seq2Seq.forward self src trg) s = inl e
  | f_epoch_time =>
      forall (S : Type) g (lib : extcall -> S -> S * (exn + value)) s (a b : Q),
        exists e, result g lib (epoch_time (VFloat a) (VFloat b)) s = inl e
  | f_Adder_call =>
      forall (h : gmap N object) l (n x : Z),
        h !! l = Some {| class_of := "Adder"; __dict__ := {["n" := VInt n]} |} ->
        exists e, (Adder.__call__ (VRef l) (VInt x) h).2 = inl e
  | f_Person_set_name =>
      forall (h : gmap N object) l d (n : string),
        h !! l = Some {| class_of := "Person"; __dict__ := d |} ->
        exists e, (Person.set_name (VRef l) (VStr n) h).2 = inl e
  end.

(** ** Statements the properties below refer to *)

(** Teacher forcing on a target given as the list of its tokens: the
    decoder is fed [trg[0]] (the start token), then [trg[1]], and so on
    up to the token before the last. *)
Definition feeds_ground_truth {S} (g : gmap string value)
    (lib : extcall -> S -> S * (exn + value)) (self : Seq2Seq.t)
    (src : value) (toks : list value) (s : S) : Prop :=
  decoder_inputs (Seq2Seq.decoder self)
    (trace g lib (Seq2Seq.forward self src (VList toks)) s) = removelast toks.

(** The calls of a trace, by the name of what is called. *)
Definition calls_made (t : list event) : list string :=
  omap (fun ev => match ev.1 with
                  | Call f _ => Some (class_name f ++ "()")
                  | _ => None
                  end) t.

(** The calls one iteration of a training loop makes in the reference
    model when it runs to completion. *)
Definition batch_calls : list string :=
  ["optimizer.step()"; "model()"; "criterion()"; "Loss.backward()";
   "model.parameters()"; "nn.utils.clip_grad_norm_()"; "optimizer.step()";
   "Loss.item()"].

(** The attribute names [train] fetches. *)
Definition train_attributes : list string :=
  ["train"; "src"; "trg"; "step"; "backward"; "utils"; "clip_grad_norm_";
   "parameters"; "item"].

(** What [train] asks of the objects it is given: the attributes it
    fetches, and from whom it fetches [step]. *)
Definition train_fetches (optimizer : value) (c : extcall) : Prop :=
  match c with
  | GetAttr o a =>
      In a train_attributes /\ a <> "zero_grad" /\ (a = "step" -> o = optimizer)
  | _ => True
  end.

(** The dictionaries an instance can have after [Person()] and any
    number of [set_name] calls. *)
Definition person_dict (d : gmap string value) : Prop :=
  d = ∅ \/ exists n : string, d = {["name" := VStr n]}.


(** ** Further statements about the translation notebook *)

(** Where [Seq2Seq.forward] writes into the tensor of outputs, in a
    namespace [g]: at an integer index from 1 up to, not including, the
    integer bound to [trg_len]. *)
Definition writes_within (g : gmap string value) (c : extcall) : Prop :=
  match c with
  | SetItem _ i _ =>
      exists n k : Z,
        lookup_name g "trg_len" = Some (VInt n) /\ i = VInt k /\ 1 <= k < n
  | _ => True
  end.

(** The decoder recurrence, unrolled [m] times from hidden state [h] on
    the constant input [d]: the outputs of the successive steps. *)
Fixpoint unroll (dec : value -> value -> value * value) (d h : value) (m : nat)
  : list value :=
  match m with
  | O => []
  | Datatypes.S m' => (dec d h).1 :: unroll dec d (dec d h).2 m'
  end.

(** A library in which calling the object the notebook names [name]
    runs [Seq2Seq.forward] on [self], as a module call does; the rest is
    left to [lib]. *)
Definition module_call {S} (g : gmap string value)
    (lib : extcall -> S -> S * (exn + value)) (name : string)
    (self : Seq2Seq.t) (c : extcall) (s : S) : S * (exn + value) :=
  match c with
  | Call f [src; trg] =>
      if value_eqb f (VObj name)
      then (final g lib (Seq2Seq.forward self src trg) s,
            result g lib (Seq2Seq.forward self src trg) s)
      else lib c s
  | _ => lib c s
  end.

(** The sum of the loss values of a pass over [batches] in the reference
    model, each taken after the optimizer step that precedes its forward
    pass. *)
Fixpoint loss_total (fwd : Z -> value -> value -> value)
    (loss_of : value -> value -> Z * Z) (clipf : value -> Z -> Z)
    (clip : value) (st : torch_state) (batches : list value) : Z :=
  match batches with
  | [] => 0
  | batch :: batches' =>
      match batch with
      | VData _ [src; trg] =>
          (loss_of (fwd (weight st - grad st) src trg) trg).1
      | _ => 0
      end
      + loss_total fwd loss_of clipf clip
          (batch_effect fwd loss_of clipf clip st batch) batches'
  end.

(** A library that answers every call with a pair of [None]. *)
Definition pair_lib (c : extcall) (s : unit) : unit * (exn + value) :=
  (s, inr (VTuple [VNone; VNone])).

(** ** Parameter initialisation and counting *)

(** Truth value of an object.  A bool is the integer 1 or 0; numbers,
    strings and sequences are tested directly, functions and methods are
    true, and any other object is asked through [bool]. *)
Definition truthy (v : value) : py bool :=
  match v with
  | VNone => Ret false
  | VInt z => Ret (negb (Z.eqb z 0))
  | VFloat q => Ret (negb (Qeq_bool q 0))
  | VStr s => Ret (negb (String.eqb s ""))
  | VTuple vs | VList vs => Ret (match vs with [] => false | _ :: _ => true end)
  | VFunc _ _ | VMethod _ _ => Ret true
  | VObj _ | VRef _ | VData _ _ =>
      r <- ext (Call (VObj "bool") [v]) ;;
      match r with
      | VInt z => Ret (negb (Z.eqb z 0))
      | _ => Raise (TypeError "__bool__ should return bool")
      end
  end.

(** The float literal [0.08], as the rational the double denotes. *)
Definition float_0_08 : Q := 5764607523034235 # 72057594037927936.

(** One iteration of [init_weights] on an item of [named_parameters()]. *)
Definition init_weights_item (item : value) : py value :=
  np <- unpack2 item ;;
  let '(name, param) := np in
  nn <- load "nn" ;;
  init <- ext (GetAttr nn "init") ;;
  uniform_ <- ext (GetAttr init "uniform_") ;;
  data <- ext (GetAttr param "data") ;;
  ext (Call uniform_ [data; VFloat (- float_0_08); VFloat float_0_08]).

Fixpoint init_weights_loop (items : list value) : py value :=
  match items with
  | [] => Ret VNone
  | item :: items' => init_weights_item item ;;; init_weights_loop items'
  end.

Definition init_weights (model : value) : py value :=
  named_parameters <- ext (GetAttr model "named_parameters") ;;
  named <- ext (Call named_parameters []) ;;
  items <- ext (Iter named) ;;
  match items with
  | VList items => init_weights_loop items
  | _ => Raise (TypeError "object is not iterable")
  end.

(** The generator of [count_parameters], consumed by [sum]: [total]
    starts at 0 and each [p.numel()] with [p.requires_grad] true is
    added to it. *)
Fixpoint count_loop (ps : list value) (total : value) : py value :=
  match ps with
  | [] => Ret total
  | p :: ps' =>
      requires_grad <- ext (GetAttr p "requires_grad") ;;
      b <- truthy requires_grad ;;
      if b then
        numel <- ext (GetAttr p "numel") ;;
        n <- ext (Call numel []) ;;
        total <- lift (py_add total n) ;;
        count_loop ps' total
      else count_loop ps' total
  end.

Definition count_parameters (model : value) : py value :=
  parameters <- ext (GetAttr model "parameters") ;;
  params <- ext (Call parameters []) ;;
  items <- ext (Iter params) ;;
  match items with
  | VList ps => count_loop ps (VInt 0)
  | _ => Raise (TypeError "object is not iterable")
  end.

(** A reference model of a module and its parameters.  A module holds
    its named parameters; a parameter has a name for its data, a number
    of elements and a [requires_grad] flag; the state of the library is
    the list of the [uniform_] calls made so far, as (data, low, high). *)
Definition nn_Parameter (data : string) (numel : Z) (requires_grad : bool) : value :=
  VData "Parameter" [VStr data; VInt numel; VInt (if requires_grad then 1 else 0)].

Definition nn_Module (params : list (string * value)) : value :=
  VData "Module" (map (fun np => VTuple [VStr np.1; np.2]) params).

Definition second (item : value) : value :=
  match item with
  | VTuple [_; p] => p
  | _ => VNone
  end.

Definition nn_ref (c : extcall) (s : list (value * value * value))
  : list (value * value * value) * (exn + value) :=
  match c with
  | GetAttr (VData cls fields) a =>
      if String.eqb cls "Module" then
        if String.eqb a "parameters" || String.eqb a "named_parameters"
        then (s, inr (VMethod (VData cls fields) a))
        else (s, inl (AttributeError (VData cls fields) a))
      else if String.eqb cls "Parameter" then
        match fields with
        | [VStr data; VInt numel; VInt flag] =>
            if String.eqb a "data" then (s, inr (VData "Tensor" [VStr data]))
            else if String.eqb a "requires_grad" then (s, inr (VInt flag))
            else if String.eqb a "numel"
                 then (s, inr (VMethod (VData cls fields) a))
            else (s, inl (AttributeError (VData cls fields) a))
        | _ => (s, inl (LibraryError "not a parameter"))
        end
      else (s, inl (AttributeError (VData cls fields) a))
  | GetAttr (VObj name) a =>
      if String.eqb name "nn" && String.eqb a "init"
      then (s, inr (VMethod (VObj name) a))
      else (s, inl (AttributeError (VObj name) a))
  | GetAttr (VMethod (VObj name) a') a =>
      if String.eqb name "nn" && String.eqb a' "init" && String.eqb a "uniform_"
      then (s, inr (VMethod (VMethod (VObj name) a') a))
      else (s, inl (AttributeError (VMethod (VObj name) a') a))
  | Call (VMethod (VData cls fields) a) [] =>
      if String.eqb cls "Module" && String.eqb a "named_parameters"
      then (s, inr (VList fields))
      else if String.eqb cls "Module" && String.eqb a "parameters"
      then (s, inr (VList (map second fields)))
      else if String.eqb cls "Parameter" && String.eqb a "numel" then
        match fields with
        | [VStr data; VInt numel; VInt flag] => (s, inr (VInt numel))
        | _ => (s, inl (LibraryError "not a parameter"))
        end
      else (s, inl (TypeError "object is not callable"))
  | Call (VMethod (VMethod (VObj name) a') a) [t; lo; hi] =>
      if String.eqb name "nn" && String.eqb a' "init" && String.eqb a "uniform_"
      then ((s ++ [(t, lo, hi)])%list, inr t)
      else (s, inl (TypeError "object is not callable"))
  | Iter (VList items) => (s, inr (VList items))
  | GetAttr o a => (s, inl (AttributeError o a))
  | _ => (s, inl (TypeError "unsupported operation"))
  end.

(** The number of elements of the parameters that require gradients. *)
Definition trainable_elements (params : list (string * Z * bool)) : Z :=
  foldr (fun (p : string * Z * bool) (acc : Z) =>
           if p.2 then p.1.2 + acc else acc) 0 params.

(** The module whose named parameters have the given names, sizes and
    flags. *)
Definition module_of (params : list (string * Z * bool)) : value :=
  nn_Module (map (fun p : string * Z * bool =>
                    (p.1.1, nn_Parameter p.1.1 p.1.2 p.2)) params).

(** The calls of [numel] in a trace. *)
Definition is_numel_call (ev : event) : bool :=
  match ev.1 with
  | Call (VMethod _ a) [] => String.eqb a "numel"
  | _ => false
  end.

Definition numel_calls (t : list event) : nat :=
  length (filter (fun ev => is_numel_call ev = true) t).

(** ** Evaluation *)

(** One iteration of the loop of [evaluate] on [batch]; the result is
    the updated [epoch_loss]. *)
Definition evaluate_batch (model criterion batch epoch_loss : value) : py value :=
  src <- ext (GetAttr batch "src") ;;
  trg <- ext (GetAttr batch "trg") ;;
  (* forward pass *)
  output <- ext (Call model [src; trg]) ;;
  loss <- ext (Call criterion [output; trg]) ;;
  (* update the loss *)
  item <- ext (GetAttr loss "item") ;;
  l <- ext (Call item []) ;;
  lift (py_add epoch_loss l).

(** The class of an exception, its arguments, and the triple
    (type, value, traceback) that [__exit__] receives for it. *)
Definition exn_class (e : exn) : string :=
  match e with
  | NameError _ => "NameError"
  | AttributeError _ _ => "AttributeError"
  | TypeError _ => "TypeError"
  | ValueError _ => "ValueError"
  | ZeroDivisionError => "ZeroDivisionError"
  | LibraryError _ => "LibraryError"
  end.

Definition exn_args (e : exn) : list value :=
  match e with
  | NameError x => [VStr x]
  | AttributeError o a => [o; VStr a]
  | TypeError msg | ValueError msg | LibraryError msg => [VStr msg]
  | ZeroDivisionError => []
  end.

Definition exc_info (e : exn) : list value :=
  [VObj (exn_class e); VData (exn_class e) (exn_args e); VObj "traceback"].

(** [evaluate] up to the body of its [with] statement: [model.eval()],
    then the context manager [torch.no_grad()] is made, its [__enter__]
    and [__exit__] are looked up and [__enter__] is called.  The result
    is the [__exit__] method, kept for the end of the block. *)
Definition evaluate_enter (model : value) : py value :=
  eval_mode <- ext (GetAttr model "eval") ;;
  ext (Call eval_mode []) ;;;
  torch <- load "torch" ;;
  no_grad <- ext (GetAttr torch "no_grad") ;;
  manager <- ext (Call no_grad []) ;;
  enter <- ext (GetAttr manager "__enter__") ;;
  exit <- ext (GetAttr manager "__exit__") ;;
  ext (Call enter []) ;;;
  Ret exit.

(** The statement after the [with] block:
    [return epoch_loss / len(iterator)]. *)
Definition evaluate_return (iterator epoch_loss : value) : py value :=
  n <- ext (Len iterator) ;;
  lift (py_truediv epoch_loss n).

(** Leaving the [with] block and what follows it.  When the body ended
    normally, [__exit__(None, None, None)] is called and the function
    returns the average.  When the body raised [e], [__exit__] receives
    the exception; a true result suppresses it and execution goes on
    after the block with [epoch_loss] as the body left it, any other
    result lets [e] propagate. *)
Definition evaluate_leave (exit iterator epoch_loss : value)
    (raised : option exn) : py value :=
  match raised with
  | None =>
      ext (Call exit [VNone; VNone; VNone]) ;;;
      evaluate_return iterator epoch_loss
  | Some e =>
      suppress <- ext (Call exit (exc_info e)) ;;
      b <- truthy suppress ;;
      if b then evaluate_return iterator epoch_loss else Raise e
  end.

Section Evaluate.
Context {S : Type}.
Variable g : gmap string value.
Variable lib : extcall -> S -> S * (exn + value).

(** The loop of [evaluate] over the batches: the external calls made,
    the library state, the value of [epoch_loss] when the loop ends and
    the exception that ended it, if any. *)
Fixpoint evaluate_loop (model criterion : value) (batches : list value)
    (epoch_loss : value) (s : S) : list event * S * (value * option exn) :=
  match batches with
  | [] => ([], s, (epoch_loss, None))
  | batch :: batches' =>
      match run g lib (evaluate_batch model criterion batch epoch_loss) s with
      | (t, s', inl e) => (t, s', (epoch_loss, Some e))
      | (t, s', inr epoch_loss') =>
          match evaluate_loop model criterion batches' epoch_loss' s' with
          | (t', s'', r) => ((t ++ t')%list, s'', r)
          end
      end
  end.

(** The body of the [with] block.  As in [train], the batches of one
    pass of the iterator are obtained from the library at once. *)
Definition evaluate_body (model iterator criterion epoch_loss : value) (s : S)
  : list event * S * (value * option exn) :=
  match run g lib (ext (Iter iterator)) s with
  | (t, s', inl e) => (t, s', (epoch_loss, Some e))
  | (t, s', inr (VList batches)) =>
      match evaluate_loop model criterion batches epoch_loss s' with
      | (t', s'', r) => ((t ++ t')%list, s'', r)
      end
  | (t, s', inr _) =>
      (t, s', (epoch_loss, Some (TypeError "object is not iterable")))
  end.

(** [evaluate(model, iterator, criterion)]. *)
Definition evaluate (model iterator criterion : value) (s : S)
  : list event * S * (exn + value) :=
  match run g lib (evaluate_enter model) s with
  | (t0, s0, inl e) => (t0, s0, inl e)
  | (t0, s0, inr exit) =>
      match evaluate_body model iterator criterion (VInt 0) s0 with
      | (t1, s1, (epoch_loss, raised)) =>
          match run g lib (evaluate_leave exit iterator epoch_loss raised) s1 with
          | (t2, s2, r) => ((t0 ++ t1 ++ t2)%list, s2, r)
          end
      end
  end.

End Evaluate.

(** A library that also provides [torch.no_grad()]: a context manager
    whose [__enter__] and [__exit__] return [None]; the rest is left to
    [lib]. *)
Definition no_grad : value := VData "no_grad" [].

Definition no_grad_lib {S} (lib : extcall -> S -> S * (exn + value))
    (c : extcall) (s : S) : S * (exn + value) :=
  match c with
  | GetAttr o a =>
      if value_eqb o (VObj "torch") && String.eqb a "no_grad"
      then (s, inr (VMethod o a))
      else if value_eqb o no_grad
              && (String.eqb a "__enter__" || String.eqb a "__exit__")
      then (s, inr (VMethod o a))
      else lib c s
  | Call f args =>
      if value_eqb f (VMethod (VObj "torch") "no_grad") then
        match args with
        | [] => (s, inr no_grad)
        | _ => (s, inl (TypeError "no_grad() takes no arguments"))
        end
      else if value_eqb f (VMethod no_grad "__enter__") then
        match args with
        | [] => (s, inr VNone)
        | _ => (s, inl (TypeError "__enter__() takes no arguments"))
        end
      else if value_eqb f (VMethod no_grad "__exit__") then
        match args with
        | [_; _; _] => (s, inr VNone)
        | _ => (s, inl (TypeError "__exit__() takes 3 arguments"))
        end
      else lib c s
  | _ => lib c s
  end.

(** The sum of the loss values of the batches at the weight [w]. *)
Definition eval_total (fwd : Z -> value -> value -> value)
    (loss_of : value -> value -> Z * Z) (w : Z) (pairs : list (value * value))
  : Z :=
  foldr (fun (p : value * value) (acc : Z) =>
           (loss_of (fwd w p.1 p.2) p.2).1 + acc) 0 pairs.

(** The attribute names [evaluate] fetches, and what it asks of the
    objects it is given: those attributes, and no item assignment. *)
Definition evaluate_attributes : list string :=
  ["eval"; "no_grad"; "__enter__"; "__exit__"; "src"; "trg"; "item"].

Definition evaluate_fetches (c : extcall) : Prop :=
  match c with
  | GetAttr _ a => In a evaluate_attributes
  | SetItem _ _ _ => False
  | _ => True
  end.

(** ** The namespace as the cells leave it *)

(** [notebook_globals] takes every statement of a parsing cell to run.
    A statement that reads a global name no earlier statement has bound
    raises [NameError] instead, and the rest of its cell does not run.
    Here every top-level statement comes with the global names its
    evaluation reads, in the order it reads them; the calls into the
    libraries are still taken to succeed. *)
Definition is_bound (g : gmap string value) (x : string) : bool :=
  match lookup_name g x with Some _ => true | None => false end.

Fixpoint run_statements (c : list (list string * stmt)) (g : gmap string value)
  : gmap string value :=
  match c with
  | [] => g
  | (names, st) :: c' =>
      if forallb (is_bound g) names
      then run_statements c'
             (foldl (fun g' (b : string * value) => <[b.1 := b.2]> g') g
                (stmt_bindings st))
      else g
  end.

Definition run_cell (g : gmap string value) (c : list (list string * stmt))
  : gmap string value :=
  if cell_parses (map snd c) then run_statements c g else g.

Definition shipped_cells : list (list (list string * stmt)) :=
  [ [([], Binds ["time"]); ([], Binds ["math"]); ([], Binds ["random"]);
     ([], Binds ["spacy"]); ([], Binds ["np"]); ([], Binds ["torch"]);
     ([], Binds ["nn"]); ([], Binds ["optim"]); ([], Binds ["Multi30k"]);
     ([], Binds ["Field"; "BucketIterator"])];
    [([], Other)];
    [(["spacy"], Binds ["spacy_de"]); (["spacy"], Binds ["spacy_en"])];
    [([], Binds ["tokenize_de"])];
    [([], Binds ["tokenize_en"])];
    [(["Field"; "tokenize_de"], Binds ["SRC"]);
     (["Field"; "tokenize_en"], Binds ["TRG"])];
    [(["Multi30k"; "SRC"; "TRG"], Binds ["train_data"; "valid_data"; "test_data"])];
    [(["print"; "len"; "train_data"], Other);
     (["print"; "len"; "valid_data"], Other);
     (["print"; "len"; "test_data"], Other)];
    [(["print"; "vars"; "train_data"], Other)];
    [([], Other)];
    [(["print"; "len"; "SRC"], Other); (["print"; "len"; "TRG"], Other)];
    [(["torch"], Binds ["device"]); (["device"], Other)];
    [([], Assign "BATCH_SIZE" (VInt 64))];
    [(["BucketIterator"; "train_data"; "valid_data"; "test_data"; "BATCH_SIZE";
       "device"],
      Binds ["train_iterator"; "valid_iterator"; "test_iterator"])];
    [(["next"; "iter"; "train_iterator"], Binds ["temp"]); (["temp"], Other)];
    [(["nn"], Binds ["Encoder"])];
    [(["nn"], Binds ["Decoder"])];
    [(["nn"], Binds ["Seq2Seq"])];
    map (fun st => ([], st)) hyperparameter_cell;
    [(["Encoder"; "INPUT_DIM"; "ENC_EMB_DIM"; "HID_DIM"; "N_LAYERS"; "DROPOUT"],
      Binds ["encoder"]);
     (["Decoder"; "OUTPUT_DIM"; "DEC_EMB_DIM"; "HID_DIM"; "N_LAYERS"; "DROPOUT"],
      Binds ["decoder"]);
     (["Seq2Seq"; "encoder"; "decoder"; "device"], Binds ["model"])];
    [([], Binds ["init_weights"]); (["model"; "init_weights"], Other)];
    [([], Binds ["count_parameters"]);
     (["print"; "count_parameters"; "model"], Other)];
    [(["optim"; "model"], Binds ["optimizer"])];
    [(["nn"; "TRG_PAD_IDX"], Binds ["criterion"])];
    [([], Binds ["train"])];
    [([], Binds ["evaluate"])];
    [([], Binds ["epoch_time"])];
    [([], Assign "N_EPOCHS" (VInt 10)); ([], Assign "CLIP" (VInt 2));
     (["float"], Binds ["best_valid_loss"]);
     (* the first iteration of [for epoch in range(N_EPOCHS)] *)
     (["range"; "N_EPOCHS"], Binds ["epoch"]);
     (["time"], Binds ["start_time"]);
     (["train"; "model"; "train_iterator"; "criterion"; "optimizer"; "CLIP"],
      Binds ["train_loss"]);
     (["evaluate"; "model"; "valid_iterator"; "criterion"], Binds ["valid_loss"]);
     (["time"], Binds ["end_time"]);
     (["epoch_time"; "start_time"; "end_time"], Binds ["epoch_mins"; "epoch_secs"]);
     (["print"; "epoch"; "epoch_mins"; "epoch_secs"], Other);
     (["print"; "train_loss"; "math"], Other);
     (["print"; "valid_loss"; "math"], Other)];
    [([], EmptyAssign "test_loss"); (["print"; "test_loss"; "math"], Other)] ].

(** The global namespace after running the cells as shipped, top to
    bottom. *)
Definition shipped_globals : gmap string value :=
  foldl run_cell ∅ shipped_cells.

(** A method call [o.step(...)] in a trace. *)
Definition is_step_call (ev : event) : bool :=
  match ev.1 with
  | Call (VMethod _ a) _ => String.eqb a "step"
  | _ => false
  end.

(** ** A library whose modules use dropout *)



(** ** Elapsed time in Python's arithmetic *)

(** The arithmetic of [py_add], [py_sub], [py_mul] and [py_truediv]
    above is that of the rationals the floats denote: it leaves out the
    rounding of each operation.  Here the numbers are Python's own: an
    [int] is an integer of any size and a [float] is an IEEE 754
    binary64 number, in the Standard Library's specification
    ([SpecFloat], with 53 bits of precision and exponents below 1024):
    every operation on floats rounds to the nearest float, ties to
    even. *)
Module Binary64.

Definition prec : Z := 53.
Definition emax : Z := 1024.

Inductive number : Type :=
| Int (z : Z)
| Float (f : spec_float).

Inductive error : Type :=
| ZeroDivisionError
| OverflowError
| ValueError.

Definition bind {A B : Type} (r : error + A) (f : A -> error + B) : error + B :=
  match r with
  | inl e => inl e
  | inr a => f a
  end.

Declare Scope num_scope.
Delimit Scope num_scope with num.
Notation "x <- c1 ;; c2" := (bind c1 (fun x => c2))
  (at level 100, c1 at next level, right associativity) : num_scope.

(** An integer as an exact quotient operand: sign, magnitude, exponent 0. *)
Definition of_Z (z : Z) : spec_float :=
  match z with
  | Z0 => S754_zero false
  | Zpos p => S754_finite false p 0
  | Zneg p => S754_finite true p 0
  end.

(** [float(z)]: the nearest float, [OverflowError] when [z] is too large
    to have one. *)
Definition float_of_int (z : Z) : error + spec_float :=
  match binary_normalize prec emax z 0 false with
  | S754_infinity _ => inl OverflowError
  | f => inr f
  end.

(** The operands of a float operation: an [int] is converted first. *)
Definition to_float (a : number) : error + spec_float :=
  match a with
  | Int z => float_of_int z
  | Float f => inr f
  end.

Definition is_zero (f : spec_float) : bool :=
  match f with
  | S754_zero _ => true
  | _ => false
  end.

Definition sub (a b : number) : error + number :=
  match a, b with
  | Int x, Int y => inr (Int (x - y))
  | _, _ =>
      (x <- to_float a ;;
       y <- to_float b ;;
       inr (Float (SFsub prec emax x y)))%num
  end.

Definition mul (a b : number) : error + number :=
  match a, b with
  | Int x, Int y => inr (Int (x * y))
  | _, _ =>
      (x <- to_float a ;;
       y <- to_float b ;;
       inr (Float (SFmul prec emax x y)))%num
  end.

(** [a / b].  On two integers the result is the float nearest to the
    exact quotient, [OverflowError] when that is out of range; on floats
    it is the float division; division by zero raises. *)
Definition truediv (a b : number) : error + number :=
  match a, b with
  | Int x, Int y =>
      if Z.eqb y 0 then inl ZeroDivisionError
      else
        match SFdiv prec emax (of_Z x) (of_Z y) with
        | S754_infinity _ => inl OverflowError
        | f => inr (Float f)
        end
  | _, _ =>
      (x <- to_float a ;;
       y <- to_float b ;;
       if is_zero y then inl ZeroDivisionError
       else inr (Float (SFdiv prec emax x y)))%num
  end.

(** [int(a)]: a float is truncated toward zero; infinities and NaN have
    no integer. *)
Definition int_ (a : number) : error + number :=
  match a with
  | Int z => inr (Int z)
  | Float (S754_zero _) => inr (Int 0)
  | Float (S754_finite s m e) =>
      inr (Int (cond_Zopp s
                  (if Z.leb 0 e then Zpos m * 2 ^ e else Zpos m / 2 ^ (- e))))
  | Float (S754_infinity _) => inl OverflowError
  | Float S754_nan => inl ValueError
  end.

Definition epoch_time (start_time end_time : number)
  : error + (number * number) :=
  (elapsed_time <- sub end_time start_time ;;
   minutes <- truediv elapsed_time (Int 60) ;;
   elapsed_mins <- int_ minutes ;;
   whole <- mul elapsed_mins (Int 60) ;;
   elapsed_secs <- sub elapsed_time whole ;;
   inr (elapsed_mins, elapsed_secs))%num.

(** The float a decimal literal [num / den] denotes: the nearest one. *)
Definition literal (num den : Z) : spec_float :=
  SFdiv prec emax (of_Z num) (of_Z den).

(** The rational a number denotes; infinities and NaN denote none. *)
Definition real (a : number) : option Q :=
  match a with
  | Int z => Some (inject_Z z)
  | Float (S754_zero _) => Some 0%Q
  | Float (S754_finite s m e) =>
      Some (if Z.leb 0 e then inject_Z (cond_Zopp s (Zpos m * 2 ^ e))
            else (cond_Zopp s (Zpos m) # Z.to_pos (2 ^ (- e)))%Q)
  | Float _ => None
  end.

(** A time: an integer, or a float that is a number (zero or finite, in
    the format). *)
Definition is_time (a : number) : bool :=
  match a with
  | Int _ => true
  | Float f =>
      valid_binary prec emax f
      && match f with
         | S754_zero _ | S754_finite _ _ _ => true
         | _ => false
         end
  end.

(** Minutes and seconds that split the elapsed time exactly: the
    minutes are the integer part of the sixtieth of [end_time -
    start_time], minutes times 60 plus seconds is [end_time -
    start_time], and the seconds are in [0, 60). *)
Definition splits_exactly (start_time end_time : number) : Prop :=
  exists (mins : Z) (secs : number) (a b r : Q),
    epoch_time start_time end_time = inr (Int mins, secs)
    /\ real start_time = Some a /\ real end_time = Some b /\ real secs = Some r
    /\ mins = Qfloor ((b - a) / 60)
    /\ (inject_Z mins * 60 + r == b - a)%Q
    /\ (0 <= r)%Q /\ (r < 60)%Q.

End Binary64.

(** * Properties *)

(** ** The interpreter *)

Lemma run_bind {S A B} g (lib : extcall -> S -> S * (exn + value))
    (p : py A) (f : A -> py B) (s : S) :
  run g lib (bind p f) s =
  match run g lib p s with
  | (t, s', inr a) =>
      match run g lib (f a) s' with
      | (t', s'', r) => ((t ++ t')%list, s'', r)
      end
  | (t, s', inl e) => (t, s', inl e)
  end.
Proof.
  revert s. induction p as [a|e|x k IH|c k IH]; intros s; cbn [bind run].
  - destruct (run g lib (f a) s) as [[t' s''] r]. reflexivity.
  - reflexivity.
  - destruct (lookup_name g x); [apply IH | reflexivity].
  - destruct (lib c s) as [s' [e|v]]; [reflexivity|].
    rewrite IH. destruct (run g lib (k v) s') as [[t s1] [e|a]]; [reflexivity|].
    destruct (run g lib (f a) s1) as [[t' s''] r]. reflexivity.
Qed.

Lemma run_load_unbound {S A} g (lib : extcall -> S -> S * (exn + value))
    (x : string) (k : value -> py A) (s : S) :
  lookup_name g x = None ->
  run g lib (LoadGlobal x k) s = ([], s, inl (NameError x)).
Proof. intros H. cbn [run]. rewrite H. reflexivity. Qed.

Lemma run_load_bound {S A} g (lib : extcall -> S -> S * (exn + value))
    (x : string) (v : value) (k : value -> py A) (s : S) :
  lookup_name g x = Some v ->
  run g lib (LoadGlobal x k) s = run g lib (k v) s.
Proof. intros H. cbn [run]. rewrite H. reflexivity. Qed.

Lemma all_calls_bind {A B} g P (p : py A) (f : A -> py B) :
  all_calls g P p -> (forall a, all_calls g P (f a)) -> all_calls g P (bind p f).
Proof.
  intros Hp Hf. induction p as [a|e|x k IH|c k IH]; cbn [bind all_calls] in *.
  - apply Hf.
  - exact I.
  - intros v Hv. apply IH, Hp, Hv.
  - destruct Hp as [Hc Hk]. split; [exact Hc|]. intros v. apply IH, Hk.
Qed.

Lemma all_calls_trace {S A} g (lib : extcall -> S -> S * (exn + value)) P
    (p : py A) (s : S) :
  all_calls g P p -> Forall (fun ev => P ev.1) (trace g lib p s).
Proof.
  unfold trace. revert s.
  induction p as [a|e|x k IH|c k IH]; intros s Hp; cbn [run all_calls] in *.
  - constructor.
  - constructor.
  - destruct (lookup_name g x) as [v|] eqn:Hx; [|constructor].
    apply IH, Hp. reflexivity.
  - destruct Hp as [Hc Hk].
    destruct (lib c s) as [s' [e|v]]; cbn.
    + constructor; [exact Hc | constructor].
    + specialize (IH v s' (Hk v)).
      destruct (run g lib (k v) s') as [[t s''] r]. cbn in *.
      constructor; [exact Hc | exact IH].
Qed.

Lemma all_calls_lift {A} g P (r : exn + A) : all_calls g P (lift r).
Proof. destruct r; exact I. Qed.

Lemma all_calls_unpack2 g (P : extcall -> Prop) (r : value) :
  (forall o, P (Iter o)) -> all_calls g P (unpack2 r).
Proof.
  intros HP.
  assert (Htwo : forall vs : list value,
    all_calls g P (match vs with
                   | [a; b] => Ret (a, b)
                   | _ => Raise (ValueError "expected 2 values to unpack")
                   end)).
  { intros [|a [|b [|c vs]]]; exact I. }
  destruct r; cbn; try (split; [apply HP|]; intros [];
    first [exact I | apply Htwo]); apply Htwo.
Qed.

(** ** Names the notebook leaves unbound *)

Lemma tokens_unbound : lookup_name notebook_globals "tokens" = None.
Proof. vm_compute. reflexivity. Qed.

Lemma torch_bound : lookup_name notebook_globals "torch" = Some (VObj "torch").
Proof. vm_compute. reflexivity. Qed.

Lemma trg_len_unbound : lookup_name notebook_globals "trg_len" = None.
Proof. vm_compute. reflexivity. Qed.

Lemma prediction_unbound : lookup_name notebook_globals "prediction" = None.
Proof. vm_compute. reflexivity. Qed.

Lemma tokenize_de_run {S} (lib : extcall -> S -> S * (exn + value)) (s : S)
    (text : value) :
  run notebook_globals lib (tokenize_de text) s = ([], s, inl (NameError "tokens")).
Proof. apply run_load_unbound, tokens_unbound. Qed.

Lemma tokenize_en_run {S} (lib : extcall -> S -> S * (exn + value)) (s : S)
    (text : value) :
  run notebook_globals lib (tokenize_en text) s = ([], s, inl (NameError "tokens")).
Proof. apply run_load_unbound, tokens_unbound. Qed.

(** C5: on every input string both tokenizers raise [NameError] for the
    name [tokens], which neither the notebook nor the builtins bind; no
    call returns a token list, and no library call is made. *)
Theorem tokenizers_always_fail :
  forall (S : Type) (lib : extcall -> S -> S * (exn + value)) (s : S) (text : string),
    run notebook_globals lib (tokenize_de (VStr text)) s = ([], s, inl (NameError "tokens"))
    /\ run notebook_globals lib (tokenize_en (VStr text)) s = ([], s, inl (NameError "tokens")).
Proof.
  intros S lib s text.
  split; [apply tokenize_de_run | apply tokenize_en_run].
Qed.

(** In any namespace that leaves [trg_len] unbound, [forward] fails
    before the encoder is reached. *)
Lemma forward_fails_without_trg_len {S} g (lib : extcall -> S -> S * (exn + value))
    (self : Seq2Seq.t) (src trg : value) (s : S) :
  lookup_name g "trg_len" = None ->
  exists e, result g lib (Seq2Seq.forward self src trg) s = inl e.
Proof.
  intros H. unfold result, Seq2Seq.forward, load, ext. cbn [bind run].
  destruct (lookup_name g "torch") as [torch|]; [|eauto].
  cbn [run]. destruct (lib (GetAttr torch "zeros") s) as [s' [e|zeros]]; [eauto|].
  rewrite H. eauto.
Qed.

(** The whole run of [forward] in the notebook as shipped. *)
Lemma forward_shipped {S} (lib : extcall -> S -> S * (exn + value))
    (self : Seq2Seq.t) (src trg : value) (s : S) :
  run notebook_globals lib (Seq2Seq.forward self src trg) s =
  match lib (GetAttr (VObj "torch") "zeros") s with
  | (s', inl e) => ([(GetAttr (VObj "torch") "zeros", inl e)], s', inl e)
  | (s', inr v) =>
      ([(GetAttr (VObj "torch") "zeros", inr v)], s', inl (NameError "trg_len"))
  end.
Proof.
  unfold Seq2Seq.forward, load, ext. cbn [bind].
  rewrite (run_load_bound _ _ _ _ _ _ torch_bound). cbn [run].
  destruct (lib (GetAttr (VObj "torch") "zeros") s) as [s' [e|zeros]].
  - reflexivity.
  - rewrite trg_len_unbound. reflexivity.
Qed.

(** C1: as shipped, every call of [Seq2Seq.forward] ends in the error
    branch.  The hyperparameter cell does not parse (five assignments have
    an empty right-hand side, so it binds none of its names), the names
    [trg_len], [batch_size], [trg_vocab_size] and [decoder_input] are
    bound nowhere, and for every library, state and input pair the call
    raises: [NameError] for [trg_len] as soon as [torch.zeros] has been
    resolved, that attribute access being the only library call made. *)
Theorem Seq2Seq_forward_never_runs :
  forall (S : Type) (lib : extcall -> S -> S * (exn + value)) (s : S)
         (self : Seq2Seq.t) (src trg : value),
    cell_parses hyperparameter_cell = false
    /\ Forall (fun x => lookup_name notebook_globals x = None)
         ["INPUT_DIM"; "OUTPUT_DIM"; "ENC_EMB_DIM"; "DEC_EMB_DIM"; "HID_DIM";
          "trg_len"; "batch_size"; "trg_vocab_size"; "decoder_input"]
    /\ (exists e, result notebook_globals lib (Seq2Seq.forward self src trg) s = inl e)
    /\ result notebook_globals lib (Seq2Seq.forward self src trg) s =
         match (lib (GetAttr (VObj "torch") "zeros") s).2 with
         | inl e => inl e
         | inr _ => inl (NameError "trg_len")
         end
    /\ map fst (trace notebook_globals lib (Seq2Seq.forward self src trg) s) =
         [GetAttr (VObj "torch") "zeros"].
Proof.
  intros S lib s self src trg.
  split; [reflexivity|].
  split; [repeat constructor; vm_compute; reflexivity|].
  split; [apply forward_fails_without_trg_len, trg_len_unbound|].
  unfold result, trace. rewrite forward_shipped.
  destruct (lib (GetAttr (VObj "torch") "zeros") s) as [s' [e|zeros]];
    split; reflexivity.
Qed.

(** ** Teacher forcing *)

Lemma decoder_inputs_Forall (g : gmap string value) (dec : value) (t : list event) :
  Forall (fun ev : event =>
            match ev.1 with
            | Call _ [x; _] => lookup_name g "decoder_input" = Some x
            | _ => True
            end) t ->
  Forall (fun x => lookup_name g "decoder_input" = Some x) (decoder_inputs dec t).
Proof.
  induction 1 as [|[c r] t Hc Ht IH]; [constructor|].
  destruct c as [o a|f args|o i v|o|o]; cbn [decoder_inputs]; try exact IH.
  destruct args as [|x [|y [|z args]]]; try exact IH.
  destruct (value_eqb f dec); [constructor; [exact Hc | exact IH] | exact IH].
Qed.

Lemma decode_loop_calls g (self : Seq2Seq.t) (outputs : value)
    (steps : list value) (hidden : value) :
  all_calls g (fun c => match c with
                        | Call _ [x; _] => lookup_name g "decoder_input" = Some x
                        | _ => True
                        end)
    (Seq2Seq.decode_loop self outputs steps hidden).
Proof.
  revert hidden. induction steps as [|step steps IH]; intros hidden.
  - exact I.
  - cbn [Seq2Seq.decode_loop load ext bind all_calls].
    intros d Hd. split; [exact Hd|]. intros r.
    apply all_calls_bind; [apply all_calls_unpack2; intros; exact I|].
    intros [output hidden']. cbn [bind all_calls]. split; [exact I|].
    intros _. apply IH.
Qed.

Lemma forward_calls g (self : Seq2Seq.t) (src trg : value) :
  all_calls g (fun c => match c with
                        | Call _ [x; _] => lookup_name g "decoder_input" = Some x
                        | _ => True
                        end)
    (Seq2Seq.forward self src trg).
Proof.
  unfold Seq2Seq.forward, load, ext. cbn [bind all_calls].
  intros torch _. split; [exact I|]. intros zeros trg_len _ batch_size _ vocab _.
  split; [exact I|]. intros z. split; [exact I|]. intros to device _.
  split; [exact I|]. intros outputs. split; [exact I|]. intros hidden n _.
  apply all_calls_bind.
  - destruct n; exact I.
  - intros steps. apply all_calls_bind; [apply decode_loop_calls | intros; exact I].
Qed.

(** With the missing names bound at top level, and the target
    [<sos> good <eos>], the decoder is fed [<sos>] twice. *)
Lemma forward_patched_decoder_inputs :
  decoder_inputs (Seq2Seq.decoder sample_model)
    (trace patched_globals sample_lib
       (Seq2Seq.forward sample_model (VList [VStr "guten"; VStr "morgen"])
          (VList [VStr "<sos>"; VStr "good"; VStr "<eos>"])) sample_state)
  = [VStr "<sos>"; VStr "<sos>"].
Proof. vm_compute. reflexivity. Qed.

(** C2 as stated does not hold: with the notebook as shipped no
    decoder step is executed, and once the missing names are bound at top
    level the decoder is fed the same global [decoder_input] at every
    step rather than the tokens of [trg]. *)
Lemma teacher_forcing_counterexample :
  ~ feeds_ground_truth notebook_globals sample_lib sample_model
      (VList [VStr "guten"; VStr "morgen"])
      [VStr "<sos>"; VStr "good"; VStr "<eos>"] sample_state
  /\ ~ feeds_ground_truth patched_globals sample_lib sample_model
      (VList [VStr "guten"; VStr "morgen"])
      [VStr "<sos>"; VStr "good"; VStr "<eos>"] sample_state.
Proof.
  split; unfold feeds_ground_truth; vm_compute; intros H; discriminate H.
Qed.

(** C2 (amended): [Seq2Seq.forward] never assigns [decoder_input] (both
    assignments are placeholders) and never reads [trg].  In every
    namespace and for every library, each decoder call is passed the
    value of the global name [decoder_input], the run does not depend on
    [trg], and in the notebook as shipped no decoder step is executed. *)
Theorem decoder_input_is_global :
  forall (S : Type) (g : gmap string value)
         (lib : extcall -> S -> S * (exn + value)) (s : S)
         (self : Seq2Seq.t) (src trg : value),
    Forall (fun ev : event =>
              match ev.1 with
              | Call _ [x; _] => lookup_name g "decoder_input" = Some x
              | _ => True
              end) (trace g lib (Seq2Seq.forward self src trg) s)
    /\ Forall (fun x => lookup_name g "decoder_input" = Some x)
         (decoder_inputs (Seq2Seq.decoder self)
            (trace g lib (Seq2Seq.forward self src trg) s))
    /\ (forall trg', run g lib (Seq2Seq.forward self src trg') s =
                     run g lib (Seq2Seq.forward self src trg) s)
    /\ decoder_inputs (Seq2Seq.decoder self)
         (trace notebook_globals lib (Seq2Seq.forward self src trg) s) = [].
Proof.
  intros S g lib s self src trg.
  assert (H := all_calls_trace g lib _ _ s (forward_calls g self src trg)).
  split; [exact H|].
  split; [apply decoder_inputs_Forall, H|].
  split; [reflexivity|].
  unfold trace. rewrite forward_shipped.
  destruct (lib (GetAttr (VObj "torch") "zeros") s) as [s' [e|zeros]]; reflexivity.
Qed.

(** ** The context vector *)

Ltac run_step lib :=
  cbn [run fst snd];
  match goal with
  | |- context [match lookup_name ?g ?x with _ => _ end] =>
      destruct (lookup_name g x)
  | |- context [match lib ?c ?s with _ => _ end] =>
      destruct (lib c s) as [? [?|?]]
  end;
  cbn [run fst snd].










(** ** Training *)


Ltac fetch_ok :=
  repeat match goal with
         | |- _ /\ _ => split
         | |- forall _, _ => intro
         | |- True => exact I
         | |- In _ _ => cbn; tauto
         | |- _ <> _ => discriminate
         | |- _ = _ => first [reflexivity | congruence]
         | |- all_calls _ _ (lift _) => apply all_calls_lift
         end.

Lemma train_batch_calls g (model optimizer criterion clip batch epoch_loss : value) :
  all_calls g (train_fetches optimizer)
    (train_batch model optimizer criterion clip batch epoch_loss).
Proof.
  unfold train_batch, load, ext. cbn [bind all_calls train_fetches]. fetch_ok.
Qed.

Lemma train_loop_calls g (model optimizer criterion clip : value)
    (batches : list value) (epoch_loss : value) :
  all_calls g (train_fetches optimizer)
    (train_loop model optimizer criterion clip batches epoch_loss).
Proof.
  revert epoch_loss. induction batches as [|batch batches IH]; intros epoch_loss.
  - exact I.
  - cbn [train_loop]. apply all_calls_bind; [apply train_batch_calls | apply IH].
Qed.

Lemma train_calls g (model iterator optimizer criterion clip : value) :
  all_calls g (train_fetches optimizer)
    (train model iterator optimizer criterion clip).
Proof.
  unfold train, load, ext. cbn [bind all_calls train_fetches]. fetch_ok.
  destruct v1; try exact I.
  apply all_calls_bind; [apply train_loop_calls|].
  intros epoch_loss. cbn [bind all_calls train_fetches]. fetch_ok.
Qed.

Lemma run_lift {S A} g (lib : extcall -> S -> S * (exn + value))
    (r : exn + A) (s : S) :
  run g lib (lift r) s = ([], s, r).
Proof. destruct r; reflexivity. Qed.

(** An iteration that runs to completion, whatever the library: the
    calls it makes, in order, with what each returned. *)
Lemma train_batch_completed {S} g (lib : extcall -> S -> S * (exn + value))
    (model optimizer criterion clip batch epoch_loss : value) (s s' : S)
    (t : list event) (v : value) :
  run g lib (train_batch model optimizer criterion clip batch epoch_loss) s
    = (t, s', inr v) ->
  exists src trg step1 r1 output loss backward r2 nn utils clip_grad_norm_
         parameters params r3 step2 r4 item l,
    t = [(GetAttr batch "src", inr src); (GetAttr batch "trg", inr trg);
         (GetAttr optimizer "step", inr step1); (Call step1 [], inr r1);
         (Call model [src; trg], inr output);
         (Call criterion [output; trg], inr loss);
         (GetAttr loss "backward", inr backward); (Call backward [], inr r2);
         (GetAttr nn "utils", inr utils);
         (GetAttr utils "clip_grad_norm_", inr clip_grad_norm_);
         (GetAttr model "parameters", inr parameters);
         (Call parameters [], inr params);
         (Call clip_grad_norm_ [params; clip], inr r3);
         (GetAttr optimizer "step", inr step2); (Call step2 [], inr r4);
         (GetAttr loss "item", inr item); (Call item [], inr l)]
    /\ lookup_name g "nn" = Some nn
    /\ py_add epoch_loss l = inr v.
Proof.
  unfold train_batch, load, ext. cbn [bind].
  repeat (run_step lib; try discriminate).
  - rewrite run_lift. cbn [fst snd]. intros H. injection H as <- <- H.
    repeat eexists; eauto.
Qed.

Section ReferenceRuns.
Variable fwd : Z -> value -> value -> value.
Variable loss_of : value -> value -> Z * Z.
Variable clipf : value -> Z -> Z.
Variable enc : value -> value.
Variable dec : value -> value -> value * value.

Let ref := torch_ref fwd loss_of clipf enc dec.

Lemma train_batch_ref (clip src trg : value) (el : Z) (st : torch_state) :
  exists T,
    run notebook_globals ref
      (train_batch (VObj "model") (VObj "optimizer") (VObj "criterion") clip
         (Batch src trg) (VInt el)) st
    = (T, batch_effect fwd loss_of clipf clip st (Batch src trg),
       inr (VInt (el + (loss_of (fwd (weight st - grad st) src trg) trg).1)))
    /\ calls_made T = batch_calls
    /\ count_getattr (VObj "optimizer") "step" T = 2%nat.
Proof.
  destruct st as [g0 w0 n0 ds tens].
  eexists. split; [vm_compute; reflexivity|].
  split; vm_compute; reflexivity.
Qed.

Lemma count_getattr_app o a (t1 t2 : list event) :
  count_getattr o a (t1 ++ t2) = (count_getattr o a t1 + count_getattr o a t2)%nat.
Proof. unfold count_getattr. rewrite filter_app, length_app. reflexivity. Qed.

Lemma calls_made_app (t1 t2 : list event) :
  calls_made (t1 ++ t2) = (calls_made t1 ++ calls_made t2)%list.
Proof. unfold calls_made. apply omap_app. Qed.

Lemma calls_made_cons (ev : event) (t : list event) :
  calls_made (ev :: t) =
  match ev.1 with
  | Call f _ => (class_name f ++ "()") :: calls_made t
  | _ => calls_made t
  end.
Proof. destruct ev as [[] r]; reflexivity. Qed.

Lemma count_getattr_cons o a (ev : event) (t : list event) :
  count_getattr o a (ev :: t) =
  if is_getattr o a ev then Datatypes.S (count_getattr o a t)
  else count_getattr o a t.
Proof.
  unfold count_getattr. rewrite filter_cons.
  destruct (is_getattr o a ev); case_decide; try congruence; reflexivity.
Qed.

Lemma train_loop_ref (clip : value) (pairs : list (value * value)) :
  forall (el : Z) (st : torch_state),
  exists T el',
    run notebook_globals ref
      (train_loop (VObj "model") (VObj "optimizer") (VObj "criterion") clip
         (map (fun p => Batch p.1 p.2) pairs) (VInt el)) st
    = (T, fold_left (batch_effect fwd loss_of clipf clip)
            (map (fun p => Batch p.1 p.2) pairs) st,
       inr (VInt el'))
    /\ calls_made T = concat (repeat batch_calls (length pairs))
    /\ count_getattr (VObj "optimizer") "step" T = (2 * length pairs)%nat.
Proof.
  induction pairs as [|[src trg] pairs IH]; intros el st.
  - exists [], el. repeat split; reflexivity.
  - cbn [map train_loop fold_left fst snd].
    destruct (train_batch_ref clip src trg el st) as (T1 & H1 & Hc1 & Hn1).
    destruct (IH (el + (loss_of (fwd (weight st - grad st) src trg) trg).1)
                 (batch_effect fwd loss_of clipf clip st (Batch src trg)))
      as (T2 & el' & H2 & Hc2 & Hn2).
    exists (T1 ++ T2)%list, el'.
    rewrite run_bind, H1, H2.
    split; [reflexivity|].
    rewrite calls_made_app, count_getattr_app, Hc1, Hc2, Hn1, Hn2.
    split; [reflexivity|]. cbn [length]. lia.
Qed.

(** The whole of [train] in the reference model. *)
Lemma train_ref (clip : value) (pairs : list (value * value)) (st : torch_state) :
  dataset st = map (fun p => Batch p.1 p.2) pairs ->
  exists T r,
    run notebook_globals ref
      (train (VObj "model") (VObj "train_iterator") (VObj "optimizer")
         (VObj "criterion") clip) st
    = (T, fold_left (batch_effect fwd loss_of clipf clip) (dataset st) st, r)
    /\ calls_made T = "model.train()" :: concat (repeat batch_calls (length pairs))
    /\ count_getattr (VObj "optimizer") "step" T = (2 * length pairs)%nat.
Proof.
  intros Hds.
  destruct (train_loop_ref clip pairs 0 st) as (T & el' & H & Hc & Hn).
  unfold train, ext. cbn [bind run].
  change (ref (GetAttr (VObj "model") "train") st)
    with (st, @inr exn value (VMethod (VObj "model") "train")).
  cbn [run].
  change (ref (Call (VMethod (VObj "model") "train") []) st)
    with (st, @inr exn value VNone).
  cbn [run].
  change (ref (Iter (VObj "train_iterator")) st)
    with (st, @inr exn value (VList (dataset st))).
  cbn [run]. rewrite run_bind, Hds, H. rewrite <- Hds.
  cbn [bind run].
  set (st' := fold_left _ _ _).
  change (ref (Len (VObj "train_iterator")) st')
    with (st', @inr exn value (VInt (Z.of_nat (length (dataset st'))))).
  cbv beta iota. rewrite run_lift.
  eexists _, _. split; [reflexivity|].
  rewrite !calls_made_cons, !count_getattr_cons, calls_made_app, count_getattr_app.
  rewrite !calls_made_cons, !count_getattr_cons, Hc, Hn.
  change (count_getattr (VObj "optimizer") "step" []) with 0%nat.
  cbn [is_getattr fst value_eqb String.eqb Ascii.eqb Bool.eqb andb].
  split; [rewrite app_nil_r; reflexivity | lia].
Qed.
End ReferenceRuns.

(** C8: [train] never clears the gradients.  For every library and
    every five arguments, the only attributes it fetches are those of
    [train_attributes] ([zero_grad] is not among them) and [step] is
    fetched from the [optimizer] argument only; an iteration that runs
    to completion calls [optimizer.step()] first (where the comment says
    the gradients are zeroed), then the model, the criterion,
    [backward], the clipping and [optimizer.step()] again: two steps per
    batch.  In the reference model, on any list of batches, that makes
    two steps for each batch of the pass, and the gradient stored after
    a batch is the clipped sum of the gradient stored before it and the
    batch's own, so what [backward] produces accumulates over all the
    batches. *)
Theorem train_never_zeroes_gradients :
  (forall (S : Type) (g : gmap string value)
          (lib : extcall -> S -> S * (exn + value)) (s : S)
          (model iterator optimizer criterion clip : value),
      Forall (fun ev : event => train_fetches optimizer ev.1)
        (trace g lib (train model iterator optimizer criterion clip) s))
  /\ (forall (S : Type) (g : gmap string value)
             (lib : extcall -> S -> S * (exn + value)) (s s' : S)
             (model optimizer criterion clip batch epoch_loss v : value)
             (t : list event),
        run g lib (train_batch model optimizer criterion clip batch epoch_loss) s
          = (t, s', inr v) ->
        exists src trg step1 r1 output loss backward r2 nn utils clip_grad_norm_
               parameters params r3 step2 r4 item l,
          t = [(GetAttr batch "src", inr src); (GetAttr batch "trg", inr trg);
               (GetAttr optimizer "step", inr step1); (Call step1 [], inr r1);
               (Call model [src; trg], inr output);
               (Call criterion [output; trg], inr loss);
               (GetAttr loss "backward", inr backward); (Call backward [], inr r2);
               (GetAttr nn "utils", inr utils);
               (GetAttr utils "clip_grad_norm_", inr clip_grad_norm_);
               (GetAttr model "parameters", inr parameters);
               (Call parameters [], inr params);
               (Call clip_grad_norm_ [params; clip], inr r3);
               (GetAttr optimizer "step", inr step2); (Call step2 [], inr r4);
               (GetAttr loss "item", inr item); (Call item [], inr l)]
          /\ lookup_name g "nn" = Some nn
          /\ py_add epoch_loss l = inr v)
  /\ (forall fwd loss_of clipf enc dec (clip : value)
             (pairs : list (value * value)) (g0 w0 : Z) (n0 : nat)
             (tens : list value),
        let st := {| grad := g0; weight := w0; adam_steps := n0;
                     dataset := map (fun p => Batch p.1 p.2) pairs;
                     tensor := tens |} in
        let r := run notebook_globals (torch_ref fwd loss_of clipf enc dec)
                   (train (VObj "model") (VObj "train_iterator")
                      (VObj "optimizer") (VObj "criterion") clip) st in
        calls_made r.1.1
          = "model.train()" :: concat (repeat batch_calls (length pairs))
        /\ count_getattr (VObj "optimizer") "step" r.1.1 = (2 * length pairs)%nat
        /\ r.1.2 = fold_left (batch_effect fwd loss_of clipf clip) (dataset st) st)
  /\ (forall fwd loss_of clipf (clip : value) (s : torch_state) (src trg : value),
        grad (batch_effect fwd loss_of clipf clip s (Batch src trg))
          = clipf clip (grad s + (loss_of (fwd (weight s - grad s) src trg) trg).2)
        /\ adam_steps (batch_effect fwd loss_of clipf clip s (Batch src trg))
          = Datatypes.S (Datatypes.S (adam_steps s))).
Proof.
  split; [|split; [|split]].
  - intros S g lib s model iterator optimizer criterion clip.
    apply all_calls_trace, train_calls.
  - intros S g lib s s' model optimizer criterion clip batch epoch_loss v t.
    apply train_batch_completed.
  - intros fwd loss_of clipf enc dec clip pairs g0 w0 n0 tens st r.
    destruct (train_ref fwd loss_of clipf enc dec clip pairs st eq_refl)
      as (T & res & H & Hc & Hn).
    subst r. rewrite H. cbn [fst snd]. auto.
  - intros. split; reflexivity.
Qed.

(** The sample pass over three batches: six optimizer steps, no reset,
    and the first iteration has the shape every completed iteration has. *)
Lemma train_never_zeroes_gradients_witness :
  (exists src trg step1 r1 output loss backward r2 nn utils clip_grad_norm_
          parameters params r3 step2 r4 item l,
      trace notebook_globals sample_lib
        (train_batch (VObj "model") (VObj "optimizer") (VObj "criterion")
           (VInt 2) (Batch (VInt 1) (VInt 4)) (VInt 0)) sample_state
      = [(GetAttr (Batch (VInt 1) (VInt 4)) "src", inr src);
         (GetAttr (Batch (VInt 1) (VInt 4)) "trg", inr trg);
         (GetAttr (VObj "optimizer") "step", inr step1); (Call step1 [], inr r1);
         (Call (VObj "model") [src; trg], inr output);
         (Call (VObj "criterion") [output; trg], inr loss);
         (GetAttr loss "backward", inr backward); (Call backward [], inr r2);
         (GetAttr nn "utils", inr utils);
         (GetAttr utils "clip_grad_norm_", inr clip_grad_norm_);
         (GetAttr (VObj "model") "parameters", inr parameters);
         (Call parameters [], inr params);
         (Call clip_grad_norm_ [params; VInt 2], inr r3);
         (GetAttr (VObj "optimizer") "step", inr step2); (Call step2 [], inr r4);
         (GetAttr loss "item", inr item); (Call item [], inr l)]
      /\ lookup_name notebook_globals "nn" = Some nn
      /\ py_add (VInt 0) l = inr (VInt 6))
  /\ adam_steps
       (final notebook_globals sample_lib
          (train (VObj "model") (VObj "train_iterator") (VObj "optimizer")
             (VObj "criterion") (VInt 2)) sample_state) = 6%nat
  /\ grad
       (final notebook_globals sample_lib
          (train (VObj "model") (VObj "train_iterator") (VObj "optimizer")
             (VObj "criterion") (VInt 2)) sample_state) = 2.
Proof.
  split.
  - apply (proj1 (proj2 train_never_zeroes_gradients) torch_state notebook_globals
             sample_lib sample_state
             {| grad := 1; weight := 9; adam_steps := 2;
                dataset := dataset sample_state; tensor := [] |}).
    vm_compute. reflexivity.
  - split; vm_compute; reflexivity.
Defined.

Lemma train_bound : lookup_name notebook_globals "train" = Some (VObj "train").
Proof. vm_compute. reflexivity. Qed.
Lemma model_bound : lookup_name notebook_globals "model" = Some (VObj "model").
Proof. vm_compute. reflexivity. Qed.
Lemma train_iterator_bound :
  lookup_name notebook_globals "train_iterator" = Some (VObj "train_iterator").
Proof. vm_compute. reflexivity. Qed.
Lemma criterion_bound :
  lookup_name notebook_globals "criterion" = Some (VObj "criterion").
Proof. vm_compute. reflexivity. Qed.
Lemma optimizer_bound :
  lookup_name notebook_globals "optimizer" = Some (VObj "optimizer").
Proof. vm_compute. reflexivity. Qed.
Lemma CLIP_bound : lookup_name notebook_globals "CLIP" = Some (VInt 2).
Proof. vm_compute. reflexivity. Qed.

(** The call of the training loop in a namespace that binds its six
    names: [train] receives the value of [criterion] as its third
    argument and the value of [optimizer] as its fourth. *)
Lemma train_call_resolved {S} g (lib : extcall -> S -> S * (exn + value)) (s : S)
    (f m it c o clip : value) :
  lookup_name g "train" = Some f ->
  lookup_name g "model" = Some m ->
  lookup_name g "train_iterator" = Some it ->
  lookup_name g "criterion" = Some c ->
  lookup_name g "optimizer" = Some o ->
  lookup_name g "CLIP" = Some clip ->
  run g lib train_call s = run g lib (train m it c o clip) s.
Proof.
  intros Hf Hm Hit Hc Ho Hclip. unfold train_call, load. cbn [bind].
  rewrite (run_load_bound _ _ _ _ _ _ Hf).
  rewrite (run_load_bound _ _ _ _ _ _ Hm).
  rewrite (run_load_bound _ _ _ _ _ _ Hit).
  rewrite (run_load_bound _ _ _ _ _ _ Hc).
  rewrite (run_load_bound _ _ _ _ _ _ Ho).
  rewrite (run_load_bound _ _ _ _ _ _ Hclip).
  reflexivity.
Qed.

(** As shipped the call does not reach [train]: [train] is bound, and
    [model], the first argument evaluated, is not. *)
Lemma train_call_shipped {S} (lib : extcall -> S -> S * (exn + value)) (s : S) :
  run shipped_globals lib train_call s = ([], s, inl (NameError "model")).
Proof.
  assert (Ht : lookup_name shipped_globals "train" = Some (VObj "train"))
    by (vm_compute; reflexivity).
  assert (Hm : lookup_name shipped_globals "model" = None)
    by (vm_compute; reflexivity).
  unfold train_call, load. cbn [bind].
  rewrite (run_load_bound _ _ _ _ _ _ Ht).
  apply run_load_unbound, Hm.
Qed.

(** Fetching an attribute does not change the state of the reference
    model. *)
Lemma ref_getattr_state fwd loss_of clipf enc dec (o : value) (a : string)
    (s : torch_state) :
  (torch_ref fwd loss_of clipf enc dec (GetAttr o a) s).1 = s.
Proof.
  cbn [torch_ref]. unfold ref_getattr.
  destruct o as [| | | | | | | |cls fields| |];
    try (destruct (has_attr _ _); reflexivity).
  destruct fields as [|x [|y [|z l]]];
    try (destruct (has_attr _ _); reflexivity).
  repeat (destruct (String.eqb _ _)); try reflexivity;
    destruct (has_attr _ _); reflexivity.
Qed.

(** [train] with the criterion in the place of its optimizer, in the
    reference model: whatever the batches, the call raises, no [step]
    method is called and the library state is left as it was. *)
Lemma train_swapped_ref fwd loss_of clipf enc dec (g : gmap string value)
    (clip : value) (st : torch_state) :
  let r := run g (torch_ref fwd loss_of clipf enc dec)
             (train (VObj "model") (VObj "train_iterator") (VObj "criterion")
                (VObj "optimizer") clip) st in
  r.1.2 = st
  /\ (exists e, r.2 = inl e)
  /\ Forall (fun ev : event => is_step_call ev = false) r.1.1.
Proof.
  intros r. subst r.
  destruct st as [g0 w0 n0 ds tens].
  set (st := {| grad := g0; weight := w0; adam_steps := n0;
                dataset := ds; tensor := tens |}).
  set (ref := torch_ref fwd loss_of clipf enc dec).
  unfold train, ext. cbn [bind run].
  change (ref (GetAttr (VObj "model") "train") st)
    with (st, @inr exn value (VMethod (VObj "model") "train")).
  cbn [run].
  change (ref (Call (VMethod (VObj "model") "train") []) st)
    with (st, @inr exn value VNone).
  cbn [run].
  change (ref (Iter (VObj "train_iterator")) st)
    with (st, @inr exn value (VList ds)).
  cbn [run].
  destruct ds as [|batch rest].
  - cbn [train_loop bind run].
    change (ref (Len (VObj "train_iterator")) st)
      with (st, @inr exn value (VInt 0)).
    cbn. split; [reflexivity|]. split; [eauto|].
    repeat constructor.
  - cbn [run train_loop train_batch bind ext].
    pose proof (ref_getattr_state fwd loss_of clipf enc dec batch "src" st) as H1.
    fold ref in H1.
    destruct (ref (GetAttr batch "src") st) as [s1 [e|src]];
      cbn [fst] in H1; subst s1;
      [cbn; split; [reflexivity|]; split; [eauto|]; repeat constructor|].
    cbn [run].
    pose proof (ref_getattr_state fwd loss_of clipf enc dec batch "trg" st) as H2.
    fold ref in H2.
    destruct (ref (GetAttr batch "trg") st) as [s2 [e|trg]];
      cbn [fst] in H2; subst s2;
      [cbn; split; [reflexivity|]; split; [eauto|]; repeat constructor|].
    cbn [run].
    change (ref (GetAttr (VObj "criterion") "step") st)
      with (st, @inl exn value (AttributeError (VObj "criterion") "step")).
    cbn. split; [reflexivity|]. split; [eauto|]. repeat constructor.
Qed.

(** C9 as stated does not hold: the training loop's call never invokes
    [step] on the criterion.  As shipped it raises [NameError] for
    [model] before [train] is entered; and with every name bound, in the
    sample run of the reference model (where a loss criterion, like
    [nn.CrossEntropyLoss], has no [step]), it raises [AttributeError]
    on the first batch, [model.train()] being the only call made. *)
Lemma training_loop_never_calls_step :
  run shipped_globals sample_lib train_call sample_state
  = ([], sample_state, inl (NameError "model"))
  /\ run notebook_globals sample_lib train_call sample_state
     = ([(GetAttr (VObj "model") "train", inr (VMethod (VObj "model") "train"));
         (Call (VMethod (VObj "model") "train") [], inr VNone);
         (Iter (VObj "train_iterator"),
          inr (VList [Batch (VInt 1) (VInt 4); Batch (VInt 2) (VInt 5);
                      Batch (VInt 3) (VInt 6)]));
         (GetAttr (Batch (VInt 1) (VInt 4)) "src", inr (VInt 1));
         (GetAttr (Batch (VInt 1) (VInt 4)) "trg", inr (VInt 4));
         (GetAttr (VObj "criterion") "step",
          inl (AttributeError (VObj "criterion") "step"))],
        sample_state, inl (AttributeError (VObj "criterion") "step")).
Proof. split; vm_compute; reflexivity. Qed.

(** C9 (amended): the training loop passes [criterion] where [train]
    expects its [optimizer] and [optimizer] where it expects its
    [criterion], and no call of the loop performs an optimizer update;
    but no [step] is invoked on the criterion either.  As shipped
    [model], [optimizer] and [criterion] are unbound (the cells that
    would assign them raise [NameError]) and the call raises [NameError]
    for [model] before [train] is entered, for every library.  In any
    namespace that binds the six names, the call is [train] with its
    third parameter bound to the value of [criterion] and its fourth to
    the value of [optimizer], and for every library every [step] that
    the call fetches is fetched from the criterion object.  In the
    reference model, where the criterion has no [step], the call
    raises (on a first batch, [AttributeError] for [step] on the
    criterion, before the model is called), calls no [step] method and
    leaves the library state as it found it, whatever the batches. *)
Theorem train_call_swaps_criterion_and_optimizer :
  (Forall (fun x => lookup_name shipped_globals x = None)
     ["model"; "optimizer"; "criterion"]
   /\ forall (S : Type) (lib : extcall -> S -> S * (exn + value)) (s : S),
        run shipped_globals lib train_call s = ([], s, inl (NameError "model")))
  /\ (forall (S : Type) (g : gmap string value)
             (lib : extcall -> S -> S * (exn + value)) (s : S)
             (f m it c o clip : value),
        lookup_name g "train" = Some f ->
        lookup_name g "model" = Some m ->
        lookup_name g "train_iterator" = Some it ->
        lookup_name g "criterion" = Some c ->
        lookup_name g "optimizer" = Some o ->
        lookup_name g "CLIP" = Some clip ->
        run g lib train_call s = run g lib (train m it c o clip) s
        /\ Forall (fun ev : event =>
                     match ev.1 with
                     | GetAttr ob a => a = "step" -> ob = c
                     | _ => True
                     end) (trace g lib train_call s))
  /\ (forall fwd loss_of clipf enc dec (g : gmap string value) (clip : value)
             (g0 w0 : Z) (n0 : nat) (src trg : value) (rest tens : list value),
        let st := {| grad := g0; weight := w0; adam_steps := n0;
                     dataset := Batch src trg :: rest; tensor := tens |} in
        run g (torch_ref fwd loss_of clipf enc dec)
          (train (VObj "model") (VObj "train_iterator") (VObj "criterion")
             (VObj "optimizer") clip) st
        = ([(GetAttr (VObj "model") "train", inr (VMethod (VObj "model") "train"));
            (Call (VMethod (VObj "model") "train") [], inr VNone);
            (Iter (VObj "train_iterator"), inr (VList (Batch src trg :: rest)));
            (GetAttr (Batch src trg) "src", inr src);
            (GetAttr (Batch src trg) "trg", inr trg);
            (GetAttr (VObj "criterion") "step",
             inl (AttributeError (VObj "criterion") "step"))],
           st, inl (AttributeError (VObj "criterion") "step")))
  /\ (forall fwd loss_of clipf enc dec (g : gmap string value) (clip : value)
             (st : torch_state),
        let r := run g (torch_ref fwd loss_of clipf enc dec)
                   (train (VObj "model") (VObj "train_iterator")
                      (VObj "criterion") (VObj "optimizer") clip) st in
        r.1.2 = st
        /\ (exists e, r.2 = inl e)
        /\ Forall (fun ev : event => is_step_call ev = false) r.1.1).
Proof.
  split; [|split; [|split]].
  - split; [repeat constructor; vm_compute; reflexivity|].
    intros S lib s. apply train_call_shipped.
  - intros S g lib s f m it c o clip Hf Hm Hit Hc Ho Hclip.
    pose proof (train_call_resolved g lib s f m it c o clip Hf Hm Hit Hc Ho Hclip)
      as Hr.
    split; [exact Hr|].
    unfold trace. rewrite Hr.
    eapply Forall_impl;
      [apply (all_calls_trace _ lib _ _ s (train_calls g m it c o clip))|].
    intros [ca r]. cbn [fst]. destruct ca; cbn [train_fetches]; tauto.
  - intros. reflexivity.
  - intros fwd loss_of clipf enc dec g clip st.
    apply train_swapped_ref.
Qed.

(** In the namespace that binds every name, with the sample library:
    the call is [train] on the criterion, and each [step] it fetches is
    the criterion's. *)
Lemma train_call_swaps_criterion_and_optimizer_witness :
  run notebook_globals sample_lib train_call sample_state
  = run notebook_globals sample_lib
      (train (VObj "model") (VObj "train_iterator") (VObj "criterion")
         (VObj "optimizer") (VInt 2)) sample_state
  /\ Forall (fun ev : event =>
               match ev.1 with
               | GetAttr ob a => a = "step" -> ob = VObj "criterion"
               | _ => True
               end) (trace notebook_globals sample_lib train_call sample_state).
Proof.
  exact (proj1 (proj2 train_call_swaps_criterion_and_optimizer)
           torch_state notebook_globals sample_lib sample_state
           (VObj "train") (VObj "model") (VObj "train_iterator")
           (VObj "criterion") (VObj "optimizer") (VInt 2)
           train_bound model_bound train_iterator_bound criterion_bound
           optimizer_bound CLIP_bound).
Defined.

(** ** The callables tutorial *)

Lemma Person_set_name_run (h : gmap N object) (l : N) (d : gmap string value)
    (v : value) :
  h !! l = Some {| class_of := "Person"; __dict__ := d |} ->
  Person.set_name (VRef l) v h =
    (<[l := {| class_of := "Person"; __dict__ := <["name" := v]> d |}]> h, inr VNone).
Proof.
  intros Hl. unfold Person.set_name, hbind, setattr, hret. rewrite Hl. reflexivity.
Qed.

(** On an instance whose own dictionary does not shadow [set_name], the
    bound call and the call through the class do the same thing. *)
Lemma set_name_via_spec (st : style) (h : gmap N object) (l : N)
    (d : gmap string value) (n : string) :
  h !! l = Some {| class_of := "Person"; __dict__ := d |} ->
  d !! "set_name" = None ->
  set_name_via st (VRef l) n h =
    (<[l := {| class_of := "Person"; __dict__ := <["name" := VStr n]> d |}]> h,
     inr VNone).
Proof.
  intros Hl Hd. destruct st; unfold set_name_via, hbind, getattr, call.
  - rewrite Hl. cbn [__dict__ class_of]. rewrite Hd.
    change (class_defines "Person" "set_name") with true. cbv beta iota.
    rewrite Hl. cbn [class_of].
    change (call_function "Person" "set_name" [VRef l; VStr n])
      with (Person.set_name (VRef l) (VStr n)).
    apply Person_set_name_run, Hl.
  - change (class_defines "Person" "set_name") with true. cbv beta iota.
    change (call_function "Person" "set_name" [VRef l; VStr n])
      with (Person.set_name (VRef l) (VStr n)).
    apply Person_set_name_run, Hl.
Qed.


Lemma person_dict_no_shadow d : person_dict d -> d !! "set_name" = None.
Proof.
  intros [->|[n ->]]; [apply lookup_empty|].
  apply lookup_singleton_ne. discriminate.
Qed.

Lemma person_dict_set d (n : string) :
  person_dict d -> <["name" := VStr n]> d = {["name" := VStr n]}.
Proof.
  intros [->|[n' ->]]; [apply insert_empty|].
  apply insert_singleton_eq.
Qed.

Lemma replay_spec (calls : list (style * string)) (l : N) :
  forall (h : gmap N object) (d : gmap string value),
    h !! l = Some {| class_of := "Person"; __dict__ := d |} ->
    person_dict d ->
    exists h' d',
      replay calls (VRef l) h = (h', inr tt)
      /\ h' !! l = Some {| class_of := "Person"; __dict__ := d' |}
      /\ person_dict d'.
Proof.
  induction calls as [|[st n] calls IH]; intros h d Hl Hd.
  - exists h, d. auto.
  - cbn [replay]. unfold hbind.
    rewrite (set_name_via_spec st h l d n Hl (person_dict_no_shadow d Hd)).
    apply (IH _ (<["name" := VStr n]> d)).
    + apply lookup_insert_eq.
    + right. exists n. apply person_dict_set, Hd.
Qed.

Lemma Person_new (h0 : gmap N object) :
  call (VObj "Person") [] h0 =
    (<[fresh (dom h0) := {| class_of := "Person"; __dict__ := ∅ |}]> h0,
     inr (VRef (fresh (dom h0)))).
Proof. reflexivity. Qed.

(** An instance whose own dictionary binds [set_name] to a string
    shadows the function of the class: the bound call fails while the
    call through the class still works. *)
Lemma shadowed_set_name_differs :
  let h : gmap N object :=
    {[ 0%N := {| class_of := "Person";
                 __dict__ := {["set_name" := VStr "x"]} |} ]} in
  (set_name_via Bound (VRef 0) "Alex" h).2 = inl (TypeError "object is not callable")
  /\ (set_name_via Unbound (VRef 0) "Alex" h).2 = inr VNone.
Proof. split; vm_compute; reflexivity. Qed.

(** C6 as stated does not hold: the two calls are not equivalent on
    every [Person] instance.  On the instance whose dictionary is
    [{'set_name': 'x'}], [p.set_name('Alex')] raises [TypeError] (the
    string found in the instance is not callable) while
    [Person.set_name(p, 'Alex')] sets the name. *)
Lemma shadowed_instance_tells_the_calls_apart :
  ~ (forall (h : gmap N object) (l : N) (d : gmap string value) (n : string),
        h !! l = Some {| class_of := "Person"; __dict__ := d |} ->
        set_name_via Bound (VRef l) n h = set_name_via Unbound (VRef l) n h).
Proof.
  intros H.
  destruct shadowed_set_name_differs as [Hb Hu]. cbv zeta in Hb, Hu.
  rewrite (H _ 0%N {["set_name" := VStr "x"]} "Alex" (lookup_singleton_eq _ _))
    in Hb.
  rewrite Hu in Hb. discriminate Hb.
Qed.

(** C6 (amended): on every [Person] instance whose own dictionary has no
    ['set_name'] entry, and for every string [n], the bound call
    [p.set_name(n)] and the call through the class
    [Person.set_name(p, n)] are the same computation: both return
    [None] and yield the same heap, in which the ['name'] entry of
    [p.__dict__] is [n], every other entry of [p.__dict__] is as it was
    and no other object has changed; on an empty dictionary the result
    is [{'name': n}].  When the instance dictionary does bind
    ['set_name'], the call through the class still does that, and the
    bound call is a call of whatever the dictionary holds.  Every
    instance made by [Person()] and any history of [set_name] calls of
    either kind is of the first sort. *)
Theorem set_name_calls_agree_unless_shadowed :
  (forall (h : gmap N object) (l : N) (d : gmap string value) (n : string),
      h !! l = Some {| class_of := "Person"; __dict__ := d |} ->
      let h' := <[l := {| class_of := "Person";
                          __dict__ := <["name" := VStr n]> d |}]> h in
      set_name_via Unbound (VRef l) n h = (h', inr VNone)
      /\ instance_dict (VRef l) h' = Some (<["name" := VStr n]> d)
      /\ (forall k, k <> "name" -> (<["name" := VStr n]> d) !! k = d !! k)
      /\ (forall l', l' <> l -> h' !! l' = h !! l')
      /\ (d = ∅ -> instance_dict (VRef l) h' = Some {["name" := VStr n]})
      /\ (d !! "set_name" = None ->
          set_name_via Bound (VRef l) n h = (h', inr VNone))
      /\ (forall v, d !! "set_name" = Some v ->
          set_name_via Bound (VRef l) n h = call v [VStr n] h))
  /\ (forall (h0 : gmap N object) (calls : list (style * string)),
        exists (l : N) (h1 h : gmap N object) (d : gmap string value),
          call (VObj "Person") [] h0 = (h1, inr (VRef l))
          /\ instance_dict (VRef l) h1 = Some ∅
          /\ replay calls (VRef l) h1 = (h, inr tt)
          /\ h !! l = Some {| class_of := "Person"; __dict__ := d |}
          /\ d !! "set_name" = None).
Proof.
  split.
  - intros h l d n Hl h'.
    assert (Hu : set_name_via Unbound (VRef l) n h = (h', inr VNone)).
    { unfold set_name_via, hbind, getattr, call.
      change (class_defines "Person" "set_name") with true. cbv beta iota.
      change (call_function "Person" "set_name" [VRef l; VStr n])
        with (Person.set_name (VRef l) (VStr n)).
      apply Person_set_name_run, Hl. }
    split; [exact Hu|].
    split; [cbn [instance_dict]; unfold h'; rewrite lookup_insert_eq; reflexivity|].
    split; [intros k Hk; apply lookup_insert_ne; congruence|].
    split; [intros l' Hne; unfold h'; apply lookup_insert_ne; congruence|].
    split; [intros ->; cbn [instance_dict]; unfold h';
            rewrite lookup_insert_eq; cbn; rewrite insert_empty; reflexivity|].
    split.
    + intros Hd. apply set_name_via_spec; assumption.
    + intros v Hv. unfold set_name_via, hbind, getattr.
      rewrite Hl. cbn [__dict__]. rewrite Hv. reflexivity.
  - intros h0 calls.
    set (l := fresh (dom h0)).
    set (h1 := <[l := {| class_of := "Person"; __dict__ := ∅ |}]> h0).
    assert (Hl1 : h1 !! l = Some {| class_of := "Person"; __dict__ := ∅ |})
      by apply lookup_insert_eq.
    destruct (replay_spec calls l h1 ∅ Hl1 (or_introl eq_refl))
      as (h & d & Hr & Hl & Hd).
    exists l, h1, h, d.
    split; [apply Person_new|].
    split; [cbn [instance_dict]; rewrite Hl1; reflexivity|].
    split; [exact Hr|]. split; [exact Hl|].
    apply person_dict_no_shadow, Hd.
Qed.

(** The transcript of the notebook: [p = Person()], [p.set_name('Alex')],
    [p.__dict__], [Person.set_name(p, 'John')], [p.__dict__]. *)
Lemma Person_transcript :
  exists (p : value) (h1 h2 h3 : gmap N object),
    call (VObj "Person") [] ∅ = (h1, inr p)
    /\ set_name_via Bound p "Alex" h1 = (h2, inr VNone)
    /\ instance_dict p h2 = Some {["name" := VStr "Alex"]}
    /\ set_name_via Unbound p "John" h2 = (h3, inr VNone)
    /\ instance_dict p h3 = Some {["name" := VStr "John"]}.
Proof.
  set (l := fresh (dom (∅ : gmap N object))).
  set (h1 := <[l := {| class_of := "Person"; __dict__ := ∅ |}]>
               (∅ : gmap N object)).
  set (h2 := <[l := {| class_of := "Person";
                       __dict__ := <["name" := VStr "Alex"]> ∅ |}]> h1).
  set (h3 := <[l := {| class_of := "Person";
                       __dict__ := <["name" := VStr "John"]>
                                     (<["name" := VStr "Alex"]> ∅) |}]> h2).
  assert (Hl1 : h1 !! l = Some {| class_of := "Person"; __dict__ := ∅ |})
    by apply lookup_insert_eq.
  assert (Hl2 : h2 !! l = Some {| class_of := "Person";
                                  __dict__ := <["name" := VStr "Alex"]> ∅ |})
    by apply lookup_insert_eq.
  destruct (proj1 set_name_calls_agree_unless_shadowed h1 l ∅ "Alex" Hl1)
    as (_ & _ & _ & _ & He1 & Hb1 & _).
  destruct (proj1 set_name_calls_agree_unless_shadowed h2 l
              (<["name" := VStr "Alex"]> ∅) "John" Hl2)
    as (Hu2 & Hd2 & _).
  exists (VRef l), h1, h2, h3.
  split; [apply Person_new|].
  split; [apply Hb1, lookup_empty|].
  split; [apply He1; reflexivity|].
  split; [exact Hu2|].
  unfold h3. rewrite Hd2. f_equal.
Defined.

Lemma Adder_new (h : gmap N object) (vn : value) :
  call (VObj "Adder") [vn] h =
    (<[fresh (dom h) := {| class_of := "Adder"; __dict__ := {["n" := vn]} |}]> h,
     inr (VRef (fresh (dom h)))).
Proof.
  unfold call.
  change (is_class "Adder") with true.
  change (class_defines "Adder" "__init__") with true.
  cbv beta iota zeta.
  change (call_function "Adder" "__init__" [VRef (fresh (dom h)); vn])
    with (Adder.__init__ (VRef (fresh (dom h))) vn).
  unfold Adder.__init__, hbind, setattr, hret.
  rewrite lookup_insert_eq. cbn [class_of __dict__].
  rewrite insert_insert_eq, insert_empty. reflexivity.
Qed.

Lemma Adder_apply (h : gmap N object) (l : N) (vn vx : value) :
  h !! l = Some {| class_of := "Adder"; __dict__ := {["n" := vn]} |} ->
  call (VRef l) [vx] h = (h, py_add vn vx).
Proof.
  intros Hl. unfold call. rewrite Hl. cbn [class_of].
  change (class_defines "Adder" "__call__") with true. cbv beta iota.
  change (call_function "Adder" "__call__" [VRef l; vx])
    with (Adder.__call__ (VRef l) vx).
  unfold Adder.__call__, hbind, getattr, hlift.
  rewrite Hl. cbn [__dict__]. rewrite lookup_singleton_eq. reflexivity.
Qed.

(** C7: an [Adder] instance is callable.  For all values [n] and [x],
    [Adder(n)] builds an instance and applying it to [x] dispatches to
    [__call__] and gives [n + x] (Python's [+], without touching the
    heap); for integers that is the integer sum, and [Adder(3)(4)] is
    [7] as in the transcript. *)
Theorem Adder_instance_is_callable :
  (forall (h : gmap N object) (vn vx : value),
      exists (l : N) (h1 : gmap N object),
        call (VObj "Adder") [vn] h = (h1, inr (VRef l))
        /\ call (VRef l) [vx] h1 = (h1, py_add vn vx)
        /\ call (VRef l) [vx] h1 = Adder.__call__ (VRef l) vx h1)
  /\ (forall (h : gmap N object) (n x : Z),
        exists (l : N) (h1 : gmap N object),
          call (VObj "Adder") [VInt n] h = (h1, inr (VRef l))
          /\ call (VRef l) [VInt x] h1 = (h1, inr (VInt (n + x))))
  /\ (exists (plus_3 : value) (h1 : gmap N object),
        call (VObj "Adder") [VInt 3] ∅ = (h1, inr plus_3)
        /\ call plus_3 [VInt 4] h1 = (h1, inr (VInt 7))).
Proof.
  assert (G : forall (h : gmap N object) (vn vx : value),
      exists (l : N) (h1 : gmap N object),
        call (VObj "Adder") [vn] h = (h1, inr (VRef l))
        /\ call (VRef l) [vx] h1 = (h1, py_add vn vx)
        /\ call (VRef l) [vx] h1 = Adder.__call__ (VRef l) vx h1).
  { intros h vn vx. eexists _, _. split; [apply Adder_new|].
    split; [apply Adder_apply, lookup_insert_eq|].
    unfold call. rewrite lookup_insert_eq. reflexivity. }
  split; [exact G|]. split.
  - intros h n x. destruct (G h (VInt n) (VInt x)) as (l & h1 & H1 & H2 & _).
    exists l, h1. split; [exact H1 | exact H2].
  - destruct (G ∅ (VInt 3) (VInt 4)) as (l & h1 & H1 & H2 & _).
    exists (VRef l), h1. split; [exact H1 | exact H2].
Qed.

(** ** Elapsed time *)

Lemma epoch_time_run {S} g (lib : extcall -> S -> S * (exn + value)) (s : S)
    (a b : Q) :
  run g lib (epoch_time (VFloat a) (VFloat b)) s =
    ([], s,
     inr (VTuple
            [VInt (Z.quot (Qnum ((b - a) / inject_Z 60))
                          (Zpos (Qden ((b - a) / inject_Z 60))));
             VFloat ((b - a)
                     - inject_Z (Z.quot (Qnum ((b - a) / inject_Z 60))
                                        (Zpos (Qden ((b - a) / inject_Z 60))) * 60))])).
Proof. reflexivity. Qed.

(** ** Elapsed time in Python's arithmetic *)

Section Binary64Arithmetic.
Import Binary64.
Local Open Scope Z_scope.

Lemma digits2_pos_bounds (p : positive) :
  2 ^ (Zpos (digits2_pos p) - 1) <= Zpos p < 2 ^ Zpos (digits2_pos p).
Proof.
  induction p as [p IH|p IH|]; cbn [digits2_pos].
  - rewrite Pos2Z.inj_succ.
    replace (Z.succ (Zpos (digits2_pos p)) - 1) with (Z.succ (Zpos (digits2_pos p) - 1)) by lia.
    rewrite !Z.pow_succ_r by lia. lia.
  - rewrite Pos2Z.inj_succ.
    replace (Z.succ (Zpos (digits2_pos p)) - 1) with (Z.succ (Zpos (digits2_pos p) - 1)) by lia.
    rewrite !Z.pow_succ_r by lia. lia.
  - cbn. lia.
Qed.

Lemma Zdigits2_unique (z n : Z) :
  2 ^ (n - 1) <= z < 2 ^ n -> 1 <= n -> Zdigits2 z = n.
Proof.
  intros [Hlo Hhi] Hn.
  assert (0 < z) by (pose proof (Z.pow_pos_nonneg 2 (n - 1)); lia).
  destruct z as [|p|p]; try lia. cbn [Zdigits2].
  pose proof (digits2_pos_bounds p) as [Dlo Dhi].
  set (d := Zpos (digits2_pos p)) in *.
  assert (d - 1 < n).
  { apply (Z.pow_lt_mono_r_iff 2); lia. }
  assert (n - 1 < d).
  { apply (Z.pow_lt_mono_r_iff 2); lia. }
  lia.
Qed.

Lemma round_nearest_even_bounds (m : Z) (l : location) :
  m <= round_nearest_even m l <= m + 1.
Proof.
  destruct l as [|[| |]]; cbn [round_nearest_even]; try lia.
  destruct (Z.even m); lia.
Qed.

Lemma shr_1_m (m : Z) (r s : bool) :
  0 <= m -> shr_m (shr_1 {| shr_m := m; shr_r := r; shr_s := s |}) = m / 2.
Proof.
  intros Hm. destruct m as [|[p|p|]|p]; cbn [shr_1 shr_m];
    try reflexivity; try lia.
  - apply Z.div_unique with 1; lia.
  - apply Z.div_unique with 0; lia.
Qed.

Lemma shr_1_r (m : Z) (r s : bool) :
  0 <= m -> shr_r (shr_1 {| shr_m := m; shr_r := r; shr_s := s |}) = Z.odd m.
Proof.
  intros Hm. destruct m as [|[p|p|]|p]; cbn [shr_1 shr_r]; try lia; reflexivity.
Qed.

Lemma shr_record_of_loc_m m l : shr_m (shr_record_of_loc m l) = m.
Proof. destruct l as [|[| |]]; reflexivity. Qed.

Lemma loc_of_shr_record_of_loc m l :
  loc_of_shr_record (shr_record_of_loc m l) = l.
Proof. destruct l as [|[| |]]; reflexivity. Qed.

(** Rounding a mantissa of 53 or 54 bits. *)
Lemma binary_round_aux_53 (sx : bool) (q e : Z) (l : location) :
  2 ^ 52 <= q < 2 ^ 54 ->
  -1074 <= e <= 969 ->
  exists (m : positive) (e' : Z),
    binary_round_aux prec emax sx q e l = S754_finite sx m e'
    /\ e <= e' <= e + 2
    /\ q - q mod 2 <= Zpos m * 2 ^ (e' - e) <= q + 1.
Proof.
  intros Hq He.
  assert (Hd : Zdigits2 q = 53 \/ Zdigits2 q = 54).
  { destruct (Z_lt_ge_dec q (2 ^ 53)).
    - left. apply Zdigits2_unique; [change (53 - 1) with 52|]; lia.
    - right. apply Zdigits2_unique; [change (54 - 1) with 53|]; lia. }
  unfold binary_round_aux, shr_fexp.
  destruct Hd as [Hd|Hd]; rewrite Hd.
  - (* no shift *)
    assert (H53 : 2 ^ 52 <= q < 2 ^ 53).
    { split; [lia|]. destruct (Z_lt_ge_dec q (2 ^ 53)) as [|Hge]; [assumption|].
      assert (Zdigits2 q = 54) by (apply Zdigits2_unique; [change (54 - 1) with 53|]; lia).
      lia. }
    replace (fexp prec emax (53 + e) - e) with 0
      by (unfold fexp, emin, prec, emax; lia).
    cbn [shr]. rewrite shr_record_of_loc_m, loc_of_shr_record_of_loc.
    pose proof (round_nearest_even_bounds q l) as Hr.
    set (q1 := round_nearest_even q l) in *.
    destruct (Z_lt_ge_dec q1 (2 ^ 53)) as [Hlt|Hge].
    + assert (Hd1 : Zdigits2 q1 = 53)
        by (apply Zdigits2_unique; [change (53 - 1) with 52|]; lia).
      rewrite Hd1.
      replace (fexp prec emax (53 + e) - e) with 0
        by (unfold fexp, emin, prec, emax; lia).
      cbn [shr shr_record_of_loc shr_m].
      destruct q1 as [|m|m] eqn:Eq1; try lia.
      replace (e <=? emax - prec) with true
        by (symmetry; apply Z.leb_le; unfold emax, prec; lia).
      exists m, e. split; [reflexivity|]. split; [lia|].
      rewrite Z.sub_diag, Z.pow_0_r, Z.mul_1_r.
      pose proof (Z.mod_pos_bound q 2). lia.
    + assert (Hq1 : q1 = 2 ^ 53) by lia.
      rewrite Hq1.
      change (Zdigits2 (2 ^ 53)) with 54.
      replace (fexp prec emax (54 + e) - e) with 1
        by (unfold fexp, emin, prec, emax; lia).
      cbn [shr SpecFloat.iter_pos shr_record_of_loc].
      change (shr_m (shr_1 {| shr_m := 2 ^ 53; shr_r := false; shr_s := false |}))
        with (2 ^ 52).
      change (2 ^ 52) with (Zpos (2 ^ 52)%positive) at 1.
      cbv iota beta.
      replace (e + 1 <=? emax - prec) with true
        by (symmetry; apply Z.leb_le; unfold emax, prec; lia).
      exists (2 ^ 52)%positive, (e + 1). split; [reflexivity|]. split; [lia|].
      replace (e + 1 - e) with 1 by lia.
      change (Zpos (2 ^ 52)%positive * 2 ^ 1) with (2 ^ 53).
      pose proof (Z.mod_pos_bound q 2). lia.
  - (* one shift *)
    assert (H54 : 2 ^ 53 <= q < 2 ^ 54).
    { split; [|lia]. destruct (Z_lt_ge_dec q (2 ^ 53)) as [Hlt|]; [|lia].
      assert (Zdigits2 q = 53) by (apply Zdigits2_unique; [change (53 - 1) with 52|]; lia).
      lia. }
    replace (fexp prec emax (54 + e) - e) with 1
      by (unfold fexp, emin, prec, emax; lia).
    cbn [shr SpecFloat.iter_pos].
    set (mrs := shr_1 (shr_record_of_loc q l)).
    assert (Hm : shr_m mrs = q / 2).
    { unfold mrs. destruct l as [|[| |]]; cbn [shr_record_of_loc];
        apply shr_1_m; lia. }
    assert (Hrb : shr_r mrs = Z.odd q).
    { unfold mrs. destruct l as [|[| |]]; cbn [shr_record_of_loc];
        apply shr_1_r; lia. }
    rewrite Hm.
    pose proof (round_nearest_even_bounds (q / 2) (loc_of_shr_record mrs)) as Hr.
    assert (Heven : Z.odd q = false ->
                    round_nearest_even (q / 2) (loc_of_shr_record mrs) = q / 2).
    { intros Ho. rewrite Ho in Hrb.
      destruct mrs as [m0 r0 s0]. cbn [shr_r] in Hrb. subst r0.
      destruct s0; reflexivity. }
    set (q1 := round_nearest_even (q / 2) (loc_of_shr_record mrs)) in *.
    pose proof (Z.div_mod q 2 ltac:(lia)) as Hdm.
    pose proof (Z.mod_pos_bound q 2 ltac:(lia)) as Hmb.
    assert (Hmod : q mod 2 = if Z.odd q then 1 else 0).
    { rewrite Zmod_odd. reflexivity. }
    assert (Hh : 2 ^ 52 <= q / 2 < 2 ^ 53).
    { change (2 ^ 53) with (2 * 2 ^ 52) in H54.
      change (2 ^ 54) with (2 * 2 ^ 53) in H54. lia. }
    assert (HV : q - q mod 2 <= 2 * q1 <= q + 1).
    { destruct (Z.odd q) eqn:Ho.
      - lia.
      - rewrite (Heven eq_refl). lia. }
    destruct (Z_lt_ge_dec q1 (2 ^ 53)) as [Hlt|Hge].
    + assert (Hd1 : Zdigits2 q1 = 53)
        by (apply Zdigits2_unique; [change (53 - 1) with 52|]; lia).
      rewrite Hd1.
      replace (fexp prec emax (53 + (e + 1)) - (e + 1)) with 0
        by (unfold fexp, emin, prec, emax; lia).
      cbn [shr shr_record_of_loc shr_m].
      destruct q1 as [|m|m] eqn:Eq1; try lia.
      replace (e + 1 <=? emax - prec) with true
        by (symmetry; apply Z.leb_le; unfold emax, prec; lia).
      exists m, (e + 1). split; [reflexivity|]. split; [lia|].
      replace (e + 1 - e) with 1 by lia. rewrite Z.pow_1_r. lia.
    + assert (Hq1 : q1 = 2 ^ 53) by lia.
      rewrite Hq1 in *.
      change (Zdigits2 (2 ^ 53)) with 54.
      replace (fexp prec emax (54 + (e + 1)) - (e + 1)) with 1
        by (unfold fexp, emin, prec, emax; lia).
      cbn [shr SpecFloat.iter_pos shr_record_of_loc].
      change (shr_m (shr_1 {| shr_m := 2 ^ 53; shr_r := false; shr_s := false |}))
        with (2 ^ 52).
      change (2 ^ 52) with (Zpos (2 ^ 52)%positive) at 1.
      cbv iota beta.
      replace (e + 1 + 1 <=? emax - prec) with true
        by (symmetry; apply Z.leb_le; unfold emax, prec; lia).
      exists (2 ^ 52)%positive, (e + 1 + 1). split; [reflexivity|]. split; [lia|].
      replace (e + 1 + 1 - e) with 2 by lia.
      change (Zpos (2 ^ 52)%positive * 2 ^ 2) with (2 * 2 ^ 53). lia.
Qed.

Lemma Zdigits2_pos_bounds (p : positive) :
  1 <= Zdigits2 (Zpos p)
  /\ 2 ^ (Zdigits2 (Zpos p) - 1) <= Zpos p < 2 ^ Zdigits2 (Zpos p).
Proof.
  cbn [Zdigits2]. split; [lia | apply digits2_pos_bounds].
Qed.

(** The quotient of an integer below [2^53] by 60, rounded to a float and
    truncated, is the integer quotient. *)
Lemma div_60_truncated (sx : bool) (px : positive) :
  Zpos px < 2 ^ 53 ->
  exists (m : positive) (e : Z),
    SFdiv prec emax (S754_finite sx px 0) (S754_finite false 60 0)
    = S754_finite sx m e
    /\ e < 0
    /\ Zpos m / 2 ^ (- e) = Zpos px / 60.
Proof.
  intros Hx.
  pose proof (Zdigits2_pos_bounds px) as (Hd1 & Hlo & Hhi).
  set (x := Zpos px) in *. set (d := Zdigits2 x) in *.
  assert (Hd : d <= 53).
  { destruct (Z_le_gt_dec d 53) as [|Hgt]; [assumption|].
    assert (2 ^ 53 <= 2 ^ (d - 1)) by (apply Z.pow_le_mono_r; lia). lia. }
  cbn [SFdiv]. rewrite xorb_false_r.
  unfold SFdiv_core_binary. fold x. fold d.
  change (Zdigits2 (Zpos 60)) with 6.
  replace (Z.min (fexp prec emax (d + 0 - (6 + 0))) (0 - 0)) with (d - 59)
    by (unfold fexp, emin, prec, emax; lia).
  replace (0 - 0 - (d - 59)) with (59 - d) by lia.
  set (s := 59 - d).
  assert (Hs : 6 <= s <= 58) by (unfold s; lia).
  destruct s as [|ps|ps] eqn:Es; try lia. rewrite <- Es in *. clear Es ps.
  rewrite Z.shiftl_mul_pow2 by lia.
  pose proof (Z.div_eucl_eq (x * 2 ^ s) 60 ltac:(lia)) as Heq.
  pose proof (Z.mod_pos_bound (x * 2 ^ s) 60 ltac:(lia)) as Hr.
  unfold Z.modulo in Hr.
  destruct (Z.div_eucl (x * 2 ^ s) 60) as [q r]. cbn [fst snd] in *.
  (* the size of the quotient *)
  assert (Hpow : 2 ^ (d - 1) * 2 ^ s = 2 ^ 58 /\ 2 ^ d * 2 ^ s = 2 ^ 59).
  { rewrite <- !Z.pow_add_r by lia. unfold s.
    split; f_equal; lia. }
  destruct Hpow as [Hp58 Hp59].
  assert (Hps : 0 < 2 ^ s) by (apply Z.pow_pos_nonneg; lia).
  assert (Hm' : 2 ^ 58 <= x * 2 ^ s < 2 ^ 59) by nia.
  assert (Hq : 2 ^ 52 <= q < 2 ^ 54).
  { change (2 ^ 58) with (64 * 2 ^ 52) in Hm'.
    change (2 ^ 59) with (32 * 2 ^ 54) in Hm'. lia. }
  destruct (binary_round_aux_53 sx q (d - 59) (new_location 60 r) Hq ltac:(lia))
    as (m & e' & Hres & He' & HV).
  exists m, e'. split; [exact Hres|]. split; [lia|].
  (* the truncation *)
  set (k := x / 60).
  pose proof (Z.div_mod x 60 ltac:(lia)) as Hx60.
  pose proof (Z.mod_pos_bound x 60 ltac:(lia)) as Hr60.
  fold k in Hx60.
  set (K := 2 ^ (- e')). set (T := 2 ^ (e' - (d - 59))) in *.
  assert (HK : 0 < K) by (apply Z.pow_pos_nonneg; lia).
  assert (HT : 0 < T) by (apply Z.pow_pos_nonneg; lia).
  assert (HKT : 2 ^ s = K * T).
  { unfold K, T. rewrite <- Z.pow_add_r by lia. f_equal. unfold s. lia. }
  assert (H64 : 64 <= 2 ^ s).
  { change 64 with (2 ^ 6). apply Z.pow_le_mono_r; lia. }
  assert (Heven : (k * 2 ^ s) mod 2 = 0).
  { replace s with (1 + (s - 1)) by lia.
    rewrite Z.pow_add_r, Z.pow_1_r by lia.
    replace (k * (2 * 2 ^ (s - 1))) with (k * 2 ^ (s - 1) * 2) by ring.
    apply Z.mod_mul. lia. }
  pose proof (Z.mod_pos_bound q 2 ltac:(lia)) as Hq2.
  assert (Hlow : k * 2 ^ s <= q - q mod 2).
  { assert (k * 2 ^ s <= q) by nia.
    destruct (Z.eq_dec (k * 2 ^ s) q) as [<-|Hne]; [rewrite Heven; lia | lia]. }
  assert (Hup : q + 1 < (k + 1) * 2 ^ s) by nia.
  symmetry. apply Z.div_unique with (Zpos m - k * K); [left|ring].
  split; [|]; nia.
Qed.

Lemma int_div_60 (x : Z) :
  Z.abs x < 2 ^ 53 ->
  (minutes <- truediv (Int x) (Int 60) ;; int_ minutes)%num
  = inr (Int (Z.quot x 60)).
Proof.
  intros Hx. unfold truediv. change (Z.eqb 60 0) with false. cbv iota.
  change (of_Z 60) with (S754_finite false 60 0).
  destruct x as [|p|p]; cbn [of_Z].
  - reflexivity.
  - destruct (div_60_truncated false p ltac:(lia)) as (m & e & -> & He & Hq).
    cbn [bind int_ cond_Zopp].
    replace (0 <=? e) with false by (symmetry; apply Z.leb_gt; lia).
    rewrite Hq, Z.quot_div_nonneg by lia. reflexivity.
  - destruct (div_60_truncated true p ltac:(lia)) as (m & e & -> & He & Hq).
    cbn [bind int_ cond_Zopp].
    replace (0 <=? e) with false by (symmetry; apply Z.leb_gt; lia).
    rewrite Hq. change (Zneg p) with (- Zpos p).
    rewrite Z.quot_opp_l, Z.quot_div_nonneg by lia. reflexivity.
Qed.

(** On integer times less than [2^53] apart: the quotient and the
    remainder of the elapsed seconds by 60, truncated toward zero. *)
Lemma epoch_time_int_exact (a b : Z) :
  Z.abs (b - a) < 2 ^ 53 ->
  epoch_time (Int a) (Int b)
  = inr (Int (Z.quot (b - a) 60), Int (Z.rem (b - a) 60)).
Proof.
  intros Hx. unfold epoch_time. cbn [sub bind].
  pose proof (int_div_60 (b - a) Hx) as H.
  destruct (truediv (Int (b - a)) (Int 60)) as [e|minutes]; [discriminate H|].
  cbn [bind] in *. rewrite H. cbn [bind mul sub].
  rewrite (Z.rem_eq (b - a) 60) by lia.
  do 3 f_equal. ring.
Qed.

(** Some runs. *)
Lemma epoch_time_examples :
  epoch_time (Float (literal 1 10)) (Float (literal 100 1))
  = inr (Int 1, Float (literal 39900000000000006 1000000000000000))
  /\ epoch_time (Float (S754_zero false)) (Float (literal (60 * 2 ^ 52 + 32) 1))
     = inr (Int (2 ^ 52 + 1), Float (literal (-32) 1))
  /\ epoch_time (Int 0) (Int (60 * 2 ^ 49 - 1)) = inr (Int (2 ^ 49), Int (-1))
  /\ epoch_time (Int 0) (Int (10 ^ 400)) = inl OverflowError.
Proof. repeat split; vm_compute; reflexivity. Qed.

Lemma Qfloor_sixtieth (a b : Z) :
  Qfloor ((inject_Z b - inject_Z a) / 60) = (b - a) / 60.
Proof.
  rewrite (Qfloor_comp _ ((b - a) # 60)).
  - reflexivity.
  - unfold Qeq, Qdiv, Qminus, Qplus, Qmult, Qopp, Qinv, inject_Z. cbn. lia.
Qed.

(** [float(60)]. *)
Lemma float_60 : float_of_int 60 = inr (S754_finite false 8444249301319680 (-47)).
Proof. vm_compute. reflexivity. Qed.

(** A canonical mantissa: 53 bits, or fewer at the least exponent. *)
Lemma bounded_canonical (m : positive) (e : Z) :
  bounded prec emax m e = true ->
  (Zdigits2 (Zpos m) = 53 /\ -1074 <= e <= 971)
  \/ (Zdigits2 (Zpos m) < 53 /\ e = -1074).
Proof.
  unfold bounded, canonical_mantissa, fexp, emin, prec, emax.
  intros H. apply andb_prop in H as [H1 H2].
  apply Z.eqb_eq in H1. apply Z.leb_le in H2. cbn [Zdigits2]. lia.
Qed.

(** A number below [2^n] has at most [n] bits. *)
Lemma Zdigits2_le (z n : Z) : 0 <= z < 2 ^ n -> 0 <= n -> Zdigits2 z <= n.
Proof.
  intros [Hz Hlt] Hn. destruct z as [|p|p]; cbn [Zdigits2]; try lia.
  pose proof (digits2_pos_bounds p) as [Hlo _].
  destruct (Z_le_gt_dec (Zpos (digits2_pos p)) n) as [|Hgt]; [assumption|].
  assert (2 ^ n <= 2 ^ (Zpos (digits2_pos p) - 1)) by (apply Z.pow_le_mono_r; lia).
  lia.
Qed.

(** Rounding a small mantissa at the least exponent. *)
Lemma binary_round_aux_least (sx : bool) (q : Z) (l : location) :
  0 <= q < 2 ^ 53 ->
  binary_round_aux prec emax sx q (-1074) l = S754_zero sx
  \/ exists (m : positive) (e : Z),
       binary_round_aux prec emax sx q (-1074) l = S754_finite sx m e
       /\ -1074 <= e <= -1073 /\ Zpos m <= 2 ^ 53.
Proof.
  intros Hq.
  pose proof (Zdigits2_le q 53 Hq ltac:(lia)) as Hd.
  assert (Hd0 : 0 <= Zdigits2 q) by (destruct q; cbn; lia).
  unfold binary_round_aux, shr_fexp.
  replace (fexp prec emax (Zdigits2 q + -1074) - -1074) with 0
    by (unfold fexp, emin, prec, emax; lia).
  cbn [shr]. rewrite shr_record_of_loc_m, loc_of_shr_record_of_loc.
  pose proof (round_nearest_even_bounds q l) as Hr.
  set (q1 := round_nearest_even q l) in *.
  destruct (Z_lt_ge_dec q1 (2 ^ 53)) as [Hlt|Hge].
  - pose proof (Zdigits2_le q1 53 ltac:(lia) ltac:(lia)) as Hd1.
    assert (Hd10 : 0 <= Zdigits2 q1) by (destruct q1; cbn; lia).
    replace (fexp prec emax (Zdigits2 q1 + -1074) - -1074) with 0
      by (unfold fexp, emin, prec, emax; lia).
    cbn [shr shr_record_of_loc shr_m].
    destruct q1 as [|m|m] eqn:Eq1; try lia.
    + left. reflexivity.
    + right. exists m, (-1074). split; [reflexivity|]. lia.
  - assert (Hq1 : q1 = 2 ^ 53) by lia.
    rewrite Hq1. right.
    exists (2 ^ 52)%positive, (-1073). split; [reflexivity|].
    split; [lia|]. change (Zpos (2 ^ 52)%positive) with (2 ^ 52). lia.
Qed.

(** The quotient of a float below [2^53] by 60, truncated, is the
    integer part of the exact quotient. *)
Lemma div_float_60 (sx : bool) (m : positive) (e : Z) :
  bounded prec emax m e = true ->
  Zdigits2 (Zpos m) + e <= 53 ->
  (SFdiv prec emax (S754_finite sx m e) (S754_finite false 8444249301319680 (-47))
   = S754_zero sx
   /\ Zpos m / (60 * 2 ^ (- e)) = 0)
  \/ exists (m' : positive) (e' : Z),
       SFdiv prec emax (S754_finite sx m e)
         (S754_finite false 8444249301319680 (-47))
       = S754_finite sx m' e'
       /\ e' < 0
       /\ Zpos m' / 2 ^ (- e') = Zpos m / (60 * 2 ^ (- e)).
Proof.
  intros Hb Hlt.
  pose proof (Zdigits2_pos_bounds m) as (Hd1 & Hlo & Hhi).
  pose proof (bounded_canonical m e Hb) as Hc.
  set (x := Zpos m) in *. set (d := Zdigits2 x) in *.
  assert (He0 : e <= 0) by lia.
  assert (HW : 0 < 2 ^ (- e)) by (apply Z.pow_pos_nonneg; lia).
  cbn [SFdiv]. rewrite xorb_false_r.
  unfold SFdiv_core_binary. fold x. fold d.
  change (Zdigits2 (Zpos 8444249301319680)) with 53.
  destruct (Z_le_gt_dec (-1068) e) as [Hbig|Hsmall].
  - (* the quotient is a normal float *)
    assert (Hd : d = 53) by lia.
    right.
    replace (Z.min (fexp prec emax (d + e - (53 + -47))) (e - -47)) with (e - 6)
      by (unfold fexp, emin, prec, emax; lia).
    replace (e - -47 - (e - 6)) with 53 by lia.
    cbv iota. rewrite Z.shiftl_mul_pow2 by lia.
    pose proof (Z.div_eucl_eq (x * 2 ^ 53) (Zpos 8444249301319680) ltac:(lia)) as Heq.
    pose proof (Z.mod_pos_bound (x * 2 ^ 53) (Zpos 8444249301319680) ltac:(lia)) as Hr.
    unfold Z.modulo in Hr.
    destruct (Z.div_eucl (x * 2 ^ 53) (Zpos 8444249301319680)) as [q r].
    cbn [fst snd] in *.
    rewrite Hd in Hlo, Hhi. change (53 - 1) with 52 in Hlo.
    assert (H60 : 60 * q <= 64 * x < 60 * (q + 1)) by lia.
    assert (Hq : 2 ^ 52 <= q < 2 ^ 54) by lia.
    destruct (binary_round_aux_53 sx q (e - 6) (new_location (Zpos 8444249301319680) r)
                Hq ltac:(lia))
      as (m' & e' & Hres & He' & HV).
    exists m', e'. split; [exact Hres|]. split; [lia|].
    set (W := 2 ^ (- e)) in *.
    set (k := x / (60 * W)).
    pose proof (Z.div_mod x (60 * W) ltac:(lia)) as Hxk.
    pose proof (Z.mod_pos_bound x (60 * W) ltac:(lia)) as Hrk.
    fold k in Hxk.
    set (K := 2 ^ (- e')). set (T := 2 ^ (e' - (e - 6))) in *.
    assert (HK : 0 < K) by (apply Z.pow_pos_nonneg; lia).
    assert (HT : 0 < T) by (apply Z.pow_pos_nonneg; lia).
    assert (HKT : 64 * W = K * T).
    { unfold K, T, W. change 64 with (2 ^ 6).
      rewrite <- !Z.pow_add_r by lia. f_equal. lia. }
    assert (Heven : (64 * W * k) mod 2 = 0).
    { replace (64 * W * k) with (32 * W * k * 2) by ring. apply Z.mod_mul. lia. }
    pose proof (Z.mod_pos_bound q 2 ltac:(lia)) as Hq2.
    assert (Hlow : 64 * W * k <= q - q mod 2).
    { assert (64 * W * k <= q) by nia.
      destruct (Z.eq_dec (64 * W * k) q) as [<-|Hne]; [rewrite Heven; lia | lia]. }
    assert (Hup : q + 1 < 64 * W * (k + 1)) by nia.
    symmetry. apply Z.div_unique with (Zpos m' - k * K); [left|ring].
    split; nia.
  - (* the quotient is below the normal range *)
    assert (Hk : x / (60 * 2 ^ (- e)) = 0).
    { apply Z.div_small. split; [lia|].
      assert (x < 2 ^ 53).
      { destruct Hc as [[-> _]|[Hd _]]; [lia|].
        assert (2 ^ d <= 2 ^ 53) by (apply Z.pow_le_mono_r; lia). lia. }
      assert (2 ^ 1069 <= 2 ^ (- e)) by (apply Z.pow_le_mono_r; lia).
      assert (2 ^ 53 <= 2 ^ 1069) by (apply Z.pow_le_mono_r; lia).
      lia. }
    replace (Z.min (fexp prec emax (d + e - (53 + -47))) (e - -47)) with (-1074)
      by (unfold fexp, emin, prec, emax; lia).
    set (s := e - -47 - -1074).
    assert (Hs : 47 <= s <= 52) by (unfold s; lia).
    destruct s as [|ps|ps] eqn:Es; try lia. rewrite <- Es in *. clear Es ps.
    rewrite Z.shiftl_mul_pow2 by lia.
    pose proof (Z.div_eucl_eq (x * 2 ^ s) (Zpos 8444249301319680) ltac:(lia)) as Heq.
    pose proof (Z.mod_pos_bound (x * 2 ^ s) (Zpos 8444249301319680) ltac:(lia)) as Hr.
    unfold Z.modulo in Hr.
    destruct (Z.div_eucl (x * 2 ^ s) (Zpos 8444249301319680)) as [q r].
    cbn [fst snd] in *.
    assert (Hq : 0 <= q < 2 ^ 53).
    { assert (Hxs : x * 2 ^ s < 2 ^ 105).
      { destruct Hc as [[Hd _]|[Hd He]].
        - rewrite Hd in Hhi.
          assert (2 ^ s <= 2 ^ 52) by (apply Z.pow_le_mono_r; lia).
          change (2 ^ 105) with (2 ^ 53 * 2 ^ 52). nia.
        - assert (2 ^ d <= 2 ^ 52) by (apply Z.pow_le_mono_r; lia).
          assert (2 ^ s <= 2 ^ 52) by (apply Z.pow_le_mono_r; lia).
          change (2 ^ 105) with (2 ^ 53 * 2 ^ 52). nia. }
      assert (0 <= x * 2 ^ s) by (apply Z.mul_nonneg_nonneg; [lia|apply Z.pow_nonneg; lia]).
      change (2 ^ 105) with (2 ^ 53 * 4503599627370496) in Hxs.
      split; nia. }
    destruct (binary_round_aux_least sx q (new_location (Zpos 8444249301319680) r) Hq)
      as [Hz|(m' & e' & Hres & He' & Hm')].
    + left. split; [exact Hz | exact Hk].
    + right. exists m', e'. split; [exact Hres|]. split; [lia|].
      rewrite Hk. apply Z.div_small. split; [lia|].
      assert (2 ^ 1073 <= 2 ^ (- e')) by (apply Z.pow_le_mono_r; lia).
      assert (2 ^ 53 < 2 ^ 1073) by (apply Z.pow_lt_mono_r; lia).
      lia.
Qed.

(** Shifting a mantissa left. *)
Lemma iter_xO_value (p d : positive) :
  Zpos (Pos.iter xO p d) = Zpos p * 2 ^ Zpos d.
Proof.
  change (Pos.iter xO p d) with (shift_pos d p).
  rewrite shift_pos_correct, Zpower_pos_nat, Zpower_nat_Z, positive_nat_Z. ring.
Qed.

Lemma shl_align_value (mx : positive) (ex ez : Z) :
  ez <= ex ->
  Zpos (fst (shl_align mx ex ez)) = Zpos mx * 2 ^ (ex - ez)
  /\ snd (shl_align mx ex ez) = ez.
Proof.
  intros Hle. unfold shl_align.
  destruct (ez - ex) as [|d|d] eqn:Hd; try lia.
  - assert (ex = ez) by lia. subst ex. cbn [fst snd].
    rewrite Z.sub_diag, Z.pow_0_r. lia.
  - cbn [fst snd]. rewrite iter_xO_value.
    replace (ex - ez) with (Zpos d) by lia. lia.
Qed.

(** Rounding a number that fits in 53 bits changes nothing. *)
Lemma binary_round_exact (sx : bool) (p : positive) (e : Z) :
  Zpos p < 2 ^ 53 ->
  -1074 <= e + Zdigits2 (Zpos p) - 53 ->
  e <= 971 ->
  exists (mz : positive),
    binary_round prec emax sx p e
    = S754_finite sx mz (e + Zdigits2 (Zpos p) - 53)
    /\ Zdigits2 (Zpos p) <= 53
    /\ Zpos mz = Zpos p * 2 ^ (53 - Zdigits2 (Zpos p)).
Proof.
  intros Hp Hlo Hhi.
  pose proof (Zdigits2_pos_bounds p) as (Hd1 & Hdlo & Hdhi).
  set (d := Zdigits2 (Zpos p)) in *.
  assert (Hd : d <= 53).
  { destruct (Z_le_gt_dec d 53) as [|Hgt]; [assumption|].
    assert (2 ^ 53 <= 2 ^ (d - 1)) by (apply Z.pow_le_mono_r; lia). lia. }
  unfold binary_round.
  change (Zpos (digits2_pos p)) with d.
  replace (fexp prec emax (d + e)) with (e + d - 53)
    by (unfold fexp, emin, prec, emax; lia).
  pose proof (shl_align_value p e (e + d - 53) ltac:(lia)) as [Hv He].
  destruct (shl_align p e (e + d - 53)) as [mz ez]. cbn [fst snd] in *. subst ez.
  replace (e - (e + d - 53)) with (53 - d) in Hv by lia.
  assert (Hmz : 2 ^ 52 <= Zpos mz < 2 ^ 53).
  { rewrite Hv.
    assert (H1 : 2 ^ (d - 1) * 2 ^ (53 - d) = 2 ^ 52)
      by (rewrite <- Z.pow_add_r by lia; f_equal; lia).
    assert (H2 : 2 ^ d * 2 ^ (53 - d) = 2 ^ 53)
      by (rewrite <- Z.pow_add_r by lia; f_equal; lia).
    assert (0 < 2 ^ (53 - d)) by (apply Z.pow_pos_nonneg; lia).
    nia. }
  assert (Hdz : Zdigits2 (Zpos mz) = 53)
    by (apply Zdigits2_unique; [change (53 - 1) with 52|]; lia).
  unfold binary_round_aux, shr_fexp. rewrite Hdz.
  replace (fexp prec emax (53 + (e + d - 53)) - (e + d - 53)) with 0
    by (unfold fexp, emin, prec, emax; lia).
  cbn [shr shr_record_of_loc shr_m loc_of_shr_record round_nearest_even].
  rewrite Hdz.
  replace (fexp prec emax (53 + (e + d - 53)) - (e + d - 53)) with 0
    by (unfold fexp, emin, prec, emax; lia).
  cbn [shr shr_record_of_loc shr_m].
  replace (e + d - 53 <=? emax - prec) with true
    by (symmetry; apply Z.leb_le; unfold emax, prec; lia).
  exists mz. split; [reflexivity|]. split; [lia|]. exact Hv.
Qed.

(** [float] of an integer below [2^53] is that integer. *)
Lemma float_of_int_exact (z : Z) :
  0 < z < 2 ^ 53 ->
  exists (mz : positive) (ez : Z),
    float_of_int z = inr (S754_finite false mz ez)
    /\ -52 <= ez <= 0
    /\ (32 <= z -> -47 <= ez)
    /\ Zpos mz = z * 2 ^ (- ez).
Proof.
  intros Hz. destruct z as [|p|p]; try lia.
  pose proof (Zdigits2_pos_bounds p) as (Hd1 & Hdlo & Hdhi).
  destruct (binary_round_exact false p 0) as (mz & Hr & Hd & Hv); try lia.
  exists mz, (0 + Zdigits2 (Zpos p) - 53).
  unfold float_of_int. cbn [binary_normalize]. rewrite Hr.
  split; [reflexivity|]. split; [lia|]. split.
  - intros H32.
    destruct (Z_le_gt_dec 6 (Zdigits2 (Zpos p))) as [|Hlt]; [lia|].
    assert (2 ^ Zdigits2 (Zpos p) <= 2 ^ 5) by (apply Z.pow_le_mono_r; lia).
    change (2 ^ 5) with 32 in *. lia.
  - rewrite Hv. f_equal. f_equal. lia.
Qed.

(** The function after its first subtraction, on an elapsed time that is
    a float of the format, not negative and below [2^53]. *)
Lemma epoch_time_float_rest (m : positive) (e : Z) :
  bounded prec emax m e = true ->
  Zdigits2 (Zpos m) + e <= 53 ->
  exists secs : spec_float,
    (minutes <- truediv (Float (S754_finite false m e)) (Int 60) ;;
     elapsed_mins <- int_ minutes ;;
     whole <- mul elapsed_mins (Int 60) ;;
     elapsed_secs <- sub (Float (S754_finite false m e)) whole ;;
     inr (elapsed_mins, elapsed_secs))%num
    = inr (Int (Zpos m / (60 * 2 ^ (- e))), Float secs)
    /\ ((secs = S754_zero false
         /\ Zpos m = 60 * (Zpos m / (60 * 2 ^ (- e))) * 2 ^ (- e))
        \/ exists (mr : positive) (er : Z),
             secs = S754_finite false mr er
             /\ er <= e
             /\ Zpos mr = Zpos m * 2 ^ (e - er)
                          - 60 * (Zpos m / (60 * 2 ^ (- e))) * 2 ^ (- er)).
Proof.
  intros Hb Hd.
  assert (He : e <= 0).
  { destruct (bounded_canonical m e Hb) as [[H53 _]|[_ He]]; lia. }
  set (k := Zpos m / (60 * 2 ^ (- e))).
  assert (HA : 0 < 2 ^ (- e)) by (apply Z.pow_pos_nonneg; lia).
  assert (Hk : 60 * 2 ^ (- e) * k <= Zpos m < 60 * 2 ^ (- e) * (k + 1)).
  { pose proof (Z.div_mod (Zpos m) (60 * 2 ^ (- e)) ltac:(lia)) as Hdm.
    pose proof (Z.mod_pos_bound (Zpos m) (60 * 2 ^ (- e)) ltac:(lia)) as Hmb.
    fold k in Hdm. lia. }
  assert (Hk0 : 0 <= k) by (apply Z.div_pos; lia).
  assert (Hm53 : Zpos m < 2 ^ 53).
  { pose proof (Zdigits2_pos_bounds m) as (_ & _ & Hhi).
    assert (2 ^ Zdigits2 (Zpos m) <= 2 ^ 53)
      by (apply Z.pow_le_mono_r;
          destruct (bounded_canonical m e Hb) as [[H53 _]|[H53 _]]; lia).
    lia. }
  assert (Hmins :
    (minutes <- truediv (Float (S754_finite false m e)) (Int 60) ;;
     int_ minutes)%num = inr (Int k)).
  { unfold truediv. cbn [to_float bind]. rewrite float_60. cbn [bind is_zero].
    destruct (div_float_60 false m e Hb Hd) as [[Hz Hq]|(m' & e' & Hf & He' & Hq)].
    - rewrite Hz. cbn [int_]. unfold k. rewrite Hq. reflexivity.
    - rewrite Hf. cbn [int_ cond_Zopp].
      replace (0 <=? e') with false by (symmetry; apply Z.leb_gt; lia).
      unfold k. rewrite Hq. reflexivity. }
  destruct (truediv (Float (S754_finite false m e)) (Int 60)) as [err|minutes];
    [discriminate Hmins|].
  cbn [bind] in *. rewrite Hmins. cbn [bind mul].
  unfold sub. cbn [to_float bind].
  destruct (Z.eq_dec k 0) as [Hk0'|Hkpos].
  - (* less than a minute: nothing is subtracted *)
    rewrite Hk0'. cbn [Z.mul]. unfold float_of_int. cbn [binary_normalize bind SFsub].
    exists (S754_finite false m e). split; [reflexivity|]. right.
    exists m, e. split; [reflexivity|]. split; [lia|].
    rewrite Z.sub_diag, Z.pow_0_r. lia.
  - assert (H60 : 60 * 2 ^ (- e) <= Zpos m) by nia.
    assert (He47 : -47 <= e).
    { destruct (Z_le_gt_dec (-47) e) as [|Hlt]; [assumption|].
      assert (2 ^ 48 <= 2 ^ (- e)) by (apply Z.pow_le_mono_r; lia).
      change (2 ^ 48) with 281474976710656 in *.
      change (2 ^ 53) with 9007199254740992 in *. lia. }
    assert (Hz : 0 < k * 60 < 2 ^ 53) by nia.
    destruct (float_of_int_exact (k * 60) Hz) as (mz & ez & Hf & Hez & Hez47 & Hmz).
    rewrite Hf. cbn [bind]. unfold SFsub. cbn [cond_Zopp].
    set (c := Z.min e ez).
    assert (Hc : -47 <= c <= 0) by (unfold c; lia).
    pose proof (shl_align_value m e c ltac:(unfold c; lia)) as [Hv1 _].
    pose proof (shl_align_value mz ez c ltac:(unfold c; lia)) as [Hv2 _].
    set (D := Zpos (fst (shl_align m e c)) - Zpos (fst (shl_align mz ez c))).
    assert (HP : 2 ^ (- c) = 2 ^ (- e) * 2 ^ (e - c))
      by (rewrite <- Z.pow_add_r by lia; f_equal; lia).
    assert (HP' : 2 ^ (- c) = 2 ^ (- ez) * 2 ^ (ez - c))
      by (rewrite <- Z.pow_add_r by lia; f_equal; lia).
    assert (HPp : 0 < 2 ^ (e - c)) by (apply Z.pow_pos_nonneg; lia).
    assert (HC : 2 ^ (- c) <= 2 ^ 47) by (apply Z.pow_le_mono_r; lia).
    assert (HD : D = Zpos m * 2 ^ (e - c) - 60 * k * 2 ^ (- c)).
    { unfold D. rewrite Hv1, Hv2, Hmz, HP'. ring. }
    assert (HDlo : 0 <= D) by (rewrite HD, HP; nia).
    assert (HDhi : D < 2 ^ 53).
    { assert (D < 60 * 2 ^ (- c)) by (rewrite HD, HP; nia).
      change (2 ^ 47) with 140737488355328 in *.
      change (2 ^ 53) with 9007199254740992 in *. lia. }
    clearbody D.
    destruct D as [|pD|pD]; [| |lia].
    + (* a whole number of minutes *)
      cbn [binary_normalize]. exists (S754_zero false).
      split; [reflexivity|]. left. split; [reflexivity|].
      rewrite HP in HD. nia.
    + cbn [binary_normalize].
      pose proof (Zdigits2_pos_bounds pD) as (Hd1 & _ & _).
      destruct (binary_round_exact false pD c) as (mr & Hr & Hdd & Hv); try lia.
      rewrite Hr. eexists. split; [reflexivity|]. right.
      exists mr, (c + Zdigits2 (Zpos pD) - 53).
      split; [reflexivity|]. split; [unfold c; lia|].
      set (dg := Zdigits2 (Zpos pD)) in *. clearbody dg.
      rewrite Hv, HD.
      replace (e - (c + dg - 53)) with ((e - c) + (53 - dg)) by lia.
      replace (- (c + dg - 53)) with (- c + (53 - dg)) by lia.
      rewrite !Z.pow_add_r by lia. ring.
Qed.

(** The rational of a float with no positive exponent. *)
Lemma real_finite (M : positive) (e : Z) :
  e <= 0 ->
  exists q : Q,
    real (Float (S754_finite false M e)) = Some q
    /\ (q == Zpos M # Z.to_pos (2 ^ (- e)))%Q.
Proof.
  intros He. unfold real. cbn [cond_Zopp].
  destruct (Z.eq_dec e 0) as [->|Hne].
  - eexists. split; [reflexivity|].
    unfold Qeq, inject_Z. cbn. lia.
  - replace (0 <=? e) with false by (symmetry; apply Z.leb_gt; lia).
    eexists. split; [reflexivity|]. reflexivity.
Qed.

(** On a computed elapsed time that is a float of the format, not
    negative and below [2^53], no later step rounds. *)
Lemma epoch_time_float_exact (start_time end_time : number) (d : spec_float) (x : Q) :
  sub end_time start_time = inr (Float d) ->
  valid_binary prec emax d = true ->
  real (Float d) = Some x ->
  (0 <= x)%Q ->
  (x < inject_Z (2 ^ 53))%Q ->
  exists (mins : Z) (secs : number) (r : Q),
    epoch_time start_time end_time = inr (Int mins, secs)
    /\ real secs = Some r
    /\ mins = Qfloor (x / 60)
    /\ (inject_Z mins * 60 + r == x)%Q
    /\ (0 <= r)%Q /\ (r < 60)%Q.
Proof.
  intros Hsub Hv Hx H0 H53.
  unfold epoch_time. rewrite Hsub. cbn [bind].
  destruct d as [s|s| |s m e]; try discriminate Hx.
  - (* no time elapsed *)
    injection Hx as <-.
    exists 0, (Float (S754_zero s)), 0%Q.
    split; [destruct s; vm_compute; reflexivity|].
    repeat split; try reflexivity; vm_compute; congruence.
  - cbn [valid_binary] in Hv.
    assert (Hs : s = false).
    { destruct s; [exfalso|reflexivity].
      unfold real in Hx. cbn [cond_Zopp] in Hx.
      destruct (Z_le_gt_dec 0 e) as [Hge|Hlt].
      - replace (0 <=? e) with true in Hx by (symmetry; apply Z.leb_le; lia).
        injection Hx as <-.
        pose proof (Z.pow_pos_nonneg 2 e ltac:(lia) Hge).
        unfold Qle, inject_Z in H0. cbn [Qnum Qden] in H0. nia.
      - replace (0 <=? e) with false in Hx by (symmetry; apply Z.leb_gt; lia).
        injection Hx as <-.
        unfold Qle in H0. cbn [Qnum Qden] in H0. lia. }
    subst s.
    assert (He : e <= 0).
    { destruct (bounded_canonical m e Hv) as [[Hd _]|[_ He]]; [|lia].
      destruct (Z_le_gt_dec e 0) as [|Hgt]; [assumption|exfalso].
      unfold real in Hx. cbn [cond_Zopp] in Hx.
      replace (0 <=? e) with true in Hx by (symmetry; apply Z.leb_le; lia).
      injection Hx as <-.
      unfold Qlt, inject_Z in H53. cbn [Qnum Qden] in H53.
      pose proof (Zdigits2_pos_bounds m) as (_ & Hlo & _).
      rewrite Hd in Hlo. change (2 ^ (53 - 1)) with (2 ^ 52) in Hlo.
      assert (2 ^ 1 <= 2 ^ e) by (apply Z.pow_le_mono_r; lia).
      change (2 ^ 1) with 2 in *.
      change (2 ^ 52) with 4503599627370496 in *.
      change (2 ^ 53) with 9007199254740992 in *. nia. }
    assert (Hd : Zdigits2 (Zpos m) + e <= 53)
      by (destruct (bounded_canonical m e Hv) as [[Hd _]|[Hd _]]; lia).
    destruct (epoch_time_float_rest m e Hv Hd) as (secs & Hrun & Hsecs).
    destruct (real_finite m e He) as (x' & Hx' & Hxq).
    rewrite Hx in Hx'. injection Hx' as <-.
    set (k := Zpos m / (60 * 2 ^ (- e))) in *.
    assert (HA : 0 < 2 ^ (- e)) by (apply Z.pow_pos_nonneg; lia).
    assert (Hk : 60 * 2 ^ (- e) * k <= Zpos m < 60 * 2 ^ (- e) * (k + 1)).
    { pose proof (Z.div_mod (Zpos m) (60 * 2 ^ (- e)) ltac:(lia)) as Hdm.
      pose proof (Z.mod_pos_bound (Zpos m) (60 * 2 ^ (- e)) ltac:(lia)) as Hmb.
      fold k in Hdm. lia. }
    assert (Hfloor : k = Qfloor (x / 60)).
    { rewrite (Qfloor_comp _ (Zpos m # Z.to_pos (60 * 2 ^ (- e)))).
      - cbn [Qfloor]. rewrite Z2Pos.id by lia. reflexivity.
      - rewrite Hxq. unfold Qeq, Qdiv, Qmult, Qinv. cbn [Qnum Qden].
        rewrite Pos2Z.inj_mul, !Z2Pos.id by lia. ring. }
    destruct Hsecs as [[-> Hm]|(mr & er & -> & Her & Hmr)].
    + exists k, (Float (S754_zero false)), 0%Q.
      split; [exact Hrun|]. split; [reflexivity|]. split; [exact Hfloor|].
      split; [|split; [apply Qle_refl | reflexivity]].
      rewrite Hxq. unfold Qeq, Qplus, Qmult, inject_Z. cbn [Qnum Qden].
      rewrite Z2Pos.id by lia. cbn [Pos.mul]. lia.
    + destruct (real_finite mr er ltac:(lia)) as (r & Hr & Hrq).
      exists k, (Float (S754_finite false mr er)), r.
      split; [exact Hrun|]. split; [exact Hr|]. split; [exact Hfloor|].
      assert (HB : 0 < 2 ^ (e - er)) by (apply Z.pow_pos_nonneg; lia).
      assert (HAB : 2 ^ (- er) = 2 ^ (- e) * 2 ^ (e - er))
        by (rewrite <- Z.pow_add_r by lia; f_equal; lia).
      assert (HR : 0 < 2 ^ (- er)) by (apply Z.pow_pos_nonneg; lia).
      rewrite Hrq, Hxq. repeat split.
      * unfold Qeq, Qplus, Qmult, inject_Z. cbn [Qnum Qden].
        rewrite !Pos2Z.inj_mul, !Z2Pos.id by lia.
        rewrite Hmr, HAB. ring.
      * unfold Qle. cbn [Qnum Qden]. lia.
      * unfold Qlt. cbn [Qnum Qden]. rewrite Z2Pos.id by lia.
        rewrite Hmr, HAB. nia.
Qed.

End Binary64Arithmetic.

(** C10 as stated does not hold of what the code returns.  On the
    floats [0.1] and [100.0], [epoch_time] returns 1 minute and
    [39.900000000000006] seconds: the subtraction [100.0 - 0.1] is
    rounded, and 60 plus those seconds is not the difference of the two
    times.  (On [0.0] and the float [60 * 2^52 + 32] the seconds are
    [-32.0]; on the integers [0] and [60 * 2^49 - 1] the result is
    [(2^49, -1)]; see [epoch_time_examples].) *)
Lemma epoch_time_does_not_split_exactly :
  ~ (forall (start_time end_time : Binary64.number) (a b : Q),
        Binary64.is_time start_time = true ->
        Binary64.is_time end_time = true ->
        Binary64.real start_time = Some a ->
        Binary64.real end_time = Some b ->
        (a <= b)%Q ->
        Binary64.splits_exactly start_time end_time).
Proof.
  intros H.
  destruct (H (Binary64.Float (Binary64.literal 1 10))
              (Binary64.Float (Binary64.literal 100 1))
              (7205759403792794 # 2 ^ 56) (7036874417766400 # 2 ^ 46)
              eq_refl eq_refl eq_refl eq_refl)
    as (mins & secs & a & b & r & Hrun & Ha & Hb & Hr & _ & Hsum & _).
  { unfold Qle. cbn. lia. }
  destruct epoch_time_examples as (Hex & _).
  rewrite Hex in Hrun. injection Hrun as <- <-.
  vm_compute in Ha, Hb, Hr.
  injection Ha as <-. injection Hb as <-. injection Hr as <-.
  revert Hsum. unfold Qeq. vm_compute. discriminate.
Qed.

(** On integer times not more than [2^53] apart, in order. *)
Lemma epoch_time_int_splits (a b : Z) :
  0 <= b - a < 2 ^ 53 ->
  Binary64.epoch_time (Binary64.Int a) (Binary64.Int b)
  = inr (Binary64.Int ((b - a) / 60), Binary64.Int ((b - a) mod 60))
  /\ Binary64.splits_exactly (Binary64.Int a) (Binary64.Int b).
Proof.
  intros Hx.
  assert (Hrun : Binary64.epoch_time (Binary64.Int a) (Binary64.Int b)
                 = inr (Binary64.Int ((b - a) / 60), Binary64.Int ((b - a) mod 60))).
  { rewrite epoch_time_int_exact by lia.
    rewrite Z.quot_div_nonneg, Z.rem_mod_nonneg by lia. reflexivity. }
  pose proof (Z.div_mod (b - a) 60 ltac:(lia)) as Hdm.
  pose proof (Z.mod_pos_bound (b - a) 60 ltac:(lia)) as Hm.
  split; [exact Hrun|].
  exists ((b - a) / 60), (Binary64.Int ((b - a) mod 60)),
    (inject_Z a), (inject_Z b), (inject_Z ((b - a) mod 60)).
  split; [exact Hrun|]. repeat split.
  - symmetry. apply Qfloor_sixtieth.
  - unfold Qeq, Qminus, Qplus, Qmult, Qopp, inject_Z. cbn. lia.
  - unfold Qle, inject_Z. cbn. lia.
  - unfold Qlt, inject_Z. cbn. lia.
Qed.

(** A subtraction that returns an integer has two integer operands. *)
Lemma sub_int_inv (x y : Binary64.number) (z : Z) :
  Binary64.sub x y = inr (Binary64.Int z) ->
  exists a b : Z, x = Binary64.Int a /\ y = Binary64.Int b /\ z = a - b.
Proof.
  destruct x as [a|f], y as [b|g]; unfold Binary64.sub; cbn [Binary64.to_float Binary64.bind].
  - intros H. injection H as <-. exists a, b. repeat split.
  - destruct (Binary64.float_of_int a); cbn [Binary64.bind]; discriminate.
  - destruct (Binary64.float_of_int b); cbn [Binary64.bind]; discriminate.
  - discriminate.
Qed.

(** C10 (amended): in Python's arithmetic, [epoch_time] splits the
    elapsed time it computes, [end_time - start_time] as Python
    evaluates it.  Whenever that is a number of the format (an integer,
    or a float that is zero or finite), not negative and below [2^53]:
    [epoch_time] returns; the minutes are the integer part of the
    elapsed time over 60; minutes times 60 plus seconds is exactly the
    elapsed time; and the seconds are in [0, 60).  No step after the
    first subtraction rounds.  On two integer times the elapsed time is
    the difference of the two times, and the result splits that
    difference exactly. *)
Theorem epoch_time_splits_the_computed_elapsed_time :
  forall (start_time end_time elapsed_time : Binary64.number) (x : Q),
    Binary64.sub end_time start_time = inr elapsed_time ->
    Binary64.is_time elapsed_time = true ->
    Binary64.real elapsed_time = Some x ->
    (0 <= x)%Q ->
    (x < inject_Z (2 ^ 53))%Q ->
    (exists (mins : Z) (secs : Binary64.number) (r : Q),
        Binary64.epoch_time start_time end_time = inr (Binary64.Int mins, secs)
        /\ Binary64.real secs = Some r
        /\ mins = Qfloor (x / 60)
        /\ (inject_Z mins * 60 + r == x)%Q
        /\ (0 <= r)%Q /\ (r < 60)%Q)
    /\ (forall a b : Z,
          start_time = Binary64.Int a ->
          end_time = Binary64.Int b ->
          x = inject_Z (b - a)
          /\ Binary64.splits_exactly start_time end_time).
Proof.
  intros start_time end_time elapsed x Hsub Htime Hreal H0 H53.
  destruct elapsed as [z|d].
  - destruct (sub_int_inv _ _ _ Hsub) as (b & a & -> & -> & ->).
    cbn [Binary64.real] in Hreal. injection Hreal as <-.
    assert (Hz : 0 <= b - a < 2 ^ 53).
    { unfold Qle, Qlt, inject_Z in *. cbn [Qnum Qden] in *. lia. }
    destruct (epoch_time_int_splits a b Hz) as [Hrun Hsplit].
    pose proof (Z.div_mod (b - a) 60 ltac:(lia)) as Hdm.
    pose proof (Z.mod_pos_bound (b - a) 60 ltac:(lia)) as Hm.
    split.
    + exists ((b - a) / 60), (Binary64.Int ((b - a) mod 60)),
        (inject_Z ((b - a) mod 60)).
      split; [exact Hrun|]. repeat split.
      * rewrite (Qfloor_comp _ ((b - a) # 60)); [reflexivity|].
        unfold Qeq, Qdiv, Qmult, Qinv, inject_Z. cbn. lia.
      * unfold Qeq, Qplus, Qmult, inject_Z. cbn. lia.
      * unfold Qle, inject_Z. cbn. lia.
      * unfold Qlt, inject_Z. cbn. lia.
    + intros a' b' Ha Hb. injection Ha as <-. injection Hb as <-.
      split; [reflexivity | exact Hsplit].
  - split.
    + apply (epoch_time_float_exact start_time end_time d x Hsub); try assumption.
      cbn [Binary64.is_time] in Htime. apply andb_prop in Htime. apply Htime.
    + intros a b -> ->. discriminate Hsub.
Qed.

(** From [0.1] to [100.0]: the elapsed time Python computes is the
    float [99.9], which is [7029837543348634 / 2^46]; the minutes are 1 and the
    seconds are that float less 60, [39.900000000000006]. *)
Lemma epoch_time_splits_the_computed_elapsed_time_witness :
  exists (secs : Binary64.number) (r : Q),
    Binary64.epoch_time (Binary64.Float (Binary64.literal 1 10))
                        (Binary64.Float (Binary64.literal 100 1))
    = inr (Binary64.Int 1, secs)
    /\ Binary64.real secs = Some r
    /\ (inject_Z 1 * 60 + r == 7029837543348634 # 2 ^ 46)%Q
    /\ (0 <= r)%Q /\ (r < 60)%Q.
Proof.
  destruct (epoch_time_splits_the_computed_elapsed_time
              (Binary64.Float (Binary64.literal 1 10))
              (Binary64.Float (Binary64.literal 100 1))
              (Binary64.Float (Binary64.literal 999 10))
              (7029837543348634 # 2 ^ 46)
              eq_refl eq_refl eq_refl)
    as [(mins & secs & r & Hrun & Hr & Hmins & Hsum & Hlo & Hhi) _].
  - unfold Qle. cbn. lia.
  - unfold Qlt. cbn. lia.
  - exists secs, r. change (Qfloor _) with 1 in Hmins. subst mins.
    repeat split; assumption.
Defined.

(** ** Which functions have a defined result *)

Lemma shipped_encoder_no_embedding hd nl d :
  shipped_encoder hd nl d !! "embedding" = None.
Proof. vm_compute. reflexivity. Qed.

Lemma shipped_decoder_no_embedding od hd nl d :
  shipped_decoder od hd nl d !! "embedding" = None.
Proof. vm_compute. reflexivity. Qed.

(** The shipped [__init__] of the encoder builds exactly such an
    instance, when the library provides [nn.Dropout]. *)
Lemma Encoder_init_shipped {S} (lib : extcall -> S -> S * (exn + value)) (s : S)
    (input_dim embedding_dim hidden_dim num_layers dropout : value) self :
  result notebook_globals lib
    (Encoder.__init__ input_dim embedding_dim hidden_dim num_layers dropout) s
    = inr self ->
  exists d, self = shipped_encoder hidden_dim num_layers d.
Proof.
  unfold result, Encoder.__init__, load, ext. cbn [bind].
  repeat (run_step lib; try discriminate).
  intros H. injection H as <-. eexists. reflexivity.
Qed.

Lemma Encoder_forward_fails {S} g (lib : extcall -> S -> S * (exn + value)) (s : S)
    hd nl d src :
  run g lib (Encoder.forward (shipped_encoder hd nl d) src) s
    = ([], s, inl (AttributeError (VObj "Encoder") "embedding")).
Proof.
  unfold Encoder.forward, getattr_self.
  rewrite shipped_encoder_no_embedding. reflexivity.
Qed.

Lemma Decoder_forward_fails {S} g (lib : extcall -> S -> S * (exn + value)) (s : S)
    od hd nl d x h :
  exists e, result g lib (Decoder.forward (shipped_decoder od hd nl d) x h) s = inl e.
Proof.
  unfold result, Decoder.forward, getattr_self, ext.
  rewrite shipped_decoder_no_embedding. cbn [bind].
  repeat (run_step lib; eauto).
Qed.

(** Whatever layers a decoder instance declares, [Decoder.forward] as
    shipped cannot return: its last statement reads [prediction], which
    nothing binds. *)
Lemma Decoder_forward_fails_on_any_instance {S}
    (lib : extcall -> S -> S * (exn + value)) (s : S)
    (self : gmap string value) (x h : value) :
  exists e, result notebook_globals lib (Decoder.forward self x h) s = inl e.
Proof.
  unfold result, Decoder.forward, getattr_self, ext.
  destruct (self !! "embedding"), (self !! "dropout"), (self !! "rnn");
    cbn [bind]; repeat (run_step lib; eauto).
  rewrite run_bind.
  match goal with
  | |- context [run notebook_globals lib (unpack2 ?r) ?s0] =>
      destruct (run notebook_globals lib (unpack2 r) s0) as [[t sU] [e|[o h']]]
  end; cbn [snd]; [eauto|].
  cbn [bind load].
  rewrite (run_load_unbound _ _ _ _ _ prediction_unbound). cbn [snd]. eauto.
Qed.

(** C4 as stated does not hold: [epoch_time] has no placeholder
    and returns a value on every pair of times. *)
Lemma some_function_is_defined :
  ~ (forall f : source_function, ~ returns_on_every_input f).
Proof.
  intros H. apply (H f_epoch_time). cbn.
  intros S g lib s a b. eexists. apply epoch_time_run.
Qed.

(** C4 (amended): the functions whose bodies wait for the learner
    ([tokenize_de], [tokenize_en], [Seq2Seq.forward], and [forward] of
    the encoder and decoder as their shipped [__init__] builds them)
    raise on every input, for every library; [epoch_time],
    [Adder.__call__] and [Person.set_name] contain no placeholder and
    return a value on every valid input, the same for the same input. *)
Theorem stubs_fail_and_complete_functions_return :
  Forall fails_on_every_input
    [f_tokenize_de; f_tokenize_en; f_Encoder_forward; f_Decoder_forward;
     f_Seq2Seq_forward]
  /\ Forall returns_on_every_input [f_epoch_time; f_Adder_call; f_Person_set_name]
  /\ Forall (fun f => ~ fails_on_every_input f)
       [f_epoch_time; f_Adder_call; f_Person_set_name]
  /\ Forall (fun f => ~ returns_on_every_input f)
       [f_tokenize_de; f_tokenize_en; f_Encoder_forward; f_Decoder_forward;
        f_Seq2Seq_forward].
Proof.
  assert (Hret : Forall returns_on_every_input
                   [f_epoch_time; f_Adder_call; f_Person_set_name]).
  { repeat constructor; cbn.
    - intros S g lib s a b. eexists. apply epoch_time_run.
    - intros h l n x Hl. eexists.
      unfold Adder.__call__, hbind, getattr, hlift. rewrite Hl. cbn [__dict__].
      rewrite lookup_singleton_eq. reflexivity.
    - intros h l d n Hl. eexists. apply Person_set_name_run, Hl. }
  assert (Hfail : Forall fails_on_every_input
                    [f_tokenize_de; f_tokenize_en; f_Encoder_forward;
                     f_Decoder_forward; f_Seq2Seq_forward]).
  { repeat constructor; cbv beta iota delta [fails_on_every_input].
    - intros S lib s text. eexists. unfold result.
      rewrite tokenize_de_run. reflexivity.
    - intros S lib s text. eexists. unfold result.
      rewrite tokenize_en_run. reflexivity.
    - intros S lib s hd nl d src. eexists. unfold result.
      rewrite Encoder_forward_fails. reflexivity.
    - intros S lib s od hd nl d x h. apply Decoder_forward_fails.
    - intros S lib s self src trg.
      apply (forward_fails_without_trg_len _ _ _ _ trg), trg_len_unbound. }
  split; [exact Hfail|]. split; [exact Hret|]. split.
  - repeat constructor; cbn; intros H.
    + destruct (H unit notebook_globals (fun _ u => (u, inr VNone)) tt 0%Q 0%Q)
        as [e He]. discriminate He.
    + destruct (H {[ 0%N := {| class_of := "Adder";
                               __dict__ := {["n" := VInt 3]} |} ]} 0%N 3 4
                  (lookup_singleton_eq _ _)) as [e He].
      discriminate He.
    + destruct (H {[ 0%N := {| class_of := "Person"; __dict__ := ∅ |} ]} 0%N ∅
                  "Alex" (lookup_singleton_eq _ _)) as [e He].
      discriminate He.
  - repeat constructor; intros H;
      cbv beta iota delta [returns_on_every_input] in H.
    + destruct (H unit (fun _ u => (u, inr VNone)) tt "") as [v Hv].
      unfold result in Hv. rewrite tokenize_de_run in Hv. discriminate Hv.
    + destruct (H unit (fun _ u => (u, inr VNone)) tt "") as [v Hv].
      unfold result in Hv. rewrite tokenize_en_run in Hv. discriminate Hv.
    + destruct (H unit (fun _ u => (u, inr VNone)) tt VNone VNone VNone VNone)
        as [v Hv].
      unfold result in Hv. rewrite Encoder_forward_fails in Hv. discriminate Hv.
    + destruct (Decoder_forward_fails notebook_globals (fun _ (u : unit) => (u, inr VNone))
                  tt VNone VNone VNone VNone VNone VNone) as [e He].
      destruct (H unit (fun _ u => (u, inr VNone)) tt VNone VNone VNone VNone
                  VNone VNone) as [v Hv].
      rewrite He in Hv. discriminate Hv.
    + destruct (forward_fails_without_trg_len notebook_globals
                  (fun _ (u : unit) => (u, inr VNone))
                  (Seq2Seq.__init__ VNone VNone) VNone VNone tt trg_len_unbound)
        as [e He].
      destruct (H unit (fun _ u => (u, inr VNone)) tt
                  (Seq2Seq.__init__ VNone VNone) VNone VNone) as [v Hv].
      rewrite He in Hv. discriminate Hv.
Qed.


(** * Further properties of the callables tutorial *)

Lemma Adder_apply_n (h : gmap N object) (l : N) (d : gmap string value)
    (vn vx : value) :
  h !! l = Some {| class_of := "Adder"; __dict__ := d |} ->
  d !! "n" = Some vn ->
  call (VRef l) [vx] h = (h, py_add vn vx).
Proof.
  intros Hl Hn. unfold call. rewrite Hl. cbn [class_of].
  change (class_defines "Adder" "__call__") with true. cbv beta iota.
  change (call_function "Adder" "__call__" [VRef l; vx])
    with (Adder.__call__ (VRef l) vx).
  unfold Adder.__call__, hbind, getattr, hlift.
  rewrite Hl. cbn [__dict__]. rewrite Hn. reflexivity.
Qed.

(** X1: two [Adder] instances keep their own [n].  After [a1 = Adder(n1)]
    and [a2 = Adder(n2)], built one after the other on any heap, the two
    instances are distinct, [a1(x)] is still [n1 + x] and [a2(x)] is
    [n2 + x], and no instance that existed before has changed. *)
Theorem Adder_instances_are_independent :
  forall (h : gmap N object) (n1 n2 x : value),
    exists (l1 l2 : N) (h1 h2 : gmap N object),
      call (VObj "Adder") [n1] h = (h1, inr (VRef l1))
      /\ call (VObj "Adder") [n2] h1 = (h2, inr (VRef l2))
      /\ l1 <> l2
      /\ call (VRef l1) [x] h2 = (h2, py_add n1 x)
      /\ call (VRef l2) [x] h2 = (h2, py_add n2 x)
      /\ (forall l, is_Some (h !! l) -> h2 !! l = h !! l).
Proof.
  intros h n1 n2 x.
  set (l1 := fresh (dom h)).
  set (h1 := <[l1 := {| class_of := "Adder"; __dict__ := {["n" := n1]} |}]> h).
  set (l2 := fresh (dom h1)).
  set (h2 := <[l2 := {| class_of := "Adder"; __dict__ := {["n" := n2]} |}]> h1).
  assert (Hf1 : h !! l1 = None).
  { apply not_elem_of_dom. apply is_fresh. }
  assert (Hf2 : h1 !! l2 = None).
  { apply not_elem_of_dom. apply is_fresh. }
  assert (Hne : l1 <> l2).
  { intros E. unfold h1 in Hf2. rewrite <- E, lookup_insert_eq in Hf2.
    discriminate Hf2. }
  exists l1, l2, h1, h2.
  split; [apply Adder_new|]. split; [apply Adder_new|]. split; [exact Hne|].
  split.
  - apply (Adder_apply_n h2 l1 {["n" := n1]}); [|apply lookup_singleton_eq].
    unfold h2. rewrite lookup_insert_ne by congruence. apply lookup_insert_eq.
  - split.
    + apply (Adder_apply_n h2 l2 {["n" := n2]}); [|apply lookup_singleton_eq].
      apply lookup_insert_eq.
    + intros l [ob Hl].
      assert (Hl1 : l1 <> l) by (intros <-; rewrite Hf1 in Hl; discriminate Hl).
      assert (Hl2 : l2 <> l).
      { intros <-. unfold h1 in Hf2. rewrite lookup_insert_ne in Hf2 by exact Hl1.
        rewrite Hf2 in Hl. discriminate Hl. }
      unfold h2, h1. rewrite !lookup_insert_ne by assumption. reflexivity.
Qed.

(** X2: the [name] attribute of a [Person].  On a fresh [p = Person()]
    reading [p.name] raises [AttributeError]; after any history of
    [set_name] calls followed by one more, bound or through the class,
    with the string [n], reading [p.name] returns [n]. *)
Theorem Person_name_is_the_last_one_set :
  forall (h0 : gmap N object) (calls : list (style * string))
         (st : style) (n : string),
    exists (l : N) (h1 h h' : gmap N object),
      call (VObj "Person") [] h0 = (h1, inr (VRef l))
      /\ getattr (VRef l) "name" h1 = (h1, inl (AttributeError (VRef l) "name"))
      /\ replay calls (VRef l) h1 = (h, inr tt)
      /\ set_name_via st (VRef l) n h = (h', inr VNone)
      /\ getattr (VRef l) "name" h' = (h', inr (VStr n)).
Proof.
  intros h0 calls st n.
  set (l := fresh (dom h0)).
  set (h1 := <[l := {| class_of := "Person"; __dict__ := ∅ |}]> h0).
  assert (Hl1 : h1 !! l = Some {| class_of := "Person"; __dict__ := ∅ |})
    by apply lookup_insert_eq.
  destruct (replay_spec calls l h1 ∅ Hl1 (or_introl eq_refl)) as (h & d & Hr & Hl & Hd).
  exists l, h1, h,
    (<[l := {| class_of := "Person"; __dict__ := <["name" := VStr n]> d |}]> h).
  split; [apply Person_new|].
  split; [unfold getattr; rewrite Hl1; reflexivity|].
  split; [exact Hr|].
  split; [apply set_name_via_spec; [exact Hl | apply person_dict_no_shadow, Hd]|].
  unfold getattr. rewrite lookup_insert_eq. cbn [__dict__].
  rewrite lookup_insert_eq. reflexivity.
Qed.

(** X3: a [Person] instance is not callable.  The class defines no
    [__call__], so applying [p], after any history of [set_name] calls
    and to any arguments, raises [TypeError] and leaves the heap as it
    was. *)
Theorem Person_instance_is_not_callable :
  forall (h0 : gmap N object) (calls : list (style * string)) (args : list value),
    exists (l : N) (h1 h : gmap N object),
      call (VObj "Person") [] h0 = (h1, inr (VRef l))
      /\ replay calls (VRef l) h1 = (h, inr tt)
      /\ call (VRef l) args h = (h, inl (TypeError "object is not callable")).
Proof.
  intros h0 calls args.
  set (l := fresh (dom h0)).
  set (h1 := <[l := {| class_of := "Person"; __dict__ := ∅ |}]> h0).
  assert (Hl1 : h1 !! l = Some {| class_of := "Person"; __dict__ := ∅ |})
    by apply lookup_insert_eq.
  destruct (replay_spec calls l h1 ∅ Hl1 (or_introl eq_refl)) as (h & d & Hr & Hl & Hd).
  exists l, h1, h. split; [apply Person_new|]. split; [exact Hr|].
  unfold call. rewrite Hl. reflexivity.
Qed.

(** X4: the function of the class takes any instance, the bound call
    does not.  On [a = Adder(n)], [Person.set_name(a, s)] stores
    ['name'] in [a.__dict__] beside ['n'] and [a] still adds [n], while
    [a.set_name(s)] raises [AttributeError] and changes nothing. *)
Theorem set_name_through_the_class_takes_any_instance :
  forall (h : gmap N object) (n x : value) (s : string),
    exists (l : N) (h1 h2 : gmap N object),
      call (VObj "Adder") [n] h = (h1, inr (VRef l))
      /\ set_name_via Unbound (VRef l) s h1 = (h2, inr VNone)
      /\ instance_dict (VRef l) h2 = Some (<["name" := VStr s]> {["n" := n]})
      /\ call (VRef l) [x] h2 = (h2, py_add n x)
      /\ set_name_via Bound (VRef l) s h1
         = (h1, inl (AttributeError (VRef l) "set_name")).
Proof.
  intros h n x s.
  set (l := fresh (dom h)).
  set (h1 := <[l := {| class_of := "Adder"; __dict__ := {["n" := n]} |}]> h).
  assert (Hl1 : h1 !! l = Some {| class_of := "Adder"; __dict__ := {["n" := n]} |})
    by apply lookup_insert_eq.
  exists l, h1,
    (<[l := {| class_of := "Adder";
               __dict__ := <["name" := VStr s]> {["n" := n]} |}]> h1).
  split; [apply Adder_new|].
  split.
  { unfold set_name_via, hbind, getattr.
    change (class_defines "Person" "set_name") with true. cbv beta iota.
    unfold call.
    change (call_function "Person" "set_name" [VRef l; VStr s])
      with (Person.set_name (VRef l) (VStr s)).
    unfold Person.set_name, hbind, setattr, hret. rewrite Hl1. reflexivity. }
  split; [cbn [instance_dict]; rewrite lookup_insert_eq; reflexivity|].
  split.
  { apply (Adder_apply_n _ l (<["name" := VStr s]> {["n" := n]}));
      [apply lookup_insert_eq|].
    rewrite lookup_insert_ne by discriminate. apply lookup_singleton_eq. }
  unfold set_name_via, hbind, getattr. rewrite Hl1. cbn [__dict__ class_of].
  rewrite lookup_singleton_ne by discriminate. reflexivity.
Qed.

(** * Further properties of the translation notebook *)

(** X6: [epoch_time] on integer times in either order, in Python's
    arithmetic.  For integer times less than [2^53] seconds apart the
    result is two integers, the elapsed seconds over 60 truncated toward
    zero and the remainder: minutes times 60 plus seconds is the elapsed
    time, the seconds are strictly between -60 and 60, and neither part
    has the sign opposite to the elapsed time's. *)
Theorem epoch_time_on_integers :
  forall start_time end_time : Z,
    Z.abs (end_time - start_time) < 2 ^ 53 ->
    exists elapsed_mins elapsed_secs : Z,
      Binary64.epoch_time (Binary64.Int start_time) (Binary64.Int end_time)
      = inr (Binary64.Int elapsed_mins, Binary64.Int elapsed_secs)
      /\ elapsed_mins = Z.quot (end_time - start_time) 60
      /\ elapsed_mins * 60 + elapsed_secs = end_time - start_time
      /\ Z.abs elapsed_secs < 60
      /\ 0 <= elapsed_secs * (end_time - start_time)
      /\ 0 <= elapsed_mins * (end_time - start_time).
Proof.
  intros a b Hx.
  exists (Z.quot (b - a) 60), (Z.rem (b - a) 60).
  split; [apply epoch_time_int_exact, Hx|].
  pose proof (Z.quot_rem' (b - a) 60) as Hqr.
  pose proof (Z.rem_bound_abs (b - a) 60 ltac:(lia)) as Hb.
  pose proof (Z.rem_sign_mul (b - a) 60 ltac:(lia)) as Hs.
  pose proof (Z.quot_pos (b - a) 60) as Hp.
  pose proof (Z.quot_opp_l (b - a) 60 ltac:(lia)) as Ho.
  pose proof (Z.quot_pos (- (b - a)) 60) as Hn.
  repeat split; try lia.
  destruct (Z_le_gt_dec 0 (b - a)); nia.
Qed.

(** From second 125 back to second 0: minus two minutes, minus five
    seconds. *)
Lemma epoch_time_on_integers_witness :
  exists elapsed_mins elapsed_secs : Z,
    Binary64.epoch_time (Binary64.Int 125) (Binary64.Int 0)
    = inr (Binary64.Int elapsed_mins, Binary64.Int elapsed_secs)
    /\ elapsed_mins = Z.quot (0 - 125) 60
    /\ elapsed_mins * 60 + elapsed_secs = 0 - 125
    /\ Z.abs elapsed_secs < 60
    /\ 0 <= elapsed_secs * (0 - 125)
    /\ 0 <= elapsed_mins * (0 - 125).
Proof.
  apply (epoch_time_on_integers 125 0). vm_compute. reflexivity.
Defined.


(** ** What [Seq2Seq.forward] writes *)

Lemma decode_loop_writes g (Q : value -> Prop) (self : Seq2Seq.t)
    (outputs : value) (steps : list value) (hidden : value) :
  Forall Q steps ->
  all_calls g (fun c => match c with SetItem _ i _ => Q i | _ => True end)
    (Seq2Seq.decode_loop self outputs steps hidden).
Proof.
  intros Hs. revert hidden.
  induction Hs as [|step steps Hstep Hs IH]; intros hidden.
  - exact I.
  - cbn [Seq2Seq.decode_loop load ext bind all_calls].
    intros d Hd. split; [exact I|]. intros r.
    apply all_calls_bind; [apply all_calls_unpack2; intros; exact I|].
    intros [output hidden']. cbn [bind all_calls]. split; [exact Hstep|].
    intros _. apply IH.
Qed.

(** X7: [Seq2Seq.forward] never writes row 0 of [outputs] nor beyond
    its end.  In every namespace and for every library, each item
    assignment of a run is at an integer index [k] with
    [1 <= k < trg_len], for the integer the namespace binds to
    [trg_len]. *)
Theorem forward_writes_rows_one_to_trg_len :
  forall (S : Type) (g : gmap string value)
         (lib : extcall -> S -> S * (exn + value)) (s : S)
         (self : Seq2Seq.t) (src trg : value),
    Forall (fun ev : event => writes_within g ev.1)
      (trace g lib (Seq2Seq.forward self src trg) s).
Proof.
  intros S g lib s self src trg.
  apply all_calls_trace.
  unfold Seq2Seq.forward, load, ext. cbn [bind all_calls writes_within].
  intros torch _. split; [exact I|]. intros zeros trg_len _ batch_size _ vocab _.
  split; [exact I|]. intros z. split; [exact I|]. intros to device _.
  split; [exact I|]. intros outputs. split; [exact I|]. intros hidden v Hv.
  destruct v as [|n| | | | | | | | |]; try exact I.
  cbn [py_range bind].
  apply all_calls_bind; [|intros; exact I].
  change (writes_within g) with
    (fun c => match c with
              | SetItem _ i _ =>
                  (fun i => exists n k : Z,
                     lookup_name g "trg_len" = Some (VInt n)
                     /\ i = VInt k /\ 1 <= k < n) i
              | _ => True
              end).
  apply decode_loop_writes.
  apply Forall_forall. intros step Hin.
  apply list_elem_of_In, in_map_iff in Hin. destruct Hin as (i & <- & Hi).
  apply in_seq in Hi. exists n, (1 + Z.of_nat i). split; [exact Hv|].
  split; [reflexivity|]. lia.
Qed.

Section ReferenceForward.
Variable fwd : Z -> value -> value -> value.
Variable loss_of : value -> value -> Z * Z.
Variable clipf : value -> Z -> Z.
Variable enc : value -> value.
Variable dec : value -> value -> value * value.
Variable g : gmap string value.
Variable d : value.
Hypothesis Hd : lookup_name g "decoder_input" = Some d.

Let ref := torch_ref fwd loss_of clipf enc dec.
Let model := Seq2Seq.__init__ (VObj "encoder") (VObj "decoder").

Lemma decode_loop_ref (m : nat) :
  forall (a : nat) (h : value) (pre rest : list value) (g0 w0 : Z) (n0 : nat)
         (ds : list value),
    length pre = a -> (m <= length rest)%nat ->
    exists T hf,
      run g ref
        (Seq2Seq.decode_loop model (VData "Tensor" [])
           (map (fun i => VInt (Z.of_nat i)) (seq a m)) h)
        {| grad := g0; weight := w0; adam_steps := n0; dataset := ds;
           tensor := pre ++ rest |}
      = (T,
         {| grad := g0; weight := w0; adam_steps := n0; dataset := ds;
            tensor := pre ++ unroll dec d h m ++ drop m rest |},
         inr hf)
      /\ decoder_inputs (VObj "decoder") T = repeat d m.
Proof.
  induction m as [|m IH]; intros a h pre rest g0 w0 n0 ds Ha Hm.
  - exists [], h. split; reflexivity.
  - destruct rest as [|x rest]; [cbn in Hm; lia|].
    cbn [seq map Seq2Seq.decode_loop load ext bind].
    rewrite (run_load_bound _ _ _ _ _ _ Hd). cbn [run].
    set (st := {| grad := g0; weight := w0; adam_steps := n0; dataset := ds;
                  tensor := pre ++ x :: rest |}).
    change (ref (Call (Seq2Seq.decoder model) [d; h]) st)
      with (st, @inr exn value (VTuple [(dec d h).1; (dec d h).2])).
    cbn [unpack2 bind run].
    assert (Hset : ref (SetItem (VData "Tensor" []) (VInt (Z.of_nat a)) (dec d h).1) st
                   = ({| grad := g0; weight := w0; adam_steps := n0; dataset := ds;
                         tensor := (pre ++ [(dec d h).1]) ++ rest |}, inr VNone)).
    { unfold ref, torch_ref.
      change (String.eqb (class_name (VData "Tensor" [])) "Tensor") with true.
      cbv beta iota. cbn [tensor st].
      rewrite bool_decide_eq_true_2
        by (rewrite length_app; cbn [length]; lia).
      rewrite Nat2Z.id, insert_app_r_alt by lia.
      replace (a - length pre)%nat with 0%nat by lia.
      cbn [grad weight adam_steps dataset]. rewrite <- app_assoc. reflexivity. }
    rewrite Hset.
    destruct (IH (Datatypes.S a) (dec d h).2 (pre ++ [(dec d h).1])%list rest g0 w0 n0 ds)
      as (T & hf & HT & Hin).
    { rewrite length_app. cbn [length]. lia. }
    { cbn [length] in Hm. lia. }
    rewrite HT. eexists _, hf. split.
    + cbn [unroll drop]. rewrite <- !app_assoc. reflexivity.
    + cbn [decoder_inputs]. change (value_eqb (Seq2Seq.decoder model) (VObj "decoder")) with true.
      cbv beta iota. rewrite Hin. reflexivity.
Qed.

Lemma steps_from_one (k : nat) :
  map (fun i => VInt (1 + Z.of_nat i)) (seq 0 k)
  = map (fun i => VInt (Z.of_nat i)) (seq 1 k).
Proof.
  rewrite <- seq_shift, map_map. apply map_ext. intros i. f_equal. lia.
Qed.

Lemma forward_ref (n : Z) (bs vs dv src trg : value) (st : torch_state) :
  lookup_name g "torch" = Some (VObj "torch") ->
  lookup_name g "trg_len" = Some (VInt n) ->
  lookup_name g "batch_size" = Some bs ->
  lookup_name g "trg_vocab_size" = Some vs ->
  lookup_name g "device" = Some dv ->
  0 <= n ->
  exists T,
    run g ref (Seq2Seq.forward model src trg) st
    = (T,
       {| grad := grad st; weight := weight st; adam_steps := adam_steps st;
          dataset := dataset st;
          tensor := take 1 (repeat (VInt 0) (Z.to_nat n))
                    ++ unroll dec d (enc src) (Z.to_nat (n - 1)) |},
       inr (VData "Tensor" []))
    /\ decoder_inputs (VObj "decoder") T = repeat d (Z.to_nat (n - 1)).
Proof.
  intros Ht Hn Hb Hv Hdv Hpos.
  destruct st as [g0 w0 n0 ds tens]. cbn [grad weight adam_steps dataset].
  unfold Seq2Seq.forward, load, ext. cbn [bind].
  rewrite (run_load_bound _ _ _ _ _ _ Ht). cbn [run].
  change (ref (GetAttr (VObj "torch") "zeros") ?s)
    with (s, @inr exn value (VMethod (VObj "torch") "zeros")).
  cbn [run]. rewrite Hn, Hb, Hv. cbn [run].
  change (ref (Call (VMethod (VObj "torch") "zeros") [VInt n; bs; vs])
            {| grad := g0; weight := w0; adam_steps := n0; dataset := ds;
               tensor := tens |})
    with ({| grad := g0; weight := w0; adam_steps := n0; dataset := ds;
             tensor := repeat (VInt 0) (Z.to_nat n) |},
          @inr exn value (VData "Tensor" [])).
  cbn [run].
  set (st0 := {| grad := g0; weight := w0; adam_steps := n0; dataset := ds;
                 tensor := repeat (VInt 0) (Z.to_nat n) |}).
  change (ref (GetAttr (VData "Tensor" []) "to") st0)
    with (st0, @inr exn value (VMethod (VData "Tensor" []) "to")).
  cbn [run]. rewrite Hdv. cbn [run].
  change (ref (Call (VMethod (VData "Tensor" []) "to") [dv]) st0)
    with (st0, @inr exn value (VData "Tensor" [])).
  cbn [run].
  change (ref (Call (Seq2Seq.encoder model) [src]) st0)
    with (st0, @inr exn value (enc src)).
  cbn [run py_range bind]. rewrite steps_from_one.
  set (m := Z.to_nat (n - 1)).
  assert (Hcase : (Z.to_nat n = 0%nat /\ m = 0%nat) \/ Z.to_nat n = Datatypes.S m)
    by (unfold m; lia).
  rewrite run_bind.
  destruct Hcase as [[Hz Hm]|Hs].
  - rewrite Hm. unfold st0. rewrite Hz. cbn. eexists. split; reflexivity.
  - unfold st0. rewrite Hs. cbn [repeat take].
    destruct (decode_loop_ref m 1 (enc src) [VInt 0] (repeat (VInt 0) m) g0 w0 n0 ds)
      as (T & hf & HT & Hin); [reflexivity | rewrite repeat_length; lia |].
    change (VInt 0 :: repeat (VInt 0) m) with ([VInt 0] ++ repeat (VInt 0) m)%list.
    rewrite HT. cbn [run app].
    rewrite drop_ge by (rewrite repeat_length; lia).
    rewrite !app_nil_r. eexists. split; [reflexivity|].
    cbn [decoder_inputs]. rewrite Hin. reflexivity.
Qed.

End ReferenceForward.

(** X8: what [Seq2Seq.forward] computes once the names it expects are
    bound.  In the reference model, with [trg_len] bound to an integer
    [n >= 0] and [decoder_input] to [d], the call returns the tensor made
    by [torch.zeros], whose row 0 is still zero and whose rows 1 to
    [n - 1] are the outputs of the decoder recurrence unrolled from the
    encoder's hidden state [enc src]; the decoder is run [n - 1] times,
    each time on [d], and nothing else of the library state changes. *)
Theorem forward_unrolls_the_decoder :
  forall fwd loss_of clipf enc dec (g : gmap string value)
         (n : Z) (d bs vs dv src trg : value) (st : torch_state),
    lookup_name g "torch" = Some (VObj "torch") ->
    lookup_name g "trg_len" = Some (VInt n) ->
    lookup_name g "batch_size" = Some bs ->
    lookup_name g "trg_vocab_size" = Some vs ->
    lookup_name g "device" = Some dv ->
    lookup_name g "decoder_input" = Some d ->
    0 <= n ->
    let r := run g (torch_ref fwd loss_of clipf enc dec)
               (Seq2Seq.forward (Seq2Seq.__init__ (VObj "encoder") (VObj "decoder"))
                  src trg) st in
    r.2 = inr (VData "Tensor" [])
    /\ tensor r.1.2 = (take 1 (repeat (VInt 0) (Z.to_nat n))
                       ++ unroll dec d (enc src) (Z.to_nat (n - 1)))%list
    /\ decoder_inputs (VObj "decoder") r.1.1 = repeat d (Z.to_nat (n - 1))
    /\ grad r.1.2 = grad st /\ weight r.1.2 = weight st
    /\ adam_steps r.1.2 = adam_steps st /\ dataset r.1.2 = dataset st.
Proof.
  intros fwd loss_of clipf enc dec g n d bs vs dv src trg st
         Ht Hn Hb Hv Hdv Hd Hpos r.
  destruct (forward_ref fwd loss_of clipf enc dec g d Hd n bs vs dv src trg st
              Ht Hn Hb Hv Hdv Hpos) as (T & HT & Hin).
  subst r. rewrite HT. cbn [fst snd tensor grad weight adam_steps dataset].
  repeat split; try reflexivity. exact Hin.
Qed.

(** The sample run: a target of length 3, two decoder steps from the
    context of a two-word source. *)
Lemma forward_unrolls_the_decoder_witness :
  let r := run patched_globals sample_lib
             (Seq2Seq.forward sample_model (VList [VStr "guten"; VStr "morgen"])
                (VList [VStr "<sos>"; VStr "good"; VStr "<eos>"])) sample_state in
  r.2 = inr (VData "Tensor" [])
  /\ tensor r.1.2 = [VInt 0; VTuple [VStr "<sos>"; VInt 2];
                     VTuple [VStr "<sos>"; VInt 3]]
  /\ decoder_inputs (VObj "decoder") r.1.1 = [VStr "<sos>"; VStr "<sos>"]
  /\ grad r.1.2 = 0 /\ weight r.1.2 = 10
  /\ adam_steps r.1.2 = 0%nat /\ dataset r.1.2 = dataset sample_state.
Proof.
  apply (forward_unrolls_the_decoder sample_fwd sample_loss sample_clip
           sample_enc sample_dec patched_globals 3 (VStr "<sos>") (VInt 1)
           (VInt 5) (VObj "device")
           (VList [VStr "guten"; VStr "morgen"])
           (VList [VStr "<sos>"; VStr "good"; VStr "<eos>"]) sample_state);
    try (vm_compute; reflexivity). lia.
Defined.

(** ** The model classes as shipped *)

(** X9: [Decoder.forward] cannot return.  In the notebook's namespace,
    on any instance and for any library, the call raises; when the three
    layers are declared and every library call succeeds, the exception
    is [NameError] for [prediction], raised after the embedding, the
    dropout and the rnn have been run. *)
Theorem Decoder_forward_cannot_return :
  forall (S : Type) (lib : extcall -> S -> S * (exn + value)) (s : S)
         (self : gmap string value) (dec_input hidden : value),
    (exists e, result notebook_globals lib (Decoder.forward self dec_input hidden) s
               = inl e)
    /\ (forall (embedding dropout rnn unsqueeze x0 x1 x2 output hidden' : value)
               (s1 s2 s3 s4 s5 : S),
          self !! "embedding" = Some embedding ->
          self !! "dropout" = Some dropout ->
          self !! "rnn" = Some rnn ->
          lib (GetAttr dec_input "unsqueeze") s = (s1, inr unsqueeze) ->
          lib (Call unsqueeze [VInt 0]) s1 = (s2, inr x0) ->
          lib (Call embedding [x0]) s2 = (s3, inr x1) ->
          lib (Call dropout [x1]) s3 = (s4, inr x2) ->
          lib (Call rnn [x2; hidden]) s4 = (s5, inr (VTuple [output; hidden'])) ->
          run notebook_globals lib (Decoder.forward self dec_input hidden) s
          = ([(GetAttr dec_input "unsqueeze", inr unsqueeze);
              (Call unsqueeze [VInt 0], inr x0);
              (Call embedding [x0], inr x1);
              (Call dropout [x1], inr x2);
              (Call rnn [x2; hidden], inr (VTuple [output; hidden']))],
             s5, inl (NameError "prediction"))).
Proof.
  intros S lib s self dec_input hidden. split.
  - apply Decoder_forward_fails_on_any_instance.
  - intros embedding dropout rnn unsqueeze x0 x1 x2 output hidden' s1 s2 s3 s4 s5
           He Hdr Hr H1 H2 H3 H4 H5.
    unfold Decoder.forward, getattr_self, ext. rewrite He, Hdr, Hr.
    cbn [bind run]. rewrite H1. cbn [run]. rewrite H2. cbn [run].
    rewrite H3. cbn [run]. rewrite H4. cbn [run]. rewrite H5.
    cbn [unpack2 bind load run]. rewrite prediction_unbound. reflexivity.
Qed.

Lemma Decoder_forward_cannot_return_witness :
  run notebook_globals pair_lib
    (Decoder.forward
       (<["rnn" := VObj "rnn"]>
          (<["embedding" := VObj "embedding"]>
             (shipped_decoder VNone VNone VNone (VObj "dropout"))))
       (VInt 2) (VInt 0)) tt
  = ([(GetAttr (VInt 2) "unsqueeze", inr (VTuple [VNone; VNone]));
      (Call (VTuple [VNone; VNone]) [VInt 0], inr (VTuple [VNone; VNone]));
      (Call (VObj "embedding") [VTuple [VNone; VNone]], inr (VTuple [VNone; VNone]));
      (Call (VObj "dropout") [VTuple [VNone; VNone]], inr (VTuple [VNone; VNone]));
      (Call (VObj "rnn") [VTuple [VNone; VNone]; VInt 0],
       inr (VTuple [VNone; VNone]))],
     tt, inl (NameError "prediction")).
Proof.
  eapply (proj2 (Decoder_forward_cannot_return unit pair_lib tt _ (VInt 2) (VInt 0)));
    reflexivity.
Defined.

Lemma Encoder_init_attributes {S} g (lib : extcall -> S -> S * (exn + value)) (s : S)
    (input_dim embedding_dim hidden_dim num_layers dropout : value) self :
  result g lib
    (Encoder.__init__ input_dim embedding_dim hidden_dim num_layers dropout) s
    = inr self ->
  exists d, self = shipped_encoder hidden_dim num_layers d.
Proof.
  unfold result, Encoder.__init__, load, ext. cbn [bind].
  repeat (run_step lib; try discriminate).
  intros H. injection H as <-. eexists. reflexivity.
Qed.

(** X10: an [Encoder] as its [__init__] builds it cannot encode.  In any
    namespace and for any library, if [Encoder(...)] returns an instance
    then that instance has exactly the attributes [hidden_dim],
    [num_layers] and [dropout], with the values passed for the first two,
    and [forward] on it, from any state and on any source, raises
    [AttributeError] for [embedding] before any library call. *)
Theorem Encoder_as_constructed_cannot_encode :
  forall (S : Type) (g : gmap string value)
         (lib : extcall -> S -> S * (exn + value)) (s s' : S)
         (input_dim embedding_dim hidden_dim num_layers dropout src : value)
         (self : gmap string value),
    result g lib
      (Encoder.__init__ input_dim embedding_dim hidden_dim num_layers dropout) s
      = inr self ->
    run g lib (Encoder.forward self src) s'
      = ([], s', inl (AttributeError (VObj "Encoder") "embedding"))
    /\ self !! "hidden_dim" = Some hidden_dim
    /\ self !! "num_layers" = Some num_layers
    /\ dom self = {["hidden_dim"; "num_layers"; "dropout"]}.
Proof.
  intros S g lib s s' input_dim embedding_dim hidden_dim num_layers dropout src
         self H.
  destruct (Encoder_init_attributes g lib s _ _ _ _ _ _ H) as [d ->].
  split; [apply Encoder_forward_fails|].
  unfold shipped_encoder.
  split; [rewrite !lookup_insert_ne by discriminate; apply lookup_insert_eq|].
  split; [rewrite lookup_insert_ne by discriminate; apply lookup_insert_eq|].
  rewrite !dom_insert_L, dom_empty_L. set_solver.
Qed.

Lemma Encoder_as_constructed_cannot_encode_witness :
  run notebook_globals pair_lib
    (Encoder.forward
       (shipped_encoder (VInt 512) (VInt 2) (VTuple [VNone; VNone]))
       (VList [VInt 2; VInt 7; VInt 3])) tt
    = ([], tt, inl (AttributeError (VObj "Encoder") "embedding"))
  /\ shipped_encoder (VInt 512) (VInt 2) (VTuple [VNone; VNone]) !! "hidden_dim"
     = Some (VInt 512)
  /\ shipped_encoder (VInt 512) (VInt 2) (VTuple [VNone; VNone]) !! "num_layers"
     = Some (VInt 2)
  /\ dom (shipped_encoder (VInt 512) (VInt 2) (VTuple [VNone; VNone]))
     = {["hidden_dim"; "num_layers"; "dropout"]}.
Proof.
  apply (Encoder_as_constructed_cannot_encode unit notebook_globals pair_lib tt tt
           (VInt 7000) (VInt 256) (VInt 512) (VInt 2) (VFloat (1 # 2))).
  vm_compute. reflexivity.
Defined.


(** ** More on [train] *)

(** X11: [train] on an iterator that yields no batch.  For every
    library: if [model.train()] succeeds, the iterator yields nothing
    and its length is 0, then [train] raises [ZeroDivisionError] (the
    average [0 / 0]), having called neither the model, the criterion nor
    the optimizer. *)
Theorem train_on_no_batches_divides_by_zero :
  forall (S : Type) (g : gmap string value)
         (lib : extcall -> S -> S * (exn + value)) (s s1 s2 s3 s4 : S)
         (model iterator optimizer criterion clip train_mode r : value),
    lib (GetAttr model "train") s = (s1, inr train_mode) ->
    lib (Call train_mode []) s1 = (s2, inr r) ->
    lib (Iter iterator) s2 = (s3, inr (VList [])) ->
    lib (Len iterator) s3 = (s4, inr (VInt 0)) ->
    run g lib (train model iterator optimizer criterion clip) s
    = ([(GetAttr model "train", inr train_mode); (Call train_mode [], inr r);
        (Iter iterator, inr (VList [])); (Len iterator, inr (VInt 0))],
       s4, inl ZeroDivisionError).
Proof.
  intros S g lib s s1 s2 s3 s4 model iterator optimizer criterion clip
         train_mode r H1 H2 H3 H4.
  unfold train, ext. cbn [bind run]. rewrite H1. cbn [run]. rewrite H2.
  cbn [run]. rewrite H3. cbn [run train_loop bind]. rewrite H4. reflexivity.
Qed.

Lemma train_on_no_batches_divides_by_zero_witness :
  run notebook_globals sample_lib
    (train (VObj "model") (VObj "train_iterator") (VObj "optimizer")
       (VObj "criterion") (VInt 2))
    {| grad := 0; weight := 10; adam_steps := 0; dataset := []; tensor := [] |}
  = ([(GetAttr (VObj "model") "train", inr (VMethod (VObj "model") "train"));
      (Call (VMethod (VObj "model") "train") [], inr VNone);
      (Iter (VObj "train_iterator"), inr (VList []));
      (Len (VObj "train_iterator"), inr (VInt 0))],
     {| grad := 0; weight := 10; adam_steps := 0; dataset := []; tensor := [] |},
     inl ZeroDivisionError).
Proof.
  eapply (train_on_no_batches_divides_by_zero torch_state notebook_globals sample_lib);
    reflexivity.
Defined.

(** X12: [train] on the model as shipped.  In the reference model, with
    the call of the model running [Seq2Seq.forward] in the notebook's
    namespace, [train] on a first batch makes one [optimizer.step()] (on
    whatever gradient is stored) and then fails inside the forward pass
    with [NameError] for [trg_len]: the criterion is never called, no
    [backward] happens, and the only change to the library state is
    that one optimizer step. *)
Theorem train_on_shipped_model_steps_once_then_fails :
  forall fwd loss_of clipf enc dec (self : Seq2Seq.t) (clip : value)
         (g0 w0 : Z) (n0 : nat) (src trg : value) (rest tens : list value),
    run notebook_globals
      (module_call notebook_globals (torch_ref fwd loss_of clipf enc dec)
         "model" self)
      (train (VObj "model") (VObj "train_iterator") (VObj "optimizer")
         (VObj "criterion") clip)
      {| grad := g0; weight := w0; adam_steps := n0;
         dataset := Batch src trg :: rest; tensor := tens |}
    = ([(GetAttr (VObj "model") "train", inr (VMethod (VObj "model") "train"));
        (Call (VMethod (VObj "model") "train") [], inr VNone);
        (Iter (VObj "train_iterator"), inr (VList (Batch src trg :: rest)));
        (GetAttr (Batch src trg) "src", inr src);
        (GetAttr (Batch src trg) "trg", inr trg);
        (GetAttr (VObj "optimizer") "step",
         inr (VMethod (VObj "optimizer") "step"));
        (Call (VMethod (VObj "optimizer") "step") [], inr VNone);
        (Call (VObj "model") [src; trg], inl (NameError "trg_len"))],
       {| grad := g0; weight := w0 - g0; adam_steps := Datatypes.S n0;
          dataset := Batch src trg :: rest; tensor := tens |},
       inl (NameError "trg_len")).
Proof.
  intros fwd loss_of clipf enc dec self clip g0 w0 n0 src trg rest tens.
  unfold train, ext. cbn [bind run train_loop train_batch].
  unfold module_call at 1. cbv beta iota.
  change (torch_ref fwd loss_of clipf enc dec (GetAttr (VObj "model") "train") ?s)
    with (s, @inr exn value (VMethod (VObj "model") "train")).
  cbn [run bind]. unfold module_call at 1. cbv beta iota.
  change (torch_ref fwd loss_of clipf enc dec
            (Call (VMethod (VObj "model") "train") []) ?s)
    with (s, @inr exn value VNone).
  cbn [run bind]. unfold module_call at 1. cbv beta iota.
  change (torch_ref fwd loss_of clipf enc dec (Iter (VObj "train_iterator")) ?s)
    with (s, @inr exn value (VList (dataset s))).
  cbn [run bind dataset train_loop train_batch ext]. 
  unfold module_call at 1. cbv beta iota.
  change (torch_ref fwd loss_of clipf enc dec (GetAttr (Batch src trg) "src") ?s)
    with (s, @inr exn value src).
  cbn [run bind]. unfold module_call at 1. cbv beta iota.
  change (torch_ref fwd loss_of clipf enc dec (GetAttr (Batch src trg) "trg") ?s)
    with (s, @inr exn value trg).
  cbn [run bind]. unfold module_call at 1. cbv beta iota.
  change (torch_ref fwd loss_of clipf enc dec (GetAttr (VObj "optimizer") "step") ?s)
    with (s, @inr exn value (VMethod (VObj "optimizer") "step")).
  cbn [run bind]. unfold module_call at 1. cbv beta iota.
  set (st1 := {| grad := g0; weight := w0 - g0; adam_steps := Datatypes.S n0;
                 dataset := Batch src trg :: rest; tensor := tens |}).
  change (torch_ref fwd loss_of clipf enc dec
            (Call (VMethod (VObj "optimizer") "step") []) ?s)
    with (st1, @inr exn value VNone).
  cbn [run bind]. unfold module_call at 1.
  change (value_eqb (VObj "model") (VObj "model")) with true. cbv beta iota.
  unfold final, result. rewrite forward_shipped.
  change (torch_ref fwd loss_of clipf enc dec (GetAttr (VObj "torch") "zeros") st1)
    with (st1, @inr exn value (VMethod (VObj "torch") "zeros")).
  reflexivity.
Qed.

Section ReferenceLoss.
Variable fwd : Z -> value -> value -> value.
Variable loss_of : value -> value -> Z * Z.
Variable clipf : value -> Z -> Z.
Variable enc : value -> value.
Variable dec : value -> value -> value * value.

Let ref := torch_ref fwd loss_of clipf enc dec.

Lemma train_loop_ref_loss (clip : value) (pairs : list (value * value)) :
  forall (el : Z) (st : torch_state),
    result notebook_globals ref
      (train_loop (VObj "model") (VObj "optimizer") (VObj "criterion") clip
         (map (fun p => Batch p.1 p.2) pairs) (VInt el)) st
    = inr (VInt (el + loss_total fwd loss_of clipf clip st
                        (map (fun p => Batch p.1 p.2) pairs))).
Proof.
  induction pairs as [|[src trg] pairs IH]; intros el st.
  - cbn. rewrite Z.add_0_r. reflexivity.
  - cbn [map train_loop fst snd]. unfold result. rewrite run_bind.
    destruct (train_batch_ref fwd loss_of clipf enc dec clip src trg el st)
      as (T1 & H1 & _).
    fold ref in H1. rewrite H1.
    specialize (IH (el + (loss_of (fwd (weight st - grad st) src trg) trg).1)
                   (batch_effect fwd loss_of clipf clip st (Batch src trg))).
    unfold result in IH.
    destruct (run notebook_globals ref _ _) as [[t s'] r]. cbn [snd] in *.
    rewrite IH. cbn [loss_total Batch]. do 2 f_equal. lia.
Qed.

Lemma train_ref_loss (clip : value) (pairs : list (value * value))
    (st : torch_state) :
  dataset st = map (fun p => Batch p.1 p.2) pairs ->
  result notebook_globals ref
    (train (VObj "model") (VObj "train_iterator") (VObj "optimizer")
       (VObj "criterion") clip) st
  = py_truediv (VInt (loss_total fwd loss_of clipf clip st (dataset st)))
      (VInt (Z.of_nat (length pairs))).
Proof.
  intros Hds.
  destruct (train_ref fwd loss_of clipf enc dec clip pairs st Hds)
    as (T & r & H & _).
  pose proof (train_loop_ref_loss clip pairs 0 st) as Hl.
  unfold result in *. fold ref in H.
  revert H. unfold train, ext. cbn [bind run].
  change (ref (GetAttr (VObj "model") "train") st)
    with (st, @inr exn value (VMethod (VObj "model") "train")).
  cbn [run].
  change (ref (Call (VMethod (VObj "model") "train") []) st)
    with (st, @inr exn value VNone).
  cbn [run].
  change (ref (Iter (VObj "train_iterator")) st)
    with (st, @inr exn value (VList (dataset st))).
  cbn [run]. rewrite run_bind, Hds.
  destruct (run notebook_globals ref
              (train_loop (VObj "model") (VObj "optimizer") (VObj "criterion") clip
                 (map (fun p => Batch p.1 p.2) pairs) (VInt 0)) st)
    as [[t1 s1] r1].
  cbn [snd] in Hl. subst r1. cbn [bind run].
  intros H.
  assert (Hs1 : s1 = fold_left (batch_effect fwd loss_of clipf clip)
                       (map (fun p => Batch p.1 p.2) pairs) st).
  { revert H.
    destruct (ref (Len (VObj "train_iterator")) s1) as [s2 [e|v]] eqn:HL.
    - cbn. intros H. injection H as _ <- _.
      unfold ref, torch_ref in HL.
      change (value_eqb (VObj "train_iterator") (VObj "train_iterator"))
        with true in HL. cbv beta iota in HL. injection HL as <-. reflexivity.
    - rewrite run_lift. cbn. intros H. injection H as _ <- _.
      unfold ref, torch_ref in HL.
      change (value_eqb (VObj "train_iterator") (VObj "train_iterator"))
        with true in HL. cbv beta iota in HL. injection HL as <- _. reflexivity. }
  clear H.
  change (ref (Len (VObj "train_iterator")) s1)
    with (s1, @inr exn value (VInt (Z.of_nat (length (dataset s1))))).
  cbv beta iota. rewrite run_lift. cbn [snd].
  rewrite Z.add_0_l. do 3 f_equal.
  subst s1.
  assert (Hds' : forall bs s,
             dataset (fold_left (batch_effect fwd loss_of clipf clip) bs s)
             = dataset s).
  { induction bs as [|b bs IHb]; intros s; [reflexivity|].
    cbn [fold_left]. rewrite IHb.
    destruct b as [| | | | | | | |c fs| |]; try reflexivity.
    destruct fs as [|x [|y [|z fs]]]; reflexivity. }
  rewrite Hds', Hds, length_map. reflexivity.
Qed.

End ReferenceLoss.

(** X13: what [train] returns.  In the reference model, on a pass over
    any list of batches, [train] returns the sum of the batches' loss
    values divided by their number, each loss being that of the forward
    pass made after the iteration's first optimizer step; on no batch at
    all it raises [ZeroDivisionError]. *)
Theorem train_returns_the_mean_loss :
  forall fwd loss_of clipf enc dec (clip : value)
         (pairs : list (value * value)) (g0 w0 : Z) (n0 : nat)
         (tens : list value),
    let st := {| grad := g0; weight := w0; adam_steps := n0;
                 dataset := map (fun p => Batch p.1 p.2) pairs;
                 tensor := tens |} in
    let r := result notebook_globals (torch_ref fwd loss_of clipf enc dec)
               (train (VObj "model") (VObj "train_iterator") (VObj "optimizer")
                  (VObj "criterion") clip) st in
    match pairs with
    | [] => r = inl ZeroDivisionError
    | _ :: _ =>
        r = inr (VFloat
                   (inject_Z (loss_total fwd loss_of clipf clip st (dataset st))
                    / inject_Z (Z.of_nat (length pairs))))
    end.
Proof.
  intros fwd loss_of clipf enc dec clip pairs g0 w0 n0 tens st r.
  subst r. rewrite (train_ref_loss fwd loss_of clipf enc dec clip pairs st eq_refl).
  destruct pairs as [|p pairs]; [reflexivity|].
  unfold py_truediv. cbn [to_Q length Z.of_nat]. reflexivity.
Qed.

(** ** Counting and initialising parameters *)

Lemma numel_calls_cons (ev : event) (t : list event) :
  numel_calls (ev :: t) =
  if is_numel_call ev then Datatypes.S (numel_calls t) else numel_calls t.
Proof.
  unfold numel_calls. rewrite filter_cons.
  destruct (is_numel_call ev); case_decide; try congruence; reflexivity.
Qed.

Lemma count_loop_ref g (ps : list (string * Z * bool)) :
  forall (total : Z) (s : list (value * value * value)),
    exists T,
      run g nn_ref
        (count_loop (map (fun p : string * Z * bool =>
                            nn_Parameter p.1.1 p.1.2 p.2) ps) (VInt total)) s
      = (T, s, inr (VInt (total + trainable_elements ps)))
      /\ numel_calls T = length (filter (fun p : string * Z * bool => p.2 = true) ps).
Proof.
  induction ps as [|[[name n] [|]] ps IH]; intros total s.
  - exists []. cbn. rewrite Z.add_0_r. split; reflexivity.
  - destruct (IH (total + n) s) as (T & HT & Hn).
    unfold nn_Parameter in *.
    cbn [map count_loop fst snd ext bind run].
    change (nn_ref (GetAttr (VData "Parameter" [VStr name; VInt n; VInt 1])
                      "requires_grad") s)
      with (s, @inr exn value (VInt 1)).
    cbn [run truthy bind Z.eqb negb].
    change (nn_ref (GetAttr (VData "Parameter" [VStr name; VInt n; VInt 1]) "numel") s)
      with (s, @inr exn value
                 (VMethod (VData "Parameter" [VStr name; VInt n; VInt 1]) "numel")).
    cbn [run].
    change (nn_ref (Call (VMethod (VData "Parameter" [VStr name; VInt n; VInt 1])
                            "numel") []) s)
      with (s, @inr exn value (VInt n)).
    cbn [run py_add lift bind].
    rewrite HT. eexists. split.
    + cbn [trainable_elements foldr fst snd].
      fold (trainable_elements ps). do 3 f_equal. lia.
    + rewrite !numel_calls_cons. cbn [is_numel_call fst].
      change (String.eqb "numel" "numel") with true. cbv beta iota.
      rewrite Hn, filter_cons. cbn [snd]. case_decide; [reflexivity | congruence].
  - destruct (IH total s) as (T & HT & Hn).
    unfold nn_Parameter in *.
    cbn [map count_loop fst snd ext bind run].
    change (nn_ref (GetAttr (VData "Parameter" [VStr name; VInt n; VInt 0])
                      "requires_grad") s)
      with (s, @inr exn value (VInt 0)).
    cbn [run truthy bind Z.eqb negb].
    rewrite HT. eexists. split.
    + reflexivity.
    + rewrite numel_calls_cons. cbn [is_numel_call fst].
      rewrite Hn, filter_cons. cbn [snd]. case_decide; [congruence | reflexivity].
Qed.

Lemma module_parameters (ps : list (string * Z * bool)) :
  map second
    (map (fun np : string * value => VTuple [VStr np.1; np.2])
       (map (fun p : string * Z * bool => (p.1.1, nn_Parameter p.1.1 p.1.2 p.2)) ps))
  = map (fun p : string * Z * bool => nn_Parameter p.1.1 p.1.2 p.2) ps.
Proof. rewrite !map_map. reflexivity. Qed.

(** X14: [count_parameters] counts the elements of the parameters that
    require gradients.  In the reference model of a module, for any
    named parameters, the result is the integer sum of [numel()] over
    those whose [requires_grad] is true (the integer 0 when there is
    none); [numel] is called once for each of them and never for a
    frozen parameter, and the library state is unchanged. *)
Theorem count_parameters_sums_trainable_elements :
  forall (g : gmap string value) (ps : list (string * Z * bool))
         (s : list (value * value * value)),
    let r := run g nn_ref (count_parameters (module_of ps)) s in
    r.2 = inr (VInt (trainable_elements ps))
    /\ r.1.2 = s
    /\ numel_calls r.1.1
       = length (filter (fun p : string * Z * bool => p.2 = true) ps).
Proof.
  intros g ps s r. subst r.
  destruct (count_loop_ref g ps 0 s) as (T & HT & Hn).
  unfold count_parameters, module_of, nn_Module, ext. cbn [bind run].
  change (nn_ref (GetAttr (VData "Module" ?f) "parameters") s)
    with (s, @inr exn value (VMethod (VData "Module" f) "parameters")).
  cbn [run].
  change (nn_ref (Call (VMethod (VData "Module" ?f) "parameters") []) s)
    with (s, @inr exn value (VList (map second f))).
  cbn [run]. rewrite module_parameters.
  change (nn_ref (Iter (VList ?l)) s) with (s, @inr exn value (VList l)).
  cbn [run]. rewrite HT. cbn [fst snd].
  split; [reflexivity|]. split; [reflexivity|].
  rewrite !numel_calls_cons. cbn [is_numel_call fst].
  change (String.eqb "parameters" "numel") with false. exact Hn.
Qed.

Lemma init_weights_loop_ref g (ps : list (string * Z * bool)) :
  lookup_name g "nn" = Some (VObj "nn") ->
  forall s : list (value * value * value),
    exists T,
      run g nn_ref
        (init_weights_loop
           (map (fun np : string * value => VTuple [VStr np.1; np.2])
              (map (fun p : string * Z * bool =>
                      (p.1.1, nn_Parameter p.1.1 p.1.2 p.2)) ps))) s
      = (T,
         (s ++ map (fun p : string * Z * bool =>
                      (VData "Tensor" [VStr p.1.1],
                       VFloat (- float_0_08), VFloat float_0_08)) ps)%list,
         inr VNone).
Proof.
  intros Hnn. induction ps as [|[[name n] b] ps IH]; intros s.
  - exists []. cbn [map init_weights_loop run]. rewrite app_nil_r. reflexivity.
  - destruct (IH (s ++ [(VData "Tensor" [VStr name],
                         VFloat (- float_0_08), VFloat float_0_08)])%list)
      as (T & HT).
    unfold nn_Parameter in *.
    cbn [map init_weights_loop fst snd].
    rewrite run_bind.
    unfold init_weights_item at 1. cbn [unpack2 bind load ext].
    rewrite (run_load_bound _ _ _ _ _ _ Hnn).
    cbn [run].
    change (nn_ref (GetAttr (VObj "nn") "init") s)
      with (s, @inr exn value (VMethod (VObj "nn") "init")).
    cbn [run].
    change (nn_ref (GetAttr (VMethod (VObj "nn") "init") "uniform_") s)
      with (s, @inr exn value (VMethod (VMethod (VObj "nn") "init") "uniform_")).
    cbn [run].
    change (nn_ref (GetAttr (VData "Parameter" ?f) "data") s)
      with (s, @inr exn value (VData "Tensor" [VStr name])).
    cbn [run ext].
    change (nn_ref (Call (VMethod (VMethod (VObj "nn") "init") "uniform_")
                      [?t; ?lo; ?hi]) s)
      with ((s ++ [(t, lo, hi)])%list, @inr exn value t).
    cbn [run]. rewrite HT. eexists.
    rewrite <- app_assoc. reflexivity.
Qed.

(** X15: [init_weights] draws every parameter of the model between
    -0.08 and 0.08.  In the reference model of a module, when [nn] names
    the library, the function calls [nn.init.uniform_] once on the data
    of each named parameter, in order and whether or not the parameter
    requires gradients, with the bounds -0.08 and 0.08, and returns
    [None]. *)
Theorem init_weights_initialises_every_parameter :
  forall (g : gmap string value) (ps : list (string * Z * bool))
         (s : list (value * value * value)),
    lookup_name g "nn" = Some (VObj "nn") ->
    let r := run g nn_ref (init_weights (module_of ps)) s in
    r.2 = inr VNone
    /\ r.1.2 = (s ++ map (fun p : string * Z * bool =>
                            (VData "Tensor" [VStr p.1.1],
                             VFloat (- float_0_08), VFloat float_0_08)) ps)%list.
Proof.
  intros g ps s Hnn r. subst r.
  destruct (init_weights_loop_ref g ps Hnn s) as (T & HT).
  unfold init_weights, module_of, nn_Module, ext. cbn [bind run].
  change (nn_ref (GetAttr (VData "Module" ?f) "named_parameters") s)
    with (s, @inr exn value (VMethod (VData "Module" f) "named_parameters")).
  cbn [run].
  change (nn_ref (Call (VMethod (VData "Module" ?f) "named_parameters") []) s)
    with (s, @inr exn value (VList f)).
  cbn [run].
  change (nn_ref (Iter (VList ?l)) s) with (s, @inr exn value (VList l)).
  cbn [run]. rewrite HT. cbn [fst snd]. split; reflexivity.
Qed.

Lemma init_weights_initialises_every_parameter_witness :
  lookup_name notebook_globals "nn" = Some (VObj "nn")
  /\ (run notebook_globals nn_ref
        (init_weights (module_of [("embedding.weight", 200, true);
                                  ("rnn.bias", 8, false)])) []).1.2
     = [(VData "Tensor" [VStr "embedding.weight"],
         VFloat (- float_0_08), VFloat float_0_08);
        (VData "Tensor" [VStr "rnn.bias"],
         VFloat (- float_0_08), VFloat float_0_08)].
Proof.
  assert (H : lookup_name notebook_globals "nn" = Some (VObj "nn"))
    by (vm_compute; reflexivity).
  split; [exact H|].
  exact (proj2 (init_weights_initialises_every_parameter notebook_globals
                  [("embedding.weight", 200, true); ("rnn.bias", 8, false)]
                  [] H)).
Defined.

(** ** Evaluation *)

Lemma evaluate_enter_calls g (model : value) :
  all_calls g evaluate_fetches (evaluate_enter model).
Proof.
  unfold evaluate_enter, load, ext. cbn [bind all_calls evaluate_fetches]. fetch_ok.
Qed.

Lemma evaluate_batch_calls g (model criterion batch epoch_loss : value) :
  all_calls g evaluate_fetches (evaluate_batch model criterion batch epoch_loss).
Proof.
  unfold evaluate_batch, ext. cbn [bind all_calls evaluate_fetches]. fetch_ok.
Qed.

Lemma truthy_calls g (v : value) : all_calls g evaluate_fetches (truthy v).
Proof.
  destruct v; cbn [truthy ext bind all_calls evaluate_fetches]; fetch_ok;
    match goal with |- all_calls _ _ (match ?r with _ => _ end) =>
      destruct r; exact I end.
Qed.

Lemma evaluate_return_calls g (iterator epoch_loss : value) :
  all_calls g evaluate_fetches (evaluate_return iterator epoch_loss).
Proof.
  unfold evaluate_return, ext. cbn [bind all_calls evaluate_fetches]. fetch_ok.
Qed.

Lemma evaluate_leave_calls g (exit iterator epoch_loss : value)
    (raised : option exn) :
  all_calls g evaluate_fetches (evaluate_leave exit iterator epoch_loss raised).
Proof.
  destruct raised as [e|]; unfold evaluate_leave, ext;
    cbn [bind all_calls evaluate_fetches]; (split; [exact I|]); intros r.
  - apply all_calls_bind; [apply truthy_calls|].
    intros [|]; [apply evaluate_return_calls | exact I].
  - apply evaluate_return_calls.
Qed.

Lemma evaluate_loop_calls {S} g (lib : extcall -> S -> S * (exn + value))
    (model criterion : value) (batches : list value) :
  forall (epoch_loss : value) (s : S),
    Forall (fun ev : event => evaluate_fetches ev.1)
      (evaluate_loop g lib model criterion batches epoch_loss s).1.1.
Proof.
  induction batches as [|batch batches IH]; intros epoch_loss s.
  - constructor.
  - cbn [evaluate_loop].
    pose proof (all_calls_trace g lib _ _ s
                  (evaluate_batch_calls g model criterion batch epoch_loss)) as Hb.
    unfold trace in Hb.
    destruct (run g lib (evaluate_batch model criterion batch epoch_loss) s)
      as [[t s'] [e|epoch_loss']]; cbn [fst] in *; [exact Hb|].
    specialize (IH epoch_loss' s').
    destruct (evaluate_loop g lib model criterion batches epoch_loss' s')
      as [[t' s''] r]. cbn [fst] in *.
    apply Forall_app. split; assumption.
Qed.

Lemma evaluate_body_calls {S} g (lib : extcall -> S -> S * (exn + value))
    (model iterator criterion epoch_loss : value) (s : S) :
  Forall (fun ev : event => evaluate_fetches ev.1)
    (evaluate_body g lib model iterator criterion epoch_loss s).1.1.
Proof.
  unfold evaluate_body.
  assert (Hi : all_calls g evaluate_fetches (ext (Iter iterator)))
    by (split; [exact I | intros; exact I]).
  pose proof (all_calls_trace g lib _ _ s Hi) as Ht. unfold trace in Ht.
  destruct (run g lib (ext (Iter iterator)) s) as [[t s'] [e|items]];
    cbn [fst] in *; [exact Ht|].
  destruct items; try exact Ht.
  pose proof (evaluate_loop_calls g lib model criterion vs epoch_loss s') as Hl.
  destruct (evaluate_loop g lib model criterion vs epoch_loss s')
    as [[t' s''] r]. cbn [fst] in *.
  apply Forall_app. split; assumption.
Qed.

(** X16: [evaluate] asks nothing that changes the parameters.  For every
    library and every three arguments, the only attributes it fetches
    are [eval], [no_grad], [__enter__], [__exit__], [src], [trg] and
    [item]: never [backward], [step], [zero_grad] or the gradient
    clipping that [train] uses, and it assigns no item. *)
Theorem evaluate_never_asks_for_an_update :
  forall (S : Type) (g : gmap string value)
         (lib : extcall -> S -> S * (exn + value)) (s : S)
         (model iterator criterion : value),
    Forall (fun ev : event =>
              evaluate_fetches ev.1
              /\ forall o a, ev.1 = GetAttr o a ->
                             a <> "backward" /\ a <> "step" /\ a <> "zero_grad"
                             /\ a <> "clip_grad_norm_")
      (evaluate g lib model iterator criterion s).1.1.
Proof.
  intros S g lib s model iterator criterion.
  assert (H : Forall (fun ev : event => evaluate_fetches ev.1)
                (evaluate g lib model iterator criterion s).1.1).
  { unfold evaluate.
    pose proof (all_calls_trace g lib _ _ s (evaluate_enter_calls g model)) as H0.
    unfold trace in H0.
    destruct (run g lib (evaluate_enter model) s) as [[t0 s0] [e|exit]];
      cbn [fst] in *; [exact H0|].
    pose proof (evaluate_body_calls g lib model iterator criterion (VInt 0) s0)
      as H1.
    destruct (evaluate_body g lib model iterator criterion (VInt 0) s0)
      as [[t1 s1] [epoch_loss raised]]. cbn [fst] in *.
    pose proof (all_calls_trace g lib _ _ s1
                  (evaluate_leave_calls g exit iterator epoch_loss raised)) as H2.
    unfold trace in H2.
    destruct (run g lib (evaluate_leave exit iterator epoch_loss raised) s1)
      as [[t2 s2] r]. cbn [fst] in *.
    repeat (apply Forall_app; split); assumption. }
  eapply Forall_impl; [exact H|].
  intros [c r] Hc. cbn [fst] in *. split; [exact Hc|].
  intros o a ->. cbn in Hc.
  repeat split; intros ->; repeat (destruct Hc as [Hc|Hc]; [discriminate|]);
    exact Hc.
Qed.

Section ReferenceEvaluate.
Variable fwd : Z -> value -> value -> value.
Variable loss_of : value -> value -> Z * Z.
Variable clipf : value -> Z -> Z.
Variable enc : value -> value.
Variable dec : value -> value -> value * value.

Let ref := no_grad_lib (torch_ref fwd loss_of clipf enc dec).

Lemma evaluate_loop_ref (pairs : list (value * value)) :
  forall (el : Z) (st : torch_state),
    exists T,
      evaluate_loop notebook_globals ref (VObj "model") (VObj "criterion")
        (map (fun p => Batch p.1 p.2) pairs) (VInt el) st
      = (T, st, (VInt (el + eval_total fwd loss_of (weight st) pairs), None)).
Proof.
  induction pairs as [|[src trg] pairs IH]; intros el st.
  - exists []. cbn. rewrite Z.add_0_r. reflexivity.
  - cbn [map evaluate_loop fst snd].
    unfold evaluate_batch, ext. cbn [bind run].
    change (ref (GetAttr (Batch src trg) "src") st) with (st, @inr exn value src).
    cbn [run].
    change (ref (GetAttr (Batch src trg) "trg") st) with (st, @inr exn value trg).
    cbn [run].
    change (ref (Call (VObj "model") [src; trg]) st)
      with (st, @inr exn value (fwd (weight st) src trg)).
    cbn [run].
    set (out := fwd (weight st) src trg).
    set (loss := VData "Loss" [VInt (loss_of out trg).1; VInt (loss_of out trg).2]).
    change (ref (Call (VObj "criterion") [out; trg]) st)
      with (st, @inr exn value loss).
    cbn [run].
    change (ref (GetAttr loss "item") st)
      with (st, @inr exn value (VMethod loss "item")).
    cbn [run].
    change (ref (Call (VMethod loss "item") []) st)
      with (st, @inr exn value (VInt (loss_of out trg).1)).
    cbn [run py_add lift].
    destruct (IH (el + (loss_of out trg).1) st) as (T & HT).
    rewrite HT. eexists. do 3 f_equal.
    cbn [eval_total foldr fst snd]. fold (eval_total fwd loss_of (weight st) pairs).
    subst out. lia.
Qed.

Lemma evaluate_ref (pairs : list (value * value)) (st : torch_state) :
  dataset st = map (fun p => Batch p.1 p.2) pairs ->
  exists T,
    evaluate notebook_globals ref (VObj "model") (VObj "train_iterator")
      (VObj "criterion") st
    = (T, st,
       py_truediv (VInt (eval_total fwd loss_of (weight st) pairs))
         (VInt (Z.of_nat (length pairs)))).
Proof.
  intros Hds.
  unfold evaluate, evaluate_enter, load, ext. cbn [bind run].
  change (ref (GetAttr (VObj "model") "eval") st)
    with (st, @inr exn value (VMethod (VObj "model") "eval")).
  cbn [run].
  change (ref (Call (VMethod (VObj "model") "eval") []) st)
    with (st, @inr exn value VNone).
  cbn [run]. rewrite torch_bound.
  change (ref (GetAttr (VObj "torch") "no_grad") st)
    with (st, @inr exn value (VMethod (VObj "torch") "no_grad")).
  cbn [run].
  change (ref (Call (VMethod (VObj "torch") "no_grad") []) st)
    with (st, @inr exn value no_grad).
  cbn [run].
  change (ref (GetAttr no_grad "__enter__") st)
    with (st, @inr exn value (VMethod no_grad "__enter__")).
  cbn [run].
  change (ref (GetAttr no_grad "__exit__") st)
    with (st, @inr exn value (VMethod no_grad "__exit__")).
  cbn [run].
  change (ref (Call (VMethod no_grad "__enter__") []) st)
    with (st, @inr exn value VNone).
  cbn [run].
  unfold evaluate_body, ext. cbn [run].
  change (ref (Iter (VObj "train_iterator")) st)
    with (st, @inr exn value (VList (dataset st))).
  cbn [run]. rewrite Hds.
  destruct (evaluate_loop_ref pairs 0 st) as (T & HT). rewrite HT.
  unfold evaluate_leave, evaluate_return, ext. cbn [bind run].
  change (ref (Call (VMethod no_grad "__exit__") [VNone; VNone; VNone]) st)
    with (st, @inr exn value VNone).
  cbn [run].
  change (ref (Len (VObj "train_iterator")) st)
    with (st, @inr exn value (VInt (Z.of_nat (length (dataset st))))).
  cbn [run]. rewrite run_lift, Hds, length_map, Z.add_0_l.
  eexists. reflexivity.
Qed.

End ReferenceEvaluate.

(** X17: what [evaluate] returns and leaves behind.  In the reference
    model extended with [torch.no_grad()], on a pass over any list of
    batches, [evaluate] returns the sum of the batches' loss values, all
    taken at the weight the model has when the call starts, divided by
    their number, and the library state (weight, stored gradient and
    optimizer steps) is the one it started from; on no batch at all it
    raises [ZeroDivisionError]. *)
Theorem evaluate_returns_the_mean_loss_and_changes_nothing :
  forall fwd loss_of clipf enc dec (pairs : list (value * value))
         (g0 w0 : Z) (n0 : nat) (tens : list value),
    let st := {| grad := g0; weight := w0; adam_steps := n0;
                 dataset := map (fun p => Batch p.1 p.2) pairs;
                 tensor := tens |} in
    let r := evaluate notebook_globals
               (no_grad_lib (torch_ref fwd loss_of clipf enc dec))
               (VObj "model") (VObj "train_iterator") (VObj "criterion") st in
    r.1.2 = st
    /\ match pairs with
       | [] => r.2 = inl ZeroDivisionError
       | _ :: _ =>
           r.2 = inr (VFloat (inject_Z (eval_total fwd loss_of w0 pairs)
                              / inject_Z (Z.of_nat (length pairs))))
       end.
Proof.
  intros fwd loss_of clipf enc dec pairs g0 w0 n0 tens st r.
  destruct (evaluate_ref fwd loss_of clipf enc dec pairs st eq_refl) as (T & H).
  subst r. rewrite H. cbn [fst snd]. split; [reflexivity|].
  destruct pairs as [|p pairs]; [reflexivity|].
  unfold py_truediv. cbn [to_Q weight st].
  assert (Hn : Qeq_bool (inject_Z (Z.of_nat (length (p :: pairs)))) 0 = false).
  { cbn [length]. rewrite Nat2Z.inj_succ.
    destruct (Z.succ (Z.of_nat (length pairs))) eqn:E; [lia | reflexivity | lia]. }
  rewrite Hn. reflexivity.
Qed.

(** X18: [evaluate] on the model as shipped.  In the reference model
    extended with [torch.no_grad()], with the call of the model running
    [Seq2Seq.forward] in the notebook's namespace, [evaluate] on a first
    batch fails inside the forward pass with [NameError] for [trg_len]:
    the criterion is never called, [__exit__] of the no-grad context is
    still called, with that exception, and lets it propagate, and the
    library state is the one the call started from. *)
Theorem evaluate_on_shipped_model_fails_in_the_first_batch :
  forall fwd loss_of clipf enc dec (self : Seq2Seq.t)
         (g0 w0 : Z) (n0 : nat) (src trg : value) (rest tens : list value),
    let st := {| grad := g0; weight := w0; adam_steps := n0;
                 dataset := Batch src trg :: rest; tensor := tens |} in
    evaluate notebook_globals
      (module_call notebook_globals
         (no_grad_lib (torch_ref fwd loss_of clipf enc dec)) "model" self)
      (VObj "model") (VObj "train_iterator") (VObj "criterion") st
    = ([(GetAttr (VObj "model") "eval", inr (VMethod (VObj "model") "eval"));
        (Call (VMethod (VObj "model") "eval") [], inr VNone);
        (GetAttr (VObj "torch") "no_grad",
         inr (VMethod (VObj "torch") "no_grad"));
        (Call (VMethod (VObj "torch") "no_grad") [], inr no_grad);
        (GetAttr no_grad "__enter__", inr (VMethod no_grad "__enter__"));
        (GetAttr no_grad "__exit__", inr (VMethod no_grad "__exit__"));
        (Call (VMethod no_grad "__enter__") [], inr VNone);
        (Iter (VObj "train_iterator"), inr (VList (Batch src trg :: rest)));
        (GetAttr (Batch src trg) "src", inr src);
        (GetAttr (Batch src trg) "trg", inr trg);
        (Call (VObj "model") [src; trg], inl (NameError "trg_len"));
        (Call (VMethod no_grad "__exit__") (exc_info (NameError "trg_len")),
         inr VNone)],
       st, inl (NameError "trg_len")).
Proof.
  intros fwd loss_of clipf enc dec self g0 w0 n0 src trg rest tens st.
  set (ref := no_grad_lib (torch_ref fwd loss_of clipf enc dec)).
  set (lib := module_call notebook_globals ref "model" self).
  assert (Hget : forall o a s, lib (GetAttr o a) s = ref (GetAttr o a) s)
    by reflexivity.
  assert (Hcall0 : forall f s, lib (Call f []) s = ref (Call f []) s)
    by reflexivity.
  assert (Hiter : forall o s, lib (Iter o) s = ref (Iter o) s) by reflexivity.
  assert (Hmodel : lib (Call (VObj "model") [src; trg]) st
                   = (st, inl (NameError "trg_len"))).
  { unfold lib, module_call.
    change (value_eqb (VObj "model") (VObj "model")) with true. cbv beta iota.
    unfold final, result. rewrite forward_shipped.
    change (ref (GetAttr (VObj "torch") "zeros") st)
      with (st, @inr exn value (VMethod (VObj "torch") "zeros")).
    reflexivity. }
  assert (Hexit : lib (Call (VMethod no_grad "__exit__")
                         (exc_info (NameError "trg_len"))) st
                  = (st, inr VNone)) by reflexivity.
  clearbody lib.
  unfold evaluate, evaluate_enter, load, ext. cbn [bind run].
  rewrite Hget.
  change (ref (GetAttr (VObj "model") "eval") st)
    with (st, @inr exn value (VMethod (VObj "model") "eval")).
  cbn [run]. rewrite Hcall0.
  change (ref (Call (VMethod (VObj "model") "eval") []) st)
    with (st, @inr exn value VNone).
  cbn [run]. rewrite torch_bound, Hget.
  change (ref (GetAttr (VObj "torch") "no_grad") st)
    with (st, @inr exn value (VMethod (VObj "torch") "no_grad")).
  cbn [run]. rewrite Hcall0.
  change (ref (Call (VMethod (VObj "torch") "no_grad") []) st)
    with (st, @inr exn value no_grad).
  cbn [run]. rewrite Hget.
  change (ref (GetAttr no_grad "__enter__") st)
    with (st, @inr exn value (VMethod no_grad "__enter__")).
  cbn [run]. rewrite Hget.
  change (ref (GetAttr no_grad "__exit__") st)
    with (st, @inr exn value (VMethod no_grad "__exit__")).
  cbn [run]. rewrite Hcall0.
  change (ref (Call (VMethod no_grad "__enter__") []) st)
    with (st, @inr exn value VNone).
  cbn [run].
  unfold evaluate_body, ext. cbn [run]. rewrite Hiter.
  change (ref (Iter (VObj "train_iterator")) st)
    with (st, @inr exn value (VList (Batch src trg :: rest))).
  cbn [run evaluate_loop].
  unfold evaluate_batch, ext. cbn [bind run]. rewrite Hget.
  change (ref (GetAttr (Batch src trg) "src") st) with (st, @inr exn value src).
  cbn [run]. rewrite Hget.
  change (ref (GetAttr (Batch src trg) "trg") st) with (st, @inr exn value trg).
  cbn [run]. rewrite Hmodel.
  unfold evaluate_leave, ext. cbn [bind run]. rewrite Hexit.
  reflexivity.
Qed.
